(** * Pod autoscaling benchmark: grid generation, data filtering, model
      persistence and parameter advice

    A shallow embedding of [benchmark.py], [formatting.py] and [ml.py].
    Python exceptions are values of [exn]; a function that can raise returns
    a [result]; a function that reads or writes files, the environment, the
    log or the monitoring backend runs in the state monad [M] over a
    [world].  Library calls whose arithmetic is outside the repository
    (scikit-learn fitting, TOPSIS, Prometheus, pandas joins) are fields of
    the class [External]. *)

From Stdlib Require Import ZArith Lia SpecFloat.
From stdpp Require Import base option list strings gmap.

Local Open Scope Z_scope.

(** ** Exceptions and results *)

Inductive exn :=
| ZeroDivisionError
| OverflowError
| ValueError
| TypeError
| IndexError
| KeyError (label : string)
| AttributeError (attribute : string)
| FileNotFoundError (path : string)
| UnpicklingError.

Inductive result (A : Type) :=
| Ok (a : A)
| Raise (e : exn).
Arguments Ok {A} a.
Arguments Raise {A} e.

#[global] Instance result_ret : MRet result := λ A a, Ok a.
#[global] Instance result_bind : MBind result :=
  λ A B f m, match m with Ok a => f a | Raise e => Raise e end.
#[global] Instance result_fmap : FMap result :=
  λ A B f m, match m with Ok a => Ok (f a) | Raise e => Raise e end.

(** [mapM] for [result]: the first exception wins, as in a Python loop. *)
Fixpoint traverse {A B : Type} (f : A → result B) (l : list A) : result (list B) :=
  match l with
  | [] => Ok []
  | a :: l' => b ← f a; bs ← traverse f l'; Ok (b :: bs)
  end.

(** A [for] loop that updates a value [s] and may raise. *)
Fixpoint for_each {S A : Type} (body : S → A → result S) (l : list A) (s : S) : result S :=
  match l with
  | [] => Ok s
  | a :: l' => s' ← body s a; for_each body l' s'
  end.

(** Python's [range(0, n)]. *)
Definition range (n : Z) : list Z := map Z.of_nat (seq 0 (Z.to_nat n)).

(** ** NumPy: 32-bit integers, [arange], float to integer conversion *)

Module Numpy.

Definition int32_min : Z := - 2 ^ 31.
Definition int32_max : Z := 2 ^ 31 - 1.

Definition in_int32 (z : Z) : bool := (int32_min <=? z) && (z <=? int32_max).

(** Two's complement reduction, the C conversion to [npy_int]. *)
Definition wrap32 (z : Z) : Z := (z + 2 ^ 31) mod 2 ^ 32 - 2 ^ 31.

(** Storing a Python integer into an [np.int32] slot: a value inside the
    type's range is stored unchanged; a value outside is refused with
    [OverflowError].  (Older NumPy versions wrap instead where a C [long]
    has 64 bits; the statements below only rely on values inside the
    range, where every version agrees.) *)
Definition int32_setitem (z : Z) : result Z :=
  if in_int32 z then Ok z else Raise OverflowError.

(** [ceil((stop - start) / step)], clamped at 0; Python's true division
    raises on a zero step.  [Z.div] rounds towards minus infinity, so the
    ceiling is the negated floor of the negated quotient.  NumPy takes the
    ceiling of the binary64 quotient, which agrees with the exact one as
    long as the operands are below 2^52 in absolute value. *)
Definition arange_length (start stop step : Z) : result Z :=
  if step =? 0 then Raise ZeroDivisionError
  else Ok (Z.max 0 (- ((start - stop) / step))).

(** The [int32] fill loop: slots 0 and 1 are given, slot [i >= 2] is
    [start + i * delta] computed in machine arithmetic. *)
Definition int32_fill (b0 b1 : Z) (n : nat) : list Z :=
  let delta := wrap32 (b1 - b0) in
  b0 :: b1 :: map (λ i, wrap32 (b0 + Z.of_nat i * delta)) (seq 2 (n - 2)).

(** [np.arange(start, stop, step, np.int32)]. *)
Definition arange (start stop step : Z) : result (list Z) :=
  len ← arange_length start stop step;
  if len =? 0 then Ok []
  else
    b0 ← int32_setitem start;
    if len =? 1 then Ok [b0]
    else
      b1 ← int32_setitem (start + step);
      Ok (int32_fill b0 b1 (Z.to_nat len)).

(** [np.flip] on a one-dimensional array. *)
Definition flip {A : Type} (a : list A) : list A := rev a.

(** IEEE binary64, as [np.float64]. *)
Definition float64 : Type := spec_float.
Definition f64_div : float64 → float64 → float64 := SFdiv 53 1024.
Definition f64_of_Z (z : Z) : float64 := binary_normalize 53 1024 z 0 false.

(** Python's [int(x)] on a float: truncation towards zero; [nan] and the
    infinities raise. *)
Definition float_to_int (x : float64) : result Z :=
  match x with
  | S754_zero _ => Ok 0
  | S754_infinity _ => Raise OverflowError
  | S754_nan => Raise ValueError
  | S754_finite s m e =>
      let magnitude :=
        if 0 <=? e then Z.pos m * 2 ^ e else Z.pos m / 2 ^ (- e) in
      Ok (if s then - magnitude else magnitude)
  end.

(** Storing a float into an [np.int32] field. *)
Definition int32_of_float (x : float64) : result Z :=
  z ← float_to_int x; int32_setitem z.

(** [a[i]] for a Python integer index: negative indices count from the
    end, anything else out of range raises. *)
Definition getitem {A : Type} (a : list A) (i : Z) : result A :=
  let n := Z.of_nat (length a) in
  let k := if i <? 0 then i + n else i in
  if (0 <=? k) && (k <? n) then
    match a !! Z.to_nat k with
    | Some x => Ok x
    | None => Raise IndexError
    end
  else Raise IndexError.

End Numpy.

Import Numpy.

(** ** Data model *)

(** One (CPU limit, memory limit, replica count) triple; the fields are the
    [np.int32] fields of the structured dtype used by both the grid and the
    advisor. *)
Record ParameterPoint := Point { cpu : Z; memory : Z; pods : Z }.

(** A cell of a table: a float, an integer or a string. *)
Inductive cell :=
| CFloat (x : float64)
| CInt (z : Z)
| CStr (s : string).

(** A pandas frame, column major: the row labels and, per column label, the
    values of that column.  Column labels are distinct in every frame the
    program builds (the merges add suffixes to clashing labels). *)
Record DataFrame := Frame {
  df_index : list Z;
  df_columns : list (string * list cell)
}.

(** What [predict] returns: an array of shape [(n,)], or an array of shape
    [(n, k)] given by its rows (a model fitted on a target of shape
    [(n, 1)] predicts shape [(n, 1)]). *)
Inductive prediction :=
| Vector (values : list float64)
| Matrix (rows : list (list float64)).

(** A fitted regression model, seen through [predict]. *)
Record Estimator := { predict : list ParameterPoint → result prediction }.

(** The Python objects that reach [joblib.dump]. *)
Inductive pyobj :=
| PyBool (b : bool)
| PyEstimator (m : Estimator).

(** A file is modelled by the value that was serialised into it. *)
Inductive file_data :=
| Csv (df : DataFrame)
| Joblib (o : pyobj).

(** [benchmark.py] and [formatting.py] set the root logger to [INFO]:
    debug records are dropped and are left out of the model.  The records
    of [ml.py], which does not set a level of its own, are modelled at the
    same level. *)
Inductive level := ERROR | WARNING | INFO.
Record log_record := Log { log_level : level; log_message : string }.

(** A request sent to the monitoring backend. *)
Inductive prom_call :=
| custom_query_range (url : option string) (query : option string)
    (start_time end_time : Z) (step : string)
| get_metric_range_data (url : option string) (metric_name : string)
    (start_time end_time : Z).

(** ** The world and the monad of effects *)

(** [fs] maps the paths of the existing files to their contents
    (directories are not modelled: a write never fails for a missing
    directory); [env] is the settings store, the [.env] file as loaded into
    the process environment. *)
Record world := World {
  fs : gmap string file_data;
  env : gmap string string;
  cwd : string;
  clock : Z;                      (* seconds *)
  log : list log_record;
  backend_calls : list prom_call
}.

Definition M (A : Type) : Type := world → result A * world.

#[global] Instance M_ret : MRet M := λ A a w, (Ok a, w).
#[global] Instance M_bind : MBind M :=
  λ A B f m w, match m w with
               | (Ok a, w') => f a w'
               | (Raise e, w') => (Raise e, w')
               end.

Definition lift {A : Type} (r : result A) : M A := λ w, (r, w).
Definition raise {A : Type} (e : exn) : M A := lift (Raise e).

Module os.
Definition getenv (key : string) : M (option string) := λ w, (Ok (env w !! key), w).
Definition getcwd : M string := λ w, (Ok (cwd w), w).

Module path.
(** [posixpath.join]: an absolute component restarts the path. *)
Fixpoint join_from (acc : string) (parts : list string) : string :=
  match parts with
  | [] => acc
  | b :: rest =>
      let acc' :=
        if String.prefix "/" b then b
        else if (String.eqb acc "" || String.eqb (String.substring (String.length acc - 1) 1 acc) "/")%bool
             then acc +:+ b
             else acc +:+ "/" +:+ b in
      join_from acc' rest
  end.
Definition join (a : string) (parts : list string) : string := join_from a parts.

Definition exists_ (p : string) : M bool :=
  λ w, (Ok (bool_decide (is_Some (fs w !! p))), w).
End path.
End os.

Module logging.
Definition emit (l : level) (msg : string) : M unit :=
  λ w, (Ok tt, World (fs w) (env w) (cwd w) (clock w) (log w ++ [Log l msg]) (backend_calls w)).
Definition error := emit ERROR.
Definition warning := emit WARNING.
Definition info := emit INFO.
End logging.

(** Creating or replacing the file at [p]. *)
Definition write_file (p : string) (d : file_data) : M unit :=
  λ w, (Ok tt, World (<[p := d]> (fs w)) (env w) (cwd w) (clock w) (log w) (backend_calls w)).

Definition datetime_now : M Z := λ w, (Ok (clock w), w).

(** ** Library collaborators *)

Inductive criterion := MIN | MAX.

Class External := {
  (** training arrays and backend answers are opaque *)
  ndarray : Type;
  metric_data : Type;
  (** Python's [int] on a string *)
  py_int : string → result Z;
  (** the monitoring backend *)
  prometheus : prom_call → result metric_data;
  (** scikit-learn *)
  train_test_split : ndarray → ndarray → ndarray * ndarray * ndarray * ndarray;
  MinMaxScaler_fit_transform : ndarray → ndarray;
  ravel : ndarray → ndarray;
  LinearRegression_fit : ndarray → ndarray → result Estimator;
  SVR_fit : ndarray → ndarray → result Estimator;
  GridSearchCV_fit : ndarray → ndarray → result Estimator;
  MLP_pipeline_fit : ndarray → ndarray → result Estimator;
  (** scikit-criteria: [TOPSIS().decide(Data(mtx, criteria)).best_alternative_] *)
  TOPSIS_best_alternative : list (list Z) → list criterion → result Z;
  (** lines 143-163 of [filter_data]: reading the raw exports of a run and
      joining them with the variation table; reads only *)
  merged_exports : string → world → result DataFrame;
  (** [os.path.exists] on a directory; directories are not part of [fs] *)
  isdir : string → world → bool;
  (** the file search and the reads of [ml.get_data]: the feature and
      target arrays of the first matching file, [None] when no file
      matches; reads only *)
  training_data : string → string → bool → world → result (option (ndarray * ndarray));
  (** [str(a.shape)] *)
  shape : ndarray → string
}.

(** A computation that only reads the world. *)
Definition reading {A : Type} (f : world → result A) : M A := λ w, (f w, w).

(** [int(os.getenv(key))]: [int(None)] is a [TypeError]. *)
Definition getenv_int `{External} (key : string) : M Z :=
  v ← os.getenv key;
  match v with
  | Some s => lift (py_int s)
  | None => raise TypeError
  end.

(** ** benchmark.py *)

Module Benchmark.

(** The double quote character, for the PromQL texts. *)
Definition dq : string := String (Ascii.ascii_of_nat 34) EmptyString.

Definition cpu_usage : string :=
  "(sum(rate(container_cpu_usage_seconds_total{namespace=" +:+ dq +:+ "teastore" +:+ dq
  +:+ ", container!=" +:+ dq +:+ dq +:+ "}[5m])) by (pod, "
  +:+ "container) /sum(container_spec_cpu_quota{namespace=" +:+ dq +:+ "teastore" +:+ dq +:+ ", "
  +:+ "container!=" +:+ dq +:+ dq +:+ "}/container_spec_cpu_period{namespace=" +:+ dq
  +:+ "teastore" +:+ dq +:+ ", container!=" +:+ dq +:+ dq +:+ "}) by (pod, "
  +:+ "container) )*100".

Definition memory_usage : string :=
  "round(max by (pod)(max_over_time(container_memory_usage_bytes{namespace=" +:+ dq
  +:+ "teastore" +:+ dq +:+ ",pod=~" +:+ dq +:+ ".*" +:+ dq +:+ " }["
  +:+ "5m]))/ on (pod) (max by (pod) (kube_pod_container_resource_limits)) * 100,0.01)".

(** One request to the backend: the call is recorded, the answer (or the
    exception) is the backend's. *)
Definition backend `{External} (c : prom_call) : M metric_data :=
  λ w, (prometheus c,
        World (fs w) (env w) (cwd w) (clock w) (log w) (backend_calls w ++ [c])).

Definition get_prometheus_metric `{External}
    (metric_name mode : string) (custom : bool) : M metric_data :=
  (* init: PrometheusConnect refuses a missing url *)
  url ← os.getenv ("PROMETHEUS_" +:+ mode +:+ "_HOST");
  match url with
  | Some _ => mret tt
  | None => raise TypeError
  end;;
  now ← datetime_now;
  hh ← getenv_int "HH";
  mm ← getenv_int "MM";
  let start_time := now - (hh * 3600 + mm * 60) in
  (* get data *)
  if custom then
    query ← (if String.eqb metric_name "cpu" then mret (Some cpu_usage)
             else if String.eqb metric_name "memory" then mret (Some memory_usage)
             else
               logging.error ("Accepts cpu or memory, but received " +:+ metric_name);;
               mret None);
    end_time ← datetime_now;
    backend (custom_query_range url query start_time end_time "10")
  else
    end_time ← datetime_now;
    backend (get_metric_range_data url metric_name start_time end_time).

(** The grid: [variation_matrix[c, m, p] = (cpu[c], memory[m], pods[p])]. *)
Definition variation_matrix (cpu memory pods : list Z) : list (list (list ParameterPoint)) :=
  map (λ c, map (λ m, map (λ p, Point c m p) pods) memory) cpu.

(** The rows written by the triple loop, in loop order. *)
Definition variation_rows (cpu memory pods : list Z) : list ParameterPoint :=
  flat_map (λ c, flat_map (λ m, map (λ p, Point c m p) pods) memory) cpu.

(** The flat table: row labels 1, 2, ... and the three columns. *)
Definition variation_frame (cpu memory pods : list Z) : DataFrame :=
  let iterations :=
    map Z.of_nat (seq 1 (length cpu * length memory * length pods)) in
  let rows := variation_rows cpu memory pods in
  Frame iterations
    [("CPU", map (λ '(Point c _ _), CInt c) rows);
     ("Memory", map (λ '(Point _ m _), CInt m) rows);
     ("Pods", map (λ '(Point _ _ p), CInt p) rows)].

(** The three axes of the grid, after the optional inversion. *)
Definition axes (cpu_request cpu_limit memory_request memory_limit pods_limit step : Z)
    (invert : bool) : result (list Z * list Z * list Z) :=
  (* init parameters: (start, end, step) *)
  cpu ← arange cpu_request cpu_limit step;
  memory ← arange memory_request memory_limit step;
  pods ← arange 1 (pods_limit + 1) 1;
  Ok (if invert then (flip cpu, flip memory, flip pods) else (cpu, memory, pods)).

Definition parameter_variation (pod : string)
    (cpu_request cpu_limit memory_request memory_limit pods_limit step : Z)
    (invert : bool) : M (list (list (list ParameterPoint))) :=
  '(cpu, memory, pods) ←
    lift (axes cpu_request cpu_limit memory_request memory_limit pods_limit step invert);
  (* init dataframe *)
  here ← os.getcwd;
  last_data ← os.getenv "LAST_DATA";
  csv_path ← match last_data with
             | Some d => mret (os.path.join here ["data"; "raw"; d; pod +:+ "_variation.csv"])
             | None => raise TypeError
             end;
  (* fill matrix, fill dataframe *)
  let matrix := variation_matrix cpu memory pods in
  let df := variation_frame cpu memory pods in
  (* save dataframe to csv *)
  present ← os.path.exists_ csv_path;
  (if present : bool then mret tt else write_file csv_path (Csv df));;
  mret matrix.

(** Number of points of a grid ([cpu.size * memory.size * pods.size]). *)
Definition grid_size (g : list (list (list ParameterPoint))) : nat :=
  length (concat (concat g)).

End Benchmark.

(** ** pandas: the frame operations used by [filter_data] *)

Module pd.

(** [df[label]]. *)
Fixpoint lookup_column (label : string) (cols : list (string * list cell)) : option (list cell) :=
  match cols with
  | [] => None
  | (l, c) :: rest => if String.eqb l label then Some c else lookup_column label rest
  end.

Definition getitem (df : DataFrame) (label : string) : result (list cell) :=
  match lookup_column label (df_columns df) with
  | Some c => Ok c
  | None => Raise (KeyError label)
  end.

(** [df[label] = values]: an existing column is replaced, a new one is
    appended. *)
Fixpoint set_column (label : string) (values : list cell) (cols : list (string * list cell))
    : list (string * list cell) :=
  match cols with
  | [] => [(label, values)]
  | (l, c) :: rest =>
      if String.eqb l label then (l, values) :: rest
      else (l, c) :: set_column label values rest
  end.

Definition setitem (df : DataFrame) (label : string) (values : list cell) : DataFrame :=
  Frame (df_index df) (set_column label values (df_columns df)).

Definition to_float (c : cell) : result float64 :=
  match c with
  | CFloat x => Ok x
  | CInt z => Ok (f64_of_Z z)
  | CStr _ => Raise TypeError
  end.

(** [a / b] on two columns of one frame: true division, cell by cell. *)
Definition truediv (a b : list cell) : result (list cell) :=
  traverse (λ '(x, y), u ← to_float x; v ← to_float y; Ok (CFloat (f64_div u v)))
           (zip a b).

Definition cell_eqb (a b : cell) : bool :=
  match a, b with
  | CStr s, CStr t => String.eqb s t
  | CInt x, CInt y => x =? y
  | CFloat x, CFloat y => SFeqb x y
  | CInt x, CFloat y | CFloat y, CInt x => SFeqb (f64_of_Z x) y
  | _, _ => false
  end.

(** [series.ne(value)]. *)
Definition ne (a : list cell) (value : cell) : list bool :=
  map (λ c, negb (cell_eqb c value)) a.

(** Boolean indexing: the rows whose mask bit is set, in order. *)
Fixpoint select {A : Type} (mask : list bool) (l : list A) : list A :=
  match mask, l with
  | b :: mask', x :: l' => if b then x :: select mask' l' else select mask' l'
  | _, _ => []
  end.

Definition loc_mask (df : DataFrame) (mask : list bool) : DataFrame :=
  Frame (select mask (df_index df))
        (map (λ '(l, c), (l, select mask c)) (df_columns df)).

Definition has_column (df : DataFrame) (label : string) : bool :=
  bool_decide (is_Some (lookup_column label (df_columns df))).

(** [df.drop(columns=labels)]: a label that is no column is a [KeyError]. *)
Definition drop (df : DataFrame) (labels : list string) : result DataFrame :=
  match List.find (λ l, negb (has_column df l)) labels with
  | Some l => Raise (KeyError l)
  | None =>
      Ok (Frame (df_index df)
                (List.filter (λ '(l, _), negb (existsb (String.eqb l) labels)) (df_columns df)))
  end.

(** [df.rename(columns=mapping)]: labels outside the mapping stay. *)
Fixpoint renamed (mapping : list (string * string)) (l : string) : string :=
  match mapping with
  | [] => l
  | (old, new) :: rest => if String.eqb old l then new else renamed rest l
  end.

Definition rename (df : DataFrame) (mapping : list (string * string)) : DataFrame :=
  Frame (df_index df) (map (λ '(l, c), (renamed mapping l, c)) (df_columns df)).

End pd.

(** ** formatting.py *)

Module Formatting.

Definition save_data (data : DataFrame) (directory mode : string) : M unit :=
  here ← os.getcwd;
  let save_path := os.path.join here ["data"; mode; directory +:+ "_filtered.csv"] in
  present ← os.path.exists_ save_path;
  if negb present then write_file save_path (Csv data)
  else logging.warning "Filtered data already exists.".

Definition dropped_columns : list string :=
  ["kube_deployment_spec_replicas"; "kube_pod_container_resource_limits_cpu_cores";
   "kube_pod_container_resource_limits_memory_bytes";
   "kube_pod_container_resource_requests_cpu_cores";
   "kube_pod_container_resource_requests_memory_bytes"; "response_latency_ms_count";
   "response_latency_ms_sum"].

Definition renamed_columns : list (string * string) :=
  [("cpu", "cpu usage"); ("memory", "memory usage"); ("CPU", "cpu limit");
   ("Memory", "memory limit"); ("Pods", "number of pods");
   ("container_cpu_cfs_throttled_seconds_total", "cpu throttled total")].

(** Lines 165-176: the derived column, the row filter, the dropped and the
    renamed columns. *)
Definition derive (res_data : DataFrame) : result DataFrame :=
  (* calc average response time *)
  latency_sum ← pd.getitem res_data "response_latency_ms_sum";
  latency_count ← pd.getitem res_data "response_latency_ms_count";
  art ← pd.truediv latency_sum latency_count;
  let res_data := pd.setitem res_data "average response time" art in
  (* erase stuff *)
  pod ← pd.getitem res_data "pod";
  let res_data := pd.loc_mask res_data (pd.ne pod (CStr "prometheus")) in
  res_data ← pd.drop res_data dropped_columns;
  Ok (pd.rename res_data renamed_columns).

(** The log of [get_data] (lines 44-47): one record when the directory of
    the run exists. *)
Definition get_data_log `{External} (directory : string) : M unit :=
  here ← os.getcwd;
  let data_path := os.path.join here ["data"; "raw"; directory] in
  present ← reading (λ w, Ok (isdir data_path w));
  if present : bool then logging.info ("Gets data from " +:+ directory +:+ ".")
  else mret tt.

(** Lines 143-163.  The log is never read, so the exports are read from
    the world as it is at the call; the record of [get_data] is there
    whether the reads succeed or not. *)
Definition read_exports `{External} (directory : string) : M DataFrame :=
  λ w, (merged_exports directory w, snd (get_data_log directory w)).

Definition filter_data `{External} (directory : string) : M DataFrame :=
  res_data ← read_exports directory;
  res_data ← lift (derive res_data);
  save_data res_data directory "filtered";;
  mret res_data.

End Formatting.

(** ** ml.py *)

Module Ml.

Definition model_path (here name : string) : string :=
  os.path.join here ["data"; "models"; name +:+ ".joblib"].

(** [joblib.dump] replaces the file; [joblib.load] raises when the file is
    missing or is no joblib file. *)
Definition joblib_load (p : string) : M pyobj :=
  λ w, match fs w !! p with
       | Some (Joblib o) => (Ok o, w)
       | Some (Csv _) => (Raise UnpicklingError, w)
       | None => (Raise (FileNotFoundError p), w)
       end.

Definition save_model (model : pyobj) (name : string) : M unit :=
  here ← os.getcwd;
  let save_path := model_path here name in
  write_file save_path (Joblib model).

Definition load_model (name : string) : M pyobj :=
  here ← os.getcwd;
  let save_path := model_path here name in
  joblib_load save_path.

(** [model.predict(rows)]: only an estimator has the method. *)
Definition call_predict (model : pyobj) (rows : list ParameterPoint) : result prediction :=
  match model with
  | PyEstimator m => predict m rows
  | PyBool _ => Raise (AttributeError "predict")
  end.

(** The three trainers.  The predictions on the test split and the
    printed scores leave the world unchanged and are not modelled. *)
Definition linear_regression_model `{External}
    (X y : ndarray) (name : string) (save : bool) : M unit :=
  let '(X_train, X_test, y_train, y_test) := train_test_split X y in
  regression ← lift (LinearRegression_fit X_train y_train);
  if save then save_model (PyEstimator regression) name else mret tt.

Definition svr_model `{External}
    (X y : ndarray) (name : string) (save search : bool) : M unit :=
  (* scale dataset *)
  let X := MinMaxScaler_fit_transform X in
  let y := MinMaxScaler_fit_transform y in
  let '(X_train, X_test, y_train, y_test) := train_test_split X y in
  if search then
    _ ← lift (GridSearchCV_fit X_train (ravel y_train));
    mret tt
  else
    svr ← lift (SVR_fit X_train (ravel y_train));
    if save then save_model (PyBool search) name else mret tt.

Definition neural_network_model `{External}
    (X y : ndarray) (name : string) (save : bool) : M unit :=
  let '(X_train, X_test, y_train, y_test) := train_test_split X y in
  mlp ← lift (MLP_pipeline_fit X (ravel y));
  if save then save_model (PyEstimator mlp) name else mret tt.

Definition targets : list string := ["average response time"; "cpu usage"; "memory usage"].

(** [get_data] (lines 128-152): the arrays of the first matching file,
    with their shapes logged; a warning and [None] when no file matches. *)
Definition get_data `{External} (date target : string) (combined : bool)
    : M (option (ndarray * ndarray)) :=
  found ← reading (training_data date target combined);
  match found with
  | Some (X, y) =>
      logging.info ("X: " +:+ shape X +:+ " - y: " +:+ shape y);;
      mret (Some (X, y))
  | None =>
      logging.warning ("No filtered file with name " +:+ date +:+ " found.");;
      mret None
  end.

(** [X, y = value]: [None] cannot be unpacked. *)
Definition unpack {A : Type} (value : option A) : M A :=
  match value with
  | Some a => mret a
  | None => raise TypeError
  end.

(** [for t in targets: ...], with the early [return] on an unknown kind. *)
Fixpoint train_targets `{External} (date kind : string) (ts : list string) : M unit :=
  match ts with
  | [] => logging.info "All models are trained."
  | t :: rest =>
      data ← get_data date t true;
      '(X, y) ← unpack data;
      if String.eqb kind "neural" then
        neural_network_model X y t true;; train_targets date kind rest
      else if String.eqb kind "linear" then
        linear_regression_model X y t true;; train_targets date kind rest
      else if String.eqb kind "svr" then
        svr_model X y t true false;; train_targets date kind rest
      else
        logging.warning ("There is no model type: " +:+ kind)
  end.

Definition train_for_all_targets `{External} (date kind : string) : M unit :=
  train_targets date kind targets.

(** [get_models]: the three stored objects, in the order of [targets]. *)
Fixpoint load_all (here : string) (ts : list string) : M (list pyobj) :=
  match ts with
  | [] => mret []
  | t :: rest =>
      m ← joblib_load (os.path.join (os.path.join here ["data"; "models"]) [t +:+ ".joblib"]);
      ms ← load_all here rest;
      mret (m :: ms)
  end.

Definition get_models : M (list pyobj) :=
  here ← os.getcwd;
  load_all here targets.

(** The printed decision and the box plot are not modelled. *)
Definition choose_best `{External} (mtx : list (list Z)) : result Z :=
  (* min average response time, max cpu usage, max memory usage *)
  let criteria := [MIN; MAX; MAX] in
  TOPSIS_best_alternative mtx criteria.

(** [np.empty(n, ...)] / [np.zeros(n, ...)]: a negative size is refused;
    every slot is written before it is read. *)
Definition np_alloc {A : Type} (n : Z) (fill : A) : result (list A) :=
  if n <? 0 then Raise ValueError else Ok (replicate (Z.to_nat n) fill).

(** Storing a tuple into a record of three [np.int32] fields. *)
Definition point_setitem (c m p : Z) : result ParameterPoint :=
  c' ← int32_setitem c; m' ← int32_setitem m; p' ← int32_setitem p;
  Ok (Point c' m' p').

(** Lines 192-197: all possibilities in the window. *)
Definition fill_window (step cpu_limit memory_limit number_of_pods window : Z)
    (predict_window : list ParameterPoint) : result (list ParameterPoint) :=
  for_each
    (λ predict_window i,
       let j := (i mod window) + 1 in
       v ← (if i <? window
            then point_setitem (cpu_limit - j * step) (memory_limit - j * step)
                               (number_of_pods - j)
            else point_setitem (cpu_limit + j * step) (memory_limit + j * step)
                               (number_of_pods + j));
       Ok (<[Z.to_nat i := v]> predict_window))
    (range (2 * window)) predict_window.

(** Assigning an array to a row of a two-dimensional array: a leading
    axis of length 1 is dropped, any other leading axis is refused. *)
Definition as_row (p : prediction) : result (list float64) :=
  match p with
  | Vector values => Ok values
  | Matrix [row] => Ok row
  | Matrix _ => Raise ValueError
  end.

(** Lines 199-201: one row of predictions per model.  The row must have
    the length of the window array; a row of one value is broadcast, any
    other length is refused.  The same call is made once more for [print],
    with the same outcome. *)
Definition fill_predictions (models : list pyobj) (predict_window : list ParameterPoint)
    (predictions : list (list float64)) : result (list (list float64)) :=
  for_each
    (λ predictions '(i, model),
       p ← call_predict model predict_window;
       row ← as_row p;
       if (length row =? length predict_window)%nat
       then Ok (<[i := row]> predictions)
       else match row with
            | [x] => Ok (<[i := replicate (length predict_window) x]> predictions)
            | _ => Raise ValueError
            end)
    (imap (λ i model, (i, model)) models) predictions.

(** Lines 203-204: format into an array of [np.int32] triples. *)
Definition fill_prediction_array (window : Z) (predictions : list (list float64))
    (prediction_array : list (Z * Z * Z)) : result (list (Z * Z * Z)) :=
  for_each
    (λ prediction_array i,
       r0 ← getitem predictions 0; x0 ← getitem r0 i;
       r1 ← getitem predictions 1; x1 ← getitem r1 i;
       r2 ← getitem predictions 2; x2 ← getitem r2 i;
       a ← int32_of_float x0; b ← int32_of_float x1; c ← int32_of_float x2;
       Ok (<[Z.to_nat i := (a, b, c)]> prediction_array))
    (range (2 * window)) prediction_array.

(** [prediction_array.tolist()]. *)
Definition tolist (prediction_array : list (Z * Z * Z)) : list (list Z) :=
  map (λ '(a, b, c), [a; b; c]) prediction_array.

Definition zero64 : float64 := S754_zero false.

(** The part of [get_best_parameters] after the step and the models are
    read. *)
Definition best_parameters `{External} (step : Z) (models : list pyobj)
    (cpu_limit memory_limit number_of_pods window : Z) : result ParameterPoint :=
  (* init arrays *)
  predict_window ← np_alloc (window * 2) (Point 0 0 0);
  predictions ← (row ← np_alloc (window * 2) zero64; Ok (replicate (length models) row));
  prediction_array ← np_alloc (window * 2) (0, 0, 0);
  (* get all possibilities in window *)
  predict_window ← fill_window step cpu_limit memory_limit number_of_pods window predict_window;
  (* get predictions *)
  predictions ← fill_predictions models predict_window predictions;
  (* format into array *)
  prediction_array ← fill_prediction_array window predictions prediction_array;
  (* get index of best outcome *)
  best_outcome_index ← choose_best (tolist prediction_array);
  (* get parameters of best outcome *)
  getitem predict_window best_outcome_index.

Definition get_best_parameters `{External}
    (cpu_limit memory_limit number_of_pods window : Z) : M ParameterPoint :=
  step ← getenv_int "STEP";
  models ← get_models;
  lift (best_parameters step models cpu_limit memory_limit number_of_pods window).

End Ml.

(** ** Reference definitions for the statements *)

(** The number of elements of a range with a positive step. *)
Definition steps (start stop step : Z) : Z := Z.max 0 (- ((start - stop) / step)).

(** The explicit form of a range whose elements fit the element type. *)
Definition progression (start step : Z) (n : nat) : list Z :=
  map (λ k, start + Z.of_nat k * step) (seq 0 n).

(** The offsets 1, ..., W of a window. *)
Definition offsets (window : Z) : list Z := map Z.of_nat (seq 1 (Z.to_nat window)).

(** The 2W neighbours of a point: W steps down, then W steps up. *)
Definition neighbours (step cpu_limit memory_limit number_of_pods window : Z)
    : list ParameterPoint :=
  map (λ j, Point (cpu_limit - j * step) (memory_limit - j * step) (number_of_pods - j))
      (offsets window)
  ++ map (λ j, Point (cpu_limit + j * step) (memory_limit + j * step) (number_of_pods + j))
         (offsets window).

(** Both [x - W * d] and [x + W * d] are [np.int32] values. *)
Definition fits (x d window : Z) : Prop :=
  int32_min ≤ x - window * d ≤ int32_max ∧ int32_min ≤ x + window * d ≤ int32_max.


(** The rows of the decision matrix built from three columns. *)
Definition decision_rows (t0 t1 t2 : list Z) : list (list Z) :=
  map (λ '(a, b, c), [a; b; c]) (zip (zip t0 t1) t2).

(** Where [save_data] writes. *)
Definition filtered_path (w : world) (directory mode : string) : string :=
  os.path.join (cwd w) ["data"; mode; directory +:+ "_filtered.csv"].

(** What [get_data] adds to the log of a [filter_data] call. *)
Definition get_data_records `{External} (directory : string) (w : world) : list log_record :=
  if isdir (os.path.join (cwd w) ["data"; "raw"; directory]) w
  then [Log INFO ("Gets data from " +:+ directory +:+ ".")]
  else [].

(** The world with further log records. *)
Definition logged (w : world) (records : list log_record) : world :=
  World (fs w) (env w) (cwd w) (clock w) (log w ++ records) (backend_calls w).

(** A cell that holds a number. *)
Definition is_numeric (c : cell) : bool :=
  match c with
  | CStr _ => false
  | _ => true
  end.

(** ** Test doubles for the examples *)

Module Fixture.

(** Decimal digits only; enough for the settings of the examples. *)
Fixpoint digits (s : string) (acc : Z) : result Z :=
  match s with
  | EmptyString => Ok acc
  | String a s' =>
      let d := Z.of_nat (Ascii.nat_of_ascii a) - 48 in
      if (0 <=? d) && (d <=? 9) then digits s' (10 * acc + d) else Raise ValueError
  end.

Definition int_of_digits (s : string) : result Z :=
  match s with
  | EmptyString => Raise ValueError
  | _ => digits s 0
  end.

(** A model whose prediction is [numerator / 8] of the CPU limit. *)
Definition eighths (numerator : Z) : Estimator :=
  {| predict := λ rows,
       Ok (Vector (map (λ r, f64_div (f64_of_Z (numerator * cpu r)) (f64_of_Z 8)) rows)) |}.

(** The same model fitted on a target of shape [(n, 1)]. *)
Definition column_eighths (numerator : Z) : Estimator :=
  {| predict := λ rows,
       Ok (Matrix (map (λ r, [f64_div (f64_of_Z (numerator * cpu r)) (f64_of_Z 8)]) rows)) |}.

(** A ranking double: the row with the smallest first entry. *)
Fixpoint argmin_first (mtx : list (list Z)) (i : Z) (best : Z * Z) : Z :=
  match mtx with
  | [] => fst best
  | row :: rest =>
      let v := List.hd 0 row in
      argmin_first rest (i + 1) (if v <? snd best then (i, v) else best)
  end.

Definition ranking (mtx : list (list Z)) (criteria : list criterion) : result Z :=
  match mtx with
  | [] => Raise ValueError
  | row :: rest => Ok (argmin_first rest 1 (0, List.hd 0 row))
  end.

(** A merged table of three rows, one of them of the monitoring pod. *)
Definition floats (l : list Z) : list cell := map (λ z, CFloat (f64_of_Z z)) l.

Definition merged : DataFrame :=
  Frame [0; 1; 2]
    [("Iteration", [CInt 1; CInt 1; CInt 2]);
     ("pod", [CStr "webui"; CStr "prometheus"; CStr "webui"]);
     ("container_cpu_cfs_throttled_seconds_total", floats [4; 0; 7]);
     ("kube_deployment_spec_replicas", floats [3; 1; 2]);
     ("kube_pod_container_resource_limits_cpu_cores", floats [1; 1; 1]);
     ("kube_pod_container_resource_limits_memory_bytes", floats [536870912; 0; 536870912]);
     ("kube_pod_container_resource_requests_cpu_cores", floats [1; 1; 1]);
     ("kube_pod_container_resource_requests_memory_bytes", floats [268435456; 0; 268435456]);
     ("response_latency_ms_count", floats [300; 0; 400]);
     ("response_latency_ms_sum", floats [1500; 10; 900]);
     ("cpu", floats [40; 5; 55]);
     ("memory", floats [61; 9; 58]);
     ("CPU", [CInt 300; CInt 300; CInt 300]);
     ("Memory", [CInt 512; CInt 512; CInt 512]);
     ("Pods", [CInt 3; CInt 3; CInt 2])].

Definition doubles : External :=
  {| ndarray := list Z;
     metric_data := list Z;
     py_int := int_of_digits;
     prometheus := λ _, Ok [];
     train_test_split := λ X y, (X, X, y, y);
     MinMaxScaler_fit_transform := λ a, a;
     ravel := λ a, a;
     LinearRegression_fit := λ _ _, Ok (column_eighths 1);
     SVR_fit := λ _ _, Ok (eighths 3);
     GridSearchCV_fit := λ _ _, Ok (eighths 3);
     MLP_pipeline_fit := λ _ _, Ok (eighths 5);
     TOPSIS_best_alternative := ranking;
     merged_exports := λ _ _, Ok merged;
     isdir := λ _ _, true;
     training_data := λ _ _ _ _, Ok (Some ([], []));
     shape := λ _, "(0, 3)" |}.

Definition settings : gmap string string :=
  <["LAST_DATA" := "20210303-230654"]>
    (<["STEP" := "50"]> (<["HH" := "0"]> (<["MM" := "5"]>
      (<["PROMETHEUS_RESOURCES_HOST" := "http://localhost:9090"]> ∅)))).

Definition fresh : world := World ∅ settings "/bench" 1614812814 [] [].

(** A world in which the three models have been stored. *)
Definition trained : world :=
  World (<["/bench/data/models/average response time.joblib" := Joblib (PyEstimator (eighths 1))]>
         (<["/bench/data/models/cpu usage.joblib" := Joblib (PyEstimator (eighths 3))]>
          (<["/bench/data/models/memory usage.joblib" := Joblib (PyEstimator (eighths 5))]> ∅)))
        settings "/bench" 1614812814 [] [].

(** A world in which a filtered table of the run already exists. *)
Definition filtered : world :=
  World (<["/bench/data/filtered/20210303-230654_filtered.csv" := Csv (Frame [] [])]> ∅)
        settings "/bench" 1614812814 [] [].

(** The window of size 2 around (300, 512, 3) with step 50, and what the
    three stored models predict on it. *)
Definition window_points : list ParameterPoint := neighbours 50 300 512 3 2.

Definition raw (numerator : Z) : list float64 :=
  map (λ r, f64_div (f64_of_Z (numerator * cpu r)) (f64_of_Z 8)) window_points.

End Fixture.

(** * The callers: the metrics export and the sweep of a namespace *)

From stdpp Require Import pretty.

Local Open Scope Z_scope.

(** A [for] loop in the monad of effects. *)
Fixpoint for_eachM {S A : Type} (body : S → A → M S) (l : list A) (s : S) : M S :=
  match l with
  | [] => mret s
  | a :: l' => s' ← body s a; for_eachM body l' s'
  end.

(** Python's [range(a, b)]. *)
Definition range_from (a b : Z) : list Z := map (λ x : Z, a + x) (range (b - a)).

(** Python's [str] on an integer, as used by the f-strings. *)
Definition py_str (z : Z) : string := pretty z.

(** [s.split(sep)[0]] for a separator that is not empty: the text before
    the first occurrence of [sep], all of [s] when there is none. *)
Fixpoint before (sep s : string) : string :=
  match s with
  | EmptyString => EmptyString
  | String a s' => if String.prefix sep s then EmptyString else String a (before sep s')
  end.

(** The collaborators of the export and of the sweep. *)
Class Cluster `{External} := {
  (** [+] on two answers of the backend (Python lists) *)
  metrics_add : metric_data → metric_data → metric_data;
  (** prometheus_api_client's frame of an answer *)
  MetricRangeDataFrame : metric_data → result DataFrame;
  (** [pd.concat] *)
  pd_concat : list DataFrame → DataFrame;
  (** [k8s.get_resource_requests()]: per deployment, in the order of the
      dict, its resource requests by resource name *)
  get_resource_requests : result (list (string * gmap string string))
}.

Module Collector.

(** [df.insert(0, label, value)]: a new first column that repeats [value];
    a label that is already a column is refused. *)
Definition insert_first (df : DataFrame) (label : string) (value : cell) : result DataFrame :=
  if pd.has_column df label then Raise ValueError
  else Ok (Frame (df_index df)
                 ((label, replicate (length (df_index df)) value) :: df_columns df)).

(** [df.to_csv(path)] replaces the file. *)
Definition to_csv (df : DataFrame) (p : string) : M unit := write_file p (Csv df).

Definition resource_metrics : list string :=
  ["kube_pod_container_resource_requests_memory_bytes";
   "kube_pod_container_resource_limits_memory_bytes";
   "kube_pod_container_resource_limits_cpu_cores";
   "kube_pod_container_resource_requests_cpu_cores";
   "container_cpu_cfs_throttled_seconds_total";
   "kube_deployment_spec_replicas"].

Definition network_metrics : list string :=
  ["response_latency_ms_sum"; "response_latency_ms_count"].

(** [l[i]] on a Python list of strings. *)
Definition item (l : list string) (i : Z) : M string := lift (getitem l i).

Definition get_prometheus_data `{Cluster} (folder : string) (iteration : Z) : M unit :=
  (* get resource metric data resources *)
  name ← item resource_metrics 0;
  resource_metrics_data ← Benchmark.get_prometheus_metric name "RESOURCES" false;
  resource_metrics_data ←
    for_eachM
      (λ resource_metrics_data x,
         name ← item resource_metrics x;
         more ← Benchmark.get_prometheus_metric name "RESOURCES" false;
         mret (metrics_add resource_metrics_data more))
      (range_from 1 (Z.of_nat (length resource_metrics)))
      resource_metrics_data;
  (* get custom resource metric data resources *)
  custom_memory ← Benchmark.get_prometheus_metric "memory" "RESOURCES" true;
  custom_memory ← lift (MetricRangeDataFrame custom_memory);
  custom_memory ← lift (insert_first custom_memory "metric" (CStr "memory"));
  custom_cpu ← Benchmark.get_prometheus_metric "cpu" "RESOURCES" true;
  custom_cpu ← lift (MetricRangeDataFrame custom_cpu);
  custom_cpu ← lift (insert_first custom_cpu "metric" (CStr "cpu"));
  (* get network metric data *)
  name ← item network_metrics 0;
  latency_sum ← Benchmark.get_prometheus_metric name "NETWORK" false;
  name ← item network_metrics 1;
  latency_count ← Benchmark.get_prometheus_metric name "NETWORK" false;
  let network_metrics_data := metrics_add latency_sum latency_count in
  (* convert to dataframe *)
  let metrics_data := metrics_add resource_metrics_data network_metrics_data in
  metric_df ← lift (MetricRangeDataFrame metrics_data);
  let custom_metrics_df := pd_concat [custom_cpu; custom_memory] in
  (* write to csv file *)
  to_csv metric_df (folder +:+ "\metrics_" +:+ py_str iteration +:+ ".csv");;
  to_csv custom_metrics_df (folder +:+ "\custom_metrics_" +:+ py_str iteration +:+ ".csv").

End Collector.

Module Sweep.

(** [d[key]] on a Python dict. *)
Definition dict_item (d : gmap string string) (key : string) : result string :=
  match d !! key with
  | Some v => Ok v
  | None => Raise (KeyError key)
  end.

Definition parameter_variation_namespace `{Cluster} (pods_limit expressions step : Z)
    : M (gmap string (list (list (list ParameterPoint)))) :=
  resource_requests ← lift get_resource_requests;
  for_eachM
    (λ variation '(p, requests),
       scale_pod ← os.getenv "SCALE_POD";
       if bool_decide (Some p = scale_pod) then
         (* cpu *)
         text ← lift (dict_item requests "cpu");
         millicores ← lift (py_int (before "m" text));
         let p_cpu_request := millicores + 100 in
         let p_cpu_limit := p_cpu_request + (expressions * step) in
         (* memory *)
         text ← lift (dict_item requests "memory");
         mebibytes ← lift (py_int (before "Mi" text));
         let p_memory_request := mebibytes + 100 in
         let p_memory_limit := p_memory_request + (expressions * step) in
         (* parameter variation matrix *)
         matrix ← Benchmark.parameter_variation p p_cpu_request p_cpu_limit p_memory_request
                     p_memory_limit pods_limit step true;
         mret (<[p := matrix]> variation)
       else mret variation)
    resource_requests ∅.

End Sweep.

(** ** Reference definitions for the further statements *)

(** [g[i, j, k]] for indices inside the grid. *)
Definition grid_at (g : list (list (list ParameterPoint))) (i j k : nat)
    : option ParameterPoint :=
  plane ← g !! i; row ← plane !! j; row !! k.

(** The inverted grid as a function of the plain one: every axis reversed. *)
Definition inverted (g : list (list (list ParameterPoint))) : list (list (list ParameterPoint)) :=
  rev (map (λ plane, rev (map (λ row, rev row) plane)) g).

(** Where [parameter_variation] writes the flat table. *)
Definition variation_path (w : world) (d pod : string) : string :=
  os.path.join (cwd w) ["data"; "raw"; d; pod +:+ "_variation.csv"].

(** The world after one more request to the backend. *)
Definition with_call (w : world) (c : prom_call) : world :=
  World (fs w) (env w) (cwd w) (clock w) (log w) (backend_calls w ++ [c]).

(** A request that carries what it asks for: a custom query has a text. *)
Definition has_query (c : prom_call) : Prop :=
  match c with
  | custom_query_range _ query _ _ _ => query ≠ None
  | get_metric_range_data _ _ _ _ => True
  end.

(** What a request asks for, apart from its time window. *)
Inductive request :=
  | range_data (url : option string) (metric_name : string)
  | query_range (url : option string) (query : option string) (step : string).

Definition request_of (c : prom_call) : request :=
  match c with
  | custom_query_range url query _ _ step => query_range url query step
  | get_metric_range_data url metric_name _ _ => range_data url metric_name
  end.

(** The ten requests of one export under given settings. *)
Definition export_requests (settings : gmap string string) : list request :=
  let resources := settings !! "PROMETHEUS_RESOURCES_HOST" in
  let network := settings !! "PROMETHEUS_NETWORK_HOST" in
  map (range_data resources) Collector.resource_metrics
  ++ [query_range resources (Some Benchmark.memory_usage) "10";
      query_range resources (Some Benchmark.cpu_usage) "10"]
  ++ map (range_data network) Collector.network_metrics.

(** A computation that leaves the files alone, whatever its outcome. *)
Definition keeps_files {A : Type} (m : M A) : Prop := ∀ w, fs (snd (m w)) = fs w.

Definition metrics_path (folder : string) (iteration : Z) : string :=
  folder +:+ "\metrics_" +:+ py_str iteration +:+ ".csv".

Definition custom_metrics_path (folder : string) (iteration : Z) : string :=
  folder +:+ "\custom_metrics_" +:+ py_str iteration +:+ ".csv".

(** What the export keeps: settings, working directory and log as they
    were, and the requests extended by requests that carry what they ask
    for. *)
Definition export_frame (w w' : world) : Prop :=
  env w' = env w ∧ cwd w' = cwd w ∧ log w' = log w ∧
  ∃ calls, backend_calls w' = backend_calls w ++ calls ∧ Forall has_query calls.

(** [w'] differs from [w] at most in the files at [paths] and in the log. *)
Definition touches_only (paths : list string) (w w' : world) : Prop :=
  env w' = env w ∧ cwd w' = cwd w ∧ backend_calls w' = backend_calls w ∧
  ∀ p, p ∉ paths → fs w' !! p = fs w !! p.

(** The world after [joblib.dump(model, <models>/<name>.joblib)]. *)
Definition with_model (w : world) (name : string) (model : pyobj) : world :=
  World (<[Ml.model_path (cwd w) name := Joblib model]> (fs w)) (env w) (cwd w) (clock w)
        (log w) (backend_calls w).

(** The records above the INFO level. *)
Definition above_info (records : list log_record) : list log_record :=
  List.filter (λ r, match log_level r with INFO => false | _ => true end) records.

(** The kinds of model that [train_for_all_targets] knows. *)
Definition known_kinds : list string := ["neural"; "linear"; "svr"].

(** A stored object from which predictions can be made. *)
Definition is_estimator (o : pyobj) : Prop :=
  match o with
  | PyEstimator _ => True
  | PyBool _ => False
  end.

(** ** Further test doubles *)

Module Scenario.

Definition cluster : @Cluster Fixture.doubles :=
  @Build_Cluster Fixture.doubles
    (λ a b : list Z, a ++ b)
    (λ a : list Z, Ok (Frame (map Z.of_nat (seq 0 (length a))) [("value", map CInt a)]))
    (λ frames, Frame (concat (map df_index frames)) [])
    (Ok [("teastore-db", <["cpu" := "500m"]> (<["memory" := "1024Mi"]> ∅));
         ("teastore-webui", <["cpu" := "200m"]> (<["memory" := "300Mi"]> ∅))]).

(** A world without any setting. *)
Definition bare : world := World ∅ ∅ "/bench" 1614812814 [] [].

(** A world without any setting that holds an earlier export. *)
Definition stale : world :=
  World (<["out\metrics_3.csv" := Csv (Frame [] [])]> ∅) ∅ "/bench" 1614812814 [] [].

(** A world in which both monitoring backends are configured. *)
Definition monitored : world :=
  World ∅ (<["PROMETHEUS_NETWORK_HOST" := "http://localhost:9091"]> Fixture.settings)
        "/bench" 1614812814 [] [].

(** A world set up for a sweep of the web UI. *)
Definition sweep : world :=
  World ∅ (<["SCALE_POD" := "teastore-webui"]> Fixture.settings) "/bench" 1614812814 [] [].

End Scenario.
(** * Properties *)

(** ** NumPy *)

Lemma wrap32_small (z : Z) : int32_min ≤ z ≤ int32_max → wrap32 z = z.
Proof.
  unfold int32_min, int32_max, wrap32. intros Hz.
  rewrite Z.mod_small by lia. lia.
Qed.

Lemma int32_setitem_ok (z : Z) : int32_min ≤ z ≤ int32_max → int32_setitem z = Ok z.
Proof.
  intros [Hlo Hhi]. unfold int32_setitem, in_int32.
  apply Z.leb_le in Hlo, Hhi. by rewrite Hlo, Hhi.
Qed.

Lemma steps_bounds (start stop step : Z) :
  0 < step →
  0 ≤ steps start stop step ∧
  stop ≤ start + steps start stop step * step ∧
  (∀ k, 0 ≤ k < steps start stop step → start + k * step < stop).
Proof.
  intros Hs. unfold steps.
  pose proof (Z.div_mod (start - stop) step ltac:(lia)) as Hdm.
  pose proof (Z.mod_pos_bound (start - stop) step Hs) as Hm.
  set (q := (start - stop) / step) in *.
  set (r := (start - stop) mod step) in *.
  split; [lia|]. split.
  - destruct (Z.max_spec 0 (- q)) as [[? ->]|[? ->]]; nia.
  - intros k Hk. destruct (Z.max_spec 0 (- q)) as [[? Hq]|[? Hq]]; rewrite Hq in Hk; nia.
Qed.

Lemma arange_length_pos (start stop step : Z) :
  0 < step → arange_length start stop step = Ok (steps start stop step).
Proof.
  intros Hs. unfold arange_length.
  destruct (Z.eqb_spec step 0); [lia | done].
Qed.

Lemma arange_progression (start stop step : Z) :
  0 < step → int32_min ≤ start → stop ≤ int32_max + 1 →
  arange start stop step = Ok (progression start step (Z.to_nat (steps start stop step))).
Proof.
  intros Hs Hlo Hhi.
  assert (Hfit : ∀ z, start ≤ z < stop → int32_min ≤ z ≤ int32_max) by (intros; lia).
  destruct (steps_bounds start stop step Hs) as (Hn0 & Hcover & Hbelow).
  unfold arange. rewrite arange_length_pos by done. cbn [mbind result_bind].
  set (n := steps start stop step) in *.
  destruct (Z.eqb_spec n 0) as [->|Hne0]; [done|].
  assert (Hstart : start < stop) by (specialize (Hbelow 0); lia).
  rewrite (int32_setitem_ok start) by (apply Hfit; lia). cbn [mbind result_bind].
  destruct (Z.eqb_spec n 1) as [Hn1|Hne1].
  { replace (Z.to_nat n) with 1%nat by lia. unfold progression. cbn [seq map].
    do 2 f_equal. lia. }
  assert (Hnext : start + step < stop) by (specialize (Hbelow 1); lia).
  rewrite int32_setitem_ok by (apply Hfit; lia). cbn [mbind result_bind].
  f_equal. unfold int32_fill, progression.
  destruct (Z.to_nat n) as [|[|m]] eqn:Hm; [lia | lia |].
  cbn [seq map]. replace (S (S m) - 2)%nat with m by lia.
  f_equal; [lia|]. f_equal; [lia|].
  rewrite <- !seq_shift, !map_map.
  apply map_ext_in. intros k Hk. apply in_seq in Hk.
  assert (Hd : wrap32 (start + step - start) = step).
  { replace (start + step - start) with step by lia.
    apply wrap32_small. specialize (Hbelow 2). unfold int32_min, int32_max in *. lia. }
  rewrite Hd. apply wrap32_small, Hfit.
  specialize (Hbelow (Z.of_nat (S (S k)))). nia.
Qed.

(** [parameter_variation_namespace] sets every limit to
    [request + expressions * step]: the half-open range then has exactly
    [expressions] values. *)
Lemma steps_expressions (request step expressions : Z) :
  0 < step → 0 ≤ expressions →
  steps request (request + expressions * step) step = expressions.
Proof.
  intros Hs He. unfold steps.
  replace (request - (request + expressions * step)) with (- expressions * step) by lia.
  rewrite Z.div_mul by lia. lia.
Qed.


(** ** The parameter grid *)

Import Benchmark.


Lemma row_size (memory pods : list Z) (c : Z) :
  length (concat (map (λ m, map (λ p, Point c m p) pods) memory))
  = (length memory * length pods)%nat.
Proof.
  induction memory as [|m memory IH]; [done|].
  cbn [map concat]. rewrite length_app, length_map, IH. cbn [length]. lia.
Qed.

(** Total grid size = cpu count x memory count x pods count. *)
Lemma grid_size_product (cpu memory pods : list Z) :
  grid_size (variation_matrix cpu memory pods)
  = (length cpu * length memory * length pods)%nat.
Proof.
  unfold grid_size, variation_matrix.
  induction cpu as [|c cpu IH]; [done|].
  cbn [map concat]. rewrite concat_app, length_app, IH, row_size. cbn [length]. lia.
Qed.


Lemma axes_spec (cr cl mr ml pl step : Z) (invert : bool) (c m p : list Z) :
  axes cr cl mr ml pl step invert = Ok (c, m, p) →
  ∃ c0 m0 p0,
    arange cr cl step = Ok c0 ∧ arange mr ml step = Ok m0 ∧ arange 1 (pl + 1) 1 = Ok p0 ∧
    c = (if invert then rev c0 else c0) ∧
    m = (if invert then rev m0 else m0) ∧
    p = (if invert then rev p0 else p0).
Proof.
  unfold axes. intros Hax.
  destruct (arange cr cl step) as [c0|]; [|done].
  destruct (arange mr ml step) as [m0|]; [|done].
  destruct (arange 1 (pl + 1) 1) as [p0|]; [|done].
  exists c0, m0, p0. cbn in Hax. unfold flip in Hax.
  destruct invert; by simplify_eq.
Qed.

Lemma parameter_variation_run (pod : string) (cr cl mr ml pl step : Z) (invert : bool)
    (w : world) (d : string) (c m p : list Z) :
  env w !! "LAST_DATA" = Some d →
  axes cr cl mr ml pl step invert = Ok (c, m, p) →
  ∃ w', parameter_variation pod cr cl mr ml pl step invert w
        = (Ok (variation_matrix c m p), w').
Proof.
  intros Henv Hax. unfold parameter_variation.
  unfold mbind, M_bind, lift, os.getcwd, os.getenv, os.path.exists_.
  rewrite Hax, Henv. cbn.
  case_bool_decide; cbn; eauto.
Qed.




(** ** Loops that fill an array slot by slot *)

Lemma for_each_fill_from {A : Type} (body : list A → Z → result (list A)) (g : nat → A)
    (n : nat) :
  (∀ arr i, (i < n)%nat → length arr = n → body arr (Z.of_nat i) = Ok (<[i := g i]> arr)) →
  ∀ r k arr,
    (k + r = n)%nat → length arr = n →
    (∀ i, (i < k)%nat → arr !! i = Some (g i)) →
    ∃ out, for_each body (map Z.of_nat (seq k r)) arr = Ok out ∧ length out = n ∧
           ∀ i, (i < n)%nat → out !! i = Some (g i).
Proof.
  intros Hbody. induction r as [|r IH]; intros k arr Hk Hlen Hdone.
  - exists arr. cbn. split; [done|]. split; [done|]. intros i Hi. apply Hdone. lia.
  - cbn [seq map for_each]. rewrite Hbody by (done || lia). cbn [mbind result_bind].
    apply IH; [lia | by rewrite length_insert |].
    intros i Hi. destruct (decide (i = k)) as [->|Hne].
    + apply list_lookup_insert_eq. lia.
    + rewrite list_lookup_insert_ne by done. apply Hdone. lia.
Qed.

Lemma for_each_fill {A : Type} (body : list A → Z → result (list A)) (g : nat → A)
    (n : Z) (init : list A) :
  length init = Z.to_nat n →
  (∀ arr i, (i < Z.to_nat n)%nat → length arr = Z.to_nat n →
            body arr (Z.of_nat i) = Ok (<[i := g i]> arr)) →
  for_each body (range n) init = Ok (map g (seq 0 (Z.to_nat n))).
Proof.
  intros Hlen Hbody. unfold range.
  destruct (for_each_fill_from body g (Z.to_nat n) Hbody (Z.to_nat n) 0%nat init)
    as (out & -> & Hout & Hget); [lia | done | lia |].
  f_equal. apply list_eq. intros i.
  destruct (decide (i < Z.to_nat n)%nat) as [Hi|Hi].
  - rewrite Hget by done. rewrite list_lookup_fmap, lookup_seq_lt by done. done.
  - rewrite !lookup_ge_None_2; [done | rewrite length_map, length_seq; lia | lia].
Qed.

(** ** The advisor's window *)

Import Ml.

Lemma point_setitem_ok (c m p : Z) :
  int32_min ≤ c ≤ int32_max → int32_min ≤ m ≤ int32_max → int32_min ≤ p ≤ int32_max →
  point_setitem c m p = Ok (Point c m p).
Proof.
  intros Hc Hm Hp. unfold point_setitem.
  by rewrite !int32_setitem_ok.
Qed.

Lemma fits_between (x d window j : Z) :
  fits x d window → 0 ≤ j ≤ window →
  int32_min ≤ x - j * d ≤ int32_max ∧ int32_min ≤ x + j * d ≤ int32_max.
Proof.
  unfold fits. intros Hf Hj.
  destruct (Z.le_gt_cases 0 d) as [Hd|Hd].
  - assert (0 ≤ j * d) by nia. assert (j * d ≤ window * d) by nia. lia.
  - assert (j * d ≤ 0) by nia. assert (window * d ≤ j * d) by nia. lia.
Qed.

Lemma length_neighbours (step c m p window : Z) :
  length (neighbours step c m p window) = Z.to_nat (window * 2).
Proof.
  unfold neighbours, offsets. rewrite length_app, !length_map, length_seq. lia.
Qed.

Lemma lookup_offsets (window : Z) (i : nat) :
  (i < Z.to_nat window)%nat → offsets window !! i = Some (Z.of_nat i + 1).
Proof.
  intros Hi. unfold offsets. rewrite list_lookup_fmap, lookup_seq_lt by done.
  cbn. f_equal. lia.
Qed.

Lemma fill_window_neighbours (step c m p window : Z) (init : list ParameterPoint) :
  0 ≤ window → fits c step window → fits m step window → fits p 1 window →
  length init = Z.to_nat (window * 2) →
  fill_window step c m p window init = Ok (neighbours step c m p window).
Proof.
  intros Hw Hc Hm Hp Hinit. unfold fill_window.
  set (g := λ i : nat,
         let j := Z.of_nat i mod window + 1 in
         if Z.of_nat i <? window
         then Point (c - j * step) (m - j * step) (p - j)
         else Point (c + j * step) (m + j * step) (p + j)).
  rewrite (for_each_fill _ g); [| by replace (2 * window) with (window * 2) by lia |].
  - f_equal. apply list_eq. intros i. unfold neighbours.
    replace (Z.to_nat (2 * window)) with (Z.to_nat window + Z.to_nat window)%nat by lia.
    destruct (decide (i < Z.to_nat window + Z.to_nat window)%nat) as [Hi|Hi].
    + rewrite list_lookup_fmap, lookup_seq_lt by done.
      cbn [fmap option_fmap option_map Nat.add].
      unfold g. cbv beta zeta. destruct (Z.ltb_spec (Z.of_nat i) window) as [Hlt|Hge].
      * rewrite lookup_app_l by (rewrite length_map; unfold offsets;
                                 rewrite length_map, length_seq; lia).
        rewrite list_lookup_fmap, lookup_offsets by lia. cbn.
        rewrite Z.mod_small by lia. done.
      * rewrite lookup_app_r by (rewrite length_map; unfold offsets;
                                 rewrite length_map, length_seq; lia).
        rewrite length_map. unfold offsets at 1. rewrite length_map, length_seq.
        rewrite list_lookup_fmap, lookup_offsets by lia. cbn.
        replace (Z.of_nat i mod window) with (Z.of_nat i - window).
        2:{ apply Z.mod_unique with 1; lia. }
        replace (Z.of_nat (i - Z.to_nat window)) with (Z.of_nat i - window) by lia.
        done.
    + rewrite !lookup_ge_None_2; [done | | rewrite length_map, length_seq; lia].
      rewrite length_app, !length_map. unfold offsets. rewrite length_map, length_seq. lia.
  - intros arr i Hi Harr. cbv beta.
    assert (Hj : 0 ≤ Z.of_nat i mod window + 1 ≤ window).
    { pose proof (Z.mod_pos_bound (Z.of_nat i) window ltac:(lia)). lia. }
    destruct (fits_between c step window _ Hc Hj).
    destruct (fits_between m step window _ Hm Hj).
    destruct (fits_between p 1 window _ Hp Hj).
    rewrite Nat2Z.id. unfold g. cbv zeta.
    destruct (Z.of_nat i <? window);
      (rewrite point_setitem_ok by lia); done.
Qed.

Lemma length_offsets (window : Z) : length (offsets window) = Z.to_nat window.
Proof. unfold offsets. by rewrite length_map, length_seq. Qed.

Lemma lookup_neighbours_down (step c m p window j : Z) :
  1 ≤ j ≤ window →
  neighbours step c m p window !! Z.to_nat (j - 1)
  = Some (Point (c - j * step) (m - j * step) (p - j)).
Proof.
  intros Hj. unfold neighbours.
  rewrite lookup_app_l by (rewrite length_map, length_offsets; lia).
  rewrite list_lookup_fmap, lookup_offsets by lia. cbn.
  replace (Z.of_nat (Z.to_nat (j - 1)) + 1) with j by lia. done.
Qed.

Lemma lookup_neighbours_up (step c m p window j : Z) :
  1 ≤ j ≤ window →
  neighbours step c m p window !! Z.to_nat (window + j - 1)
  = Some (Point (c + j * step) (m + j * step) (p + j)).
Proof.
  intros Hj. unfold neighbours.
  rewrite lookup_app_r by (rewrite length_map, length_offsets; lia).
  rewrite length_map, length_offsets.
  rewrite list_lookup_fmap, lookup_offsets by lia. cbn.
  replace (Z.of_nat (Z.to_nat (window + j - 1) - Z.to_nat window) + 1) with j by lia. done.
Qed.

Lemma window_allocated (step c m p window : Z) :
  0 ≤ window → fits c step window → fits m step window → fits p 1 window →
  np_alloc (window * 2) (Point 0 0 0) ≫= fill_window step c m p window
  = Ok (neighbours step c m p window).
Proof.
  intros Hw Hc Hm Hp. unfold np_alloc.
  destruct (Z.ltb_spec (window * 2) 0); [lia|]. cbn [mbind result_bind].
  apply fill_window_neighbours; try done. by rewrite length_replicate.
Qed.

(** ** Conversions and the decision matrix *)



Lemma traverse_length {A B : Type} (f : A → result B) (l : list A) (k : list B) :
  traverse f l = Ok k → length k = length l.
Proof.
  revert k. induction l as [|a l IH]; intros k; cbn.
  - by intros [= <-].
  - destruct (f a); [|done]. cbn. destruct (traverse f l); [|done]. cbn.
    intros [= <-]. cbn. f_equal. by apply IH.
Qed.

Lemma traverse_lookup {A B : Type} (f : A → result B) (l : list A) (k : list B)
    (i : nat) (a : A) :
  traverse f l = Ok k → l !! i = Some a → ∃ b, k !! i = Some b ∧ f a = Ok b.
Proof.
  revert k i. induction l as [|a' l IH]; intros k i; cbn; [done|].
  destruct (f a') as [b'|] eqn:Hb; [|done]. cbn.
  destruct (traverse f l) as [k'|]; [|done]. cbn.
  intros [= <-]. destruct i as [|i]; cbn.
  - intros [= ->]. eauto.
  - by apply IH.
Qed.

Lemma getitem_index {A : Type} (a : list A) (i : nat) (x : A) :
  a !! i = Some x → getitem a (Z.of_nat i) = Ok x.
Proof.
  intros Hx. pose proof (lookup_lt_Some _ _ _ Hx) as Hi.
  unfold getitem. destruct (Z.ltb_spec (Z.of_nat i) 0); [lia|].
  destruct (Z.leb_spec 0 (Z.of_nat i)); [|lia].
  destruct (Z.ltb_spec (Z.of_nat i) (Z.of_nat (length a))); [|lia].
  cbn. by rewrite Nat2Z.id, Hx.
Qed.

Lemma fill_prediction_array_triples (window : Z) (r0 r1 r2 : list float64)
    (t0 t1 t2 : list Z) (init : list (Z * Z * Z)) :
  length init = Z.to_nat (2 * window) →
  length r0 = Z.to_nat (2 * window) →
  length r1 = Z.to_nat (2 * window) →
  length r2 = Z.to_nat (2 * window) →
  traverse int32_of_float r0 = Ok t0 →
  traverse int32_of_float r1 = Ok t1 →
  traverse int32_of_float r2 = Ok t2 →
  fill_prediction_array window [r0; r1; r2] init = Ok (zip (zip t0 t1) t2).
Proof.
  intros Hinit H0 H1 H2 T0 T1 T2. unfold fill_prediction_array.
  pose proof (traverse_length _ _ _ T0) as L0.
  pose proof (traverse_length _ _ _ T1) as L1.
  pose proof (traverse_length _ _ _ T2) as L2.
  set (g := λ i : nat, (t0 !!! i, t1 !!! i, t2 !!! i)).
  rewrite (for_each_fill _ g); [| done |].
  - f_equal. apply list_eq. intros i.
    rewrite list_lookup_fmap.
    destruct (decide (i < Z.to_nat (2 * window))%nat) as [Hi|Hi].
    + rewrite lookup_seq_lt by done. cbn [fmap option_fmap option_map Nat.add]. unfold g.
      destruct (lookup_lt_is_Some_2 t0 i) as [a Ha]; [lia|].
      destruct (lookup_lt_is_Some_2 t1 i) as [b Hb]; [lia|].
      destruct (lookup_lt_is_Some_2 t2 i) as [c Hc]; [lia|].
      rewrite !lookup_zip_with, Ha, Hb, Hc. cbn.
      by rewrite (list_lookup_total_correct _ _ _ Ha), (list_lookup_total_correct _ _ _ Hb),
                 (list_lookup_total_correct _ _ _ Hc).
    + rewrite lookup_seq_ge by lia. cbn. symmetry. apply lookup_ge_None_2.
      rewrite !length_zip_with. lia.
  - intros arr i Hi Harr. cbv beta.
    destruct (lookup_lt_is_Some_2 r0 i) as [x0 Hx0]; [lia|].
    destruct (lookup_lt_is_Some_2 r1 i) as [x1 Hx1]; [lia|].
    destruct (lookup_lt_is_Some_2 r2 i) as [x2 Hx2]; [lia|].
    destruct (traverse_lookup _ _ _ _ _ T0 Hx0) as (a & Ha & Fa).
    destruct (traverse_lookup _ _ _ _ _ T1 Hx1) as (b & Hb & Fb).
    destruct (traverse_lookup _ _ _ _ _ T2 Hx2) as (c & Hc & Fc).
    change (getitem [r0; r1; r2] 0) with (Ok (A:=list float64) r0).
    change (getitem [r0; r1; r2] 1) with (Ok (A:=list float64) r1).
    change (getitem [r0; r1; r2] 2) with (Ok (A:=list float64) r2).
    cbn [mbind result_bind].
    rewrite (getitem_index _ _ _ Hx0), (getitem_index _ _ _ Hx1), (getitem_index _ _ _ Hx2).
    cbn [mbind result_bind]. rewrite Fa, Fb, Fc. cbn [mbind result_bind].
    rewrite Nat2Z.id. unfold g.
    by rewrite (list_lookup_total_correct _ _ _ Ha), (list_lookup_total_correct _ _ _ Hb),
               (list_lookup_total_correct _ _ _ Hc).
Qed.

(** ** The advisor *)

Lemma join_from_app (acc : string) (l1 l2 : list string) :
  os.path.join_from acc (l1 ++ l2) = os.path.join_from (os.path.join_from acc l1) l2.
Proof. revert acc. induction l1 as [|b l1 IH]; intros acc; cbn; [done|]. apply IH. Qed.

Lemma get_models_stored (w : world) (m0 m1 m2 : pyobj) :
  fs w !! model_path (cwd w) "average response time" = Some (Joblib m0) →
  fs w !! model_path (cwd w) "cpu usage" = Some (Joblib m1) →
  fs w !! model_path (cwd w) "memory usage" = Some (Joblib m2) →
  get_models w = (Ok [m0; m1; m2], w).
Proof.
  unfold model_path, os.path.join. intros H0 H1 H2.
  unfold get_models, targets, load_all, mbind, M_bind, os.getcwd, joblib_load, os.path.join.
  rewrite <- !join_from_app. cbn [app]. by rewrite H0, H1, H2.
Qed.

Lemma best_parameters_ranked `{External}
    (step cpu_limit memory_limit number_of_pods window : Z)
    (m0 m1 m2 : pyobj) (r0 r1 r2 : list float64) (t0 t1 t2 : list Z) :
  let candidates := neighbours step cpu_limit memory_limit number_of_pods window in
  0 ≤ window →
  fits cpu_limit step window → fits memory_limit step window → fits number_of_pods 1 window →
  call_predict m0 candidates = Ok (Vector r0) →
  call_predict m1 candidates = Ok (Vector r1) →
  call_predict m2 candidates = Ok (Vector r2) →
  length r0 = length candidates → length r1 = length candidates → length r2 = length candidates →
  traverse int32_of_float r0 = Ok t0 →
  traverse int32_of_float r1 = Ok t1 →
  traverse int32_of_float r2 = Ok t2 →
  best_parameters step [m0; m1; m2] cpu_limit memory_limit number_of_pods window
  = TOPSIS_best_alternative (decision_rows t0 t1 t2) [MIN; MAX; MAX] ≫= getitem candidates.
Proof.
  intros candidates Hw Hc Hm Hp P0 P1 P2 L0 L1 L2 T0 T1 T2.
  unfold best_parameters, np_alloc.
  destruct (Z.ltb_spec (window * 2) 0); [lia|]. cbn [mbind result_bind length].
  rewrite fill_window_neighbours by (done || by rewrite length_replicate).
  cbn [mbind result_bind]. fold candidates.
  unfold fill_predictions. cbn [imap for_each mbind result_bind].
  rewrite P0. cbn [mbind result_bind as_row]. rewrite L0, Nat.eqb_refl.
  cbn [mbind result_bind].
  unfold compose. rewrite P1. cbn [mbind result_bind as_row]. rewrite L1, Nat.eqb_refl.
  cbn [mbind result_bind]. rewrite P2. cbn [mbind result_bind as_row].
  rewrite L2, Nat.eqb_refl.
  cbn [mbind result_bind replicate].
  change (<[0%nat:=r0]> ?l) with (r0 :: tail l).
  cbn [tail].
  change (<[1%nat:=r1]> (r0 :: ?x :: ?l)) with (r0 :: r1 :: l).
  change (<[2%nat:=r2]> (r0 :: r1 :: ?x :: ?l)) with (r0 :: r1 :: r2 :: l).
  unfold candidates in L0, L1, L2. rewrite length_neighbours in L0, L1, L2.
  rewrite (fill_prediction_array_triples window r0 r1 r2 t0 t1 t2);
    [| rewrite length_replicate; lia | lia | lia | lia | done | done | done].
  cbn [mbind result_bind]. done.
Qed.


(** C3: the decision matrix has one row per candidate, holding the
    predictions of the response-time, CPU-usage and memory-usage models in
    that order; it is ranked by TOPSIS with the directions (MIN, MAX, MAX),
    and the advisor returns the candidate at the best-alternative index. *)
Theorem advisor_returns_top_ranked `{External} (w : world) (s : string)
    (step cpu_limit memory_limit number_of_pods window : Z)
    (m0 m1 m2 : pyobj) (r0 r1 r2 : list float64) (t0 t1 t2 : list Z) :
  env w !! "STEP" = Some s → py_int s = Ok step →
  fs w !! model_path (cwd w) "average response time" = Some (Joblib m0) →
  fs w !! model_path (cwd w) "cpu usage" = Some (Joblib m1) →
  fs w !! model_path (cwd w) "memory usage" = Some (Joblib m2) →
  0 ≤ window →
  fits cpu_limit step window → fits memory_limit step window → fits number_of_pods 1 window →
  call_predict m0 (neighbours step cpu_limit memory_limit number_of_pods window) = Ok (Vector r0) →
  call_predict m1 (neighbours step cpu_limit memory_limit number_of_pods window) = Ok (Vector r1) →
  call_predict m2 (neighbours step cpu_limit memory_limit number_of_pods window) = Ok (Vector r2) →
  Z.of_nat (length r0) = 2 * window →
  Z.of_nat (length r1) = 2 * window →
  Z.of_nat (length r2) = 2 * window →
  traverse int32_of_float r0 = Ok t0 →
  traverse int32_of_float r1 = Ok t1 →
  traverse int32_of_float r2 = Ok t2 →
  get_best_parameters cpu_limit memory_limit number_of_pods window w
  = (TOPSIS_best_alternative (decision_rows t0 t1 t2) [MIN; MAX; MAX]
       ≫= getitem (neighbours step cpu_limit memory_limit number_of_pods window), w) ∧
  ∀ best,
    TOPSIS_best_alternative (decision_rows t0 t1 t2) [MIN; MAX; MAX] = Ok best →
    0 ≤ best < 2 * window →
    ∃ x, neighbours step cpu_limit memory_limit number_of_pods window !! Z.to_nat best = Some x ∧
         get_best_parameters cpu_limit memory_limit number_of_pods window w = (Ok x, w).
Proof.
  intros Henv Hint F0 F1 F2 Hw Hc Hm Hp P0 P1 P2 L0 L1 L2 T0 T1 T2.
  assert (Hrun : get_best_parameters cpu_limit memory_limit number_of_pods window w
    = (TOPSIS_best_alternative (decision_rows t0 t1 t2) [MIN; MAX; MAX]
         ≫= getitem (neighbours step cpu_limit memory_limit number_of_pods window), w)).
  { unfold get_best_parameters, getenv_int.
    unfold mbind at 1 2 3, M_bind, os.getenv. rewrite Henv. unfold lift at 1. rewrite Hint.
    rewrite (get_models_stored w m0 m1 m2) by done. unfold lift. f_equal.
    apply (best_parameters_ranked step cpu_limit memory_limit number_of_pods window
             m0 m1 m2 r0 r1 r2 t0 t1 t2); try done; rewrite length_neighbours; lia. }
  split; [exact Hrun|].
  intros best Hbest Hrange.
  destruct (lookup_lt_is_Some_2 (neighbours step cpu_limit memory_limit number_of_pods window)
              (Z.to_nat best)) as [x Hx]; [rewrite length_neighbours; lia|].
  exists x. split; [done|]. rewrite Hrun, Hbest. cbn [mbind result_bind].
  f_equal. rewrite <- (Z2Nat.id best) by lia. by apply getitem_index.
Qed.

Lemma advisor_returns_top_ranked_witness :
  get_best_parameters (H:=Fixture.doubles) 300 512 3 2 Fixture.trained
  = (TOPSIS_best_alternative (External:=Fixture.doubles)
       (decision_rows [31; 25; 43; 50] [93; 75; 131; 150] [156; 125; 218; 250])
       [MIN; MAX; MAX]
       ≫= getitem (neighbours 50 300 512 3 2), Fixture.trained) ∧
  ∀ best,
    TOPSIS_best_alternative (External:=Fixture.doubles)
      (decision_rows [31; 25; 43; 50] [93; 75; 131; 150] [156; 125; 218; 250])
      [MIN; MAX; MAX] = Ok best →
    0 ≤ best < 2 * 2 →
    ∃ x, neighbours 50 300 512 3 2 !! Z.to_nat best = Some x ∧
         get_best_parameters (H:=Fixture.doubles) 300 512 3 2 Fixture.trained
         = (Ok x, Fixture.trained).
Proof.
  apply (advisor_returns_top_ranked (H:=Fixture.doubles) Fixture.trained "50" 50 300 512 3 2
           (PyEstimator (Fixture.eighths 1)) (PyEstimator (Fixture.eighths 3))
           (PyEstimator (Fixture.eighths 5))
           (Fixture.raw 1) (Fixture.raw 3) (Fixture.raw 5)
           [31; 25; 43; 50] [93; 75; 131; 150] [156; 125; 218; 250]);
    try lia; try (unfold fits, int32_min, int32_max; lia);
    try (match goal with |- _ !! _ = Some (Joblib _) => reflexivity end);
    vm_compute; reflexivity.
Defined.



(** ** The metrics collector *)

(** Without a host for the mode the connection is refused: the call raises
    before the look-back is read, before anything is logged and before any
    request. *)
Lemma get_prometheus_metric_no_host `{External} (metric_name mode : string) (custom : bool)
    (w : world) :
  env w !! ("PROMETHEUS_" +:+ mode +:+ "_HOST") = None →
  get_prometheus_metric metric_name mode custom w = (Raise TypeError, w).
Proof.
  intros Hhost. unfold get_prometheus_metric.
  unfold mbind at 1, M_bind, os.getenv. rewrite Hhost. reflexivity.
Qed.



(** ** Model persistence *)

Lemma save_then_load (model : pyobj) (name : string) (w : world) :
  ∃ w', save_model model name w = (Ok tt, w') ∧
        cwd w' = cwd w ∧
        fs w' = <[model_path (cwd w) name := Joblib model]> (fs w) ∧
        load_model name w' = (Ok model, w').
Proof.
  exists (World (<[model_path (cwd w) name := Joblib model]> (fs w)) (env w) (cwd w)
                (clock w) (log w) (backend_calls w)).
  split; [reflexivity|]. split; [reflexivity|]. split; [reflexivity|].
  unfold load_model, mbind, M_bind, os.getcwd, joblib_load. cbn.
  by rewrite lookup_insert_eq.
Qed.

(** C6 (the code departs from the claim): on the support-vector path with
    the hyper-parameter search disabled, the object that is saved under the
    model name is the boolean [search] flag, not the fitted model; what is
    reloaded is [False], from which nothing can be predicted. *)
Theorem svr_model_saves_search_flag `{External}
    (X y : ndarray) (name : string) (w : world)
    (X_train X_test y_train y_test : ndarray) (svr : Estimator) :
  train_test_split (MinMaxScaler_fit_transform X) (MinMaxScaler_fit_transform y)
  = (X_train, X_test, y_train, y_test) →
  SVR_fit X_train (ravel y_train) = Ok svr →
  ∃ w', svr_model X y name true false w = (Ok tt, w') ∧
        load_model name w' = (Ok (PyBool false), w') ∧
        ∀ rows, call_predict (PyBool false) rows = Raise (AttributeError "predict").
Proof.
  intros Hsplit Hfit.
  destruct (save_then_load (PyBool false) name w) as (w' & Hsave & _ & _ & Hload).
  exists w'. split; [|split; [exact Hload | done]].
  unfold svr_model. rewrite Hsplit.
  unfold mbind at 1, M_bind, lift. rewrite Hfit. exact Hsave.
Qed.

Lemma svr_model_saves_search_flag_witness :
  ∃ w', svr_model (H:=Fixture.doubles) [1; 2] [3; 4] "cpu usage" true false Fixture.fresh
        = (Ok tt, w') ∧
        load_model "cpu usage" w' = (Ok (PyBool false), w') ∧
        ∀ rows, call_predict (PyBool false) rows = Raise (AttributeError "predict").
Proof.
  apply (svr_model_saves_search_flag (H:=Fixture.doubles) [1; 2] [3; 4] "cpu usage"
           Fixture.fresh [1; 2] [1; 2] [3; 4] [3; 4] (Fixture.eighths 3));
    reflexivity.
Defined.

(** The other two trainers store the fitted estimator, and reloading gives
    it back, so its predictions are the same on every input. *)
Lemma linear_model_round_trip `{External} (X y : ndarray) (name : string) (w : world)
    (X_train X_test y_train y_test : ndarray) (regression : Estimator) :
  train_test_split X y = (X_train, X_test, y_train, y_test) →
  LinearRegression_fit X_train y_train = Ok regression →
  ∃ w', linear_regression_model X y name true w = (Ok tt, w') ∧
        load_model name w' = (Ok (PyEstimator regression), w').
Proof.
  intros Hsplit Hfit.
  destruct (save_then_load (PyEstimator regression) name w) as (w' & Hsave & _ & _ & Hload).
  exists w'. split; [|exact Hload].
  unfold linear_regression_model. rewrite Hsplit.
  unfold mbind at 1, M_bind, lift. rewrite Hfit. exact Hsave.
Qed.

Lemma neural_model_round_trip `{External} (X y : ndarray) (name : string) (w : world)
    (mlp : Estimator) :
  MLP_pipeline_fit X (ravel y) = Ok mlp →
  ∃ w', neural_network_model X y name true w = (Ok tt, w') ∧
        load_model name w' = (Ok (PyEstimator mlp), w').
Proof.
  intros Hfit.
  destruct (save_then_load (PyEstimator mlp) name w) as (w' & Hsave & _ & _ & Hload).
  exists w'. split; [|exact Hload].
  unfold neural_network_model. destruct (train_test_split X y) as [[[? ?] ?] ?].
  unfold mbind at 1, M_bind, lift. rewrite Hfit. exact Hsave.
Qed.

(** ** The data filter *)

Import Formatting.

Lemma save_data_existing (data : DataFrame) (directory mode : string) (w : world) :
  is_Some (fs w !! filtered_path w directory mode) →
  save_data data directory mode w
  = (Ok tt, World (fs w) (env w) (cwd w) (clock w)
                  (log w ++ [Log WARNING "Filtered data already exists."])
                  (backend_calls w)).
Proof.
  intros Hex. unfold save_data, mbind, M_bind, os.getcwd, os.path.exists_.
  unfold filtered_path in Hex. by rewrite bool_decide_eq_true_2.
Qed.

Lemma save_data_absent (data : DataFrame) (directory mode : string) (w : world) :
  fs w !! filtered_path w directory mode = None →
  save_data data directory mode w
  = (Ok tt, World (<[filtered_path w directory mode := Csv data]> (fs w)) (env w) (cwd w)
                  (clock w) (log w) (backend_calls w)).
Proof.
  intros Hex. unfold save_data, mbind, M_bind, os.getcwd, os.path.exists_.
  unfold filtered_path in Hex. rewrite bool_decide_eq_false_2; [done|].
  rewrite Hex. by intros [? ?].
Qed.

Lemma save_data_returns (data : DataFrame) (directory mode : string) (w : world) :
  ∃ w', save_data data directory mode w = (Ok tt, w').
Proof.
  destruct (fs w !! filtered_path w directory mode) as [old|] eqn:Hold.
  - rewrite save_data_existing by (by rewrite Hold). eauto.
  - rewrite save_data_absent by done. eauto.
Qed.

Lemma get_data_log_run `{External} (directory : string) (w : world) :
  get_data_log directory w = (Ok tt, logged w (get_data_records directory w)).
Proof.
  unfold get_data_log, get_data_records, logged, mbind, M_bind, os.getcwd, reading.
  destruct (isdir _ w); [reflexivity|].
  unfold mret, M_ret. rewrite app_nil_r. by destruct w.
Qed.

Lemma read_exports_run `{External} (directory : string) (w : world) :
  read_exports directory w
  = (merged_exports directory w, logged w (get_data_records directory w)).
Proof. unfold read_exports. by rewrite get_data_log_run. Qed.

(** The three ways in which [filter_data] ends. *)
Lemma filter_data_cases `{External} (directory : string) (w : world) :
  let w1 := logged w (get_data_records directory w) in
  (∃ e, filter_data directory w = (Raise e, w1)) ∨
  (∃ res out, merged_exports directory w = Ok res ∧ derive res = Ok out ∧
     filter_data directory w = (Ok out, snd (save_data out directory "filtered" w1)) ∧
     fst (save_data out directory "filtered" w1) = Ok tt).
Proof.
  cbv zeta. remember (filter_data directory w) as run eqn:Hrun.
  unfold filter_data in Hrun. unfold mbind at 1, M_bind in Hrun.
  rewrite read_exports_run in Hrun.
  destruct (merged_exports directory w) as [res|e] eqn:Hres; [|left; eauto].
  unfold mbind at 1, M_bind, lift in Hrun.
  destruct (derive res) as [out|e] eqn:Hout; [|left; eauto].
  right. exists res, out. split; [done|]. split; [done|].
  unfold mbind, M_bind in Hrun.
  destruct (save_data_returns out directory "filtered"
              (logged w (get_data_records directory w))) as [w2 Hsave].
  rewrite Hsave in *. by subst run.
Qed.

(** [filter_data] changes the file system through [save_data] only. *)
Lemma filter_data_fs `{External} (directory : string) (w : world) :
  is_Some (fs w !! filtered_path w directory "filtered") →
  fs (snd (filter_data directory w)) = fs w.
Proof.
  intros Hex.
  destruct (filter_data_cases directory w) as [[e ->]|(res & out & _ & _ & -> & _)];
    [done|].
  cbn [snd]. by rewrite save_data_existing.
Qed.

Lemma filter_data_writes `{External} (directory : string) (w w' : world) (out : DataFrame) :
  filter_data directory w = (Ok out, w') →
  cwd w' = cwd w ∧ is_Some (fs w' !! filtered_path w directory "filtered").
Proof.
  destruct (filter_data_cases directory w) as [[e ->]|(res & out' & _ & _ & -> & _)];
    [done|].
  intros [= _ <-].
  set (w1 := logged w (get_data_records directory w)).
  change (filtered_path w directory "filtered") with (filtered_path w1 directory "filtered").
  destruct (fs w1 !! filtered_path w1 directory "filtered") as [old|] eqn:Hold.
  - rewrite save_data_existing by (by rewrite Hold).
    split; [done|]. cbn [snd fs]. by rewrite Hold.
  - rewrite save_data_absent by done.
    split; [done|]. cbn [snd fs]. by rewrite lookup_insert_eq.
Qed.

(** C7: when the target file exists, [save_data] returns without writing,
    logs one warning and leaves every file as it was; hence running the
    data filter on a directory whose filtered file exists, in particular
    one written by a first run, leaves that file, and the whole file
    system, unchanged. *)
Theorem save_data_keeps_existing_file `{External}
    (data : DataFrame) (directory mode : string) (w : world) (old : file_data) :
  fs w !! filtered_path w directory mode = Some old →
  save_data data directory mode w
  = (Ok tt, World (fs w) (env w) (cwd w) (clock w)
                  (log w ++ [Log WARNING "Filtered data already exists."])
                  (backend_calls w)) ∧
  fs (snd (save_data data directory mode w)) !! filtered_path w directory mode = Some old ∧
  (∀ w1 : world,
     is_Some (fs w1 !! filtered_path w1 directory "filtered") →
     fs (snd (filter_data directory w1)) = fs w1) ∧
  ∀ (w0 w1 : world) (first : DataFrame),
    filter_data directory w0 = (Ok first, w1) →
    fs (snd (filter_data directory w1)) = fs w1.
Proof.
  intros Hold.
  assert (Hrun := save_data_existing data directory mode w ltac:(by rewrite Hold)).
  split; [exact Hrun|]. split; [by rewrite Hrun|].
  split; [intros w1; apply filter_data_fs|].
  intros w0 w1 first Hfirst.
  destruct (filter_data_writes _ _ _ _ Hfirst) as [Hcwd Hex].
  apply filter_data_fs. unfold filtered_path in *. by rewrite Hcwd.
Qed.

Lemma save_data_keeps_existing_file_witness :
  save_data Fixture.merged "20210303-230654" "filtered" Fixture.filtered
  = (Ok tt, World (fs Fixture.filtered) (env Fixture.filtered) (cwd Fixture.filtered)
                  (clock Fixture.filtered)
                  (log Fixture.filtered ++ [Log WARNING "Filtered data already exists."])
                  (backend_calls Fixture.filtered)) ∧
  fs (snd (save_data Fixture.merged "20210303-230654" "filtered" Fixture.filtered))
    !! filtered_path Fixture.filtered "20210303-230654" "filtered" = Some (Csv (Frame [] [])) ∧
  (∀ w1 : world,
     is_Some (fs w1 !! filtered_path w1 "20210303-230654" "filtered") →
     fs (snd (filter_data (H:=Fixture.doubles) "20210303-230654" w1)) = fs w1) ∧
  ∀ (w0 w1 : world) (first : DataFrame),
    filter_data (H:=Fixture.doubles) "20210303-230654" w0 = (Ok first, w1) →
    fs (snd (filter_data (H:=Fixture.doubles) "20210303-230654" w1)) = fs w1.
Proof.
  apply (save_data_keeps_existing_file (H:=Fixture.doubles) Fixture.merged
           "20210303-230654" "filtered" Fixture.filtered (Csv (Frame [] []))).
  vm_compute. reflexivity.
Defined.

(** A first run writes the table, a second run leaves it in place; each
    run logs that it gets the data of the directory. *)
Example filter_data_twice :
  let first := filter_data (H:=Fixture.doubles) "20210303-230654" Fixture.fresh in
  let second := filter_data (H:=Fixture.doubles) "20210303-230654" (snd first) in
  (∃ out, fst first = Ok out ∧ fst second = Ok out ∧
          fs (snd first) !! "/bench/data/filtered/20210303-230654_filtered.csv"
          = Some (Csv out) ∧
          fs (snd second) !! "/bench/data/filtered/20210303-230654_filtered.csv"
          = Some (Csv out)) ∧
  log (snd first) = [Log INFO "Gets data from 20210303-230654."] ∧
  log (snd second) = [Log INFO "Gets data from 20210303-230654.";
                      Log INFO "Gets data from 20210303-230654.";
                      Log WARNING "Filtered data already exists."].
Proof.
  cbv zeta. split; [eexists; repeat split; vm_compute; reflexivity|].
  split; vm_compute; reflexivity.
Qed.

(** *** Columns of a frame *)

Lemma lookup_set_column_eq (l : string) (v : list cell) (cols : list (string * list cell)) :
  pd.lookup_column l (pd.set_column l v cols) = Some v.
Proof.
  induction cols as [|[l' c] cols IH]; cbn.
  - by rewrite String.eqb_refl.
  - destruct (String.eqb_spec l' l) as [->|Hne]; cbn.
    + by rewrite String.eqb_refl.
    + destruct (String.eqb_spec l' l); [done | exact IH].
Qed.

Lemma lookup_set_column_ne (l l' : string) (v : list cell) (cols : list (string * list cell)) :
  l ≠ l' → pd.lookup_column l' (pd.set_column l v cols) = pd.lookup_column l' cols.
Proof.
  intros Hne. induction cols as [|[k c] cols IH]; cbn.
  - destruct (String.eqb_spec l l'); done.
  - destruct (String.eqb_spec k l) as [->|Hk]; cbn.
    + destruct (String.eqb_spec l l'); done.
    + destruct (String.eqb_spec k l'); [done | exact IH].
Qed.

Lemma lookup_column_select (mask : list bool) (l : string) (cols : list (string * list cell)) :
  pd.lookup_column l (map (λ '(k, c), (k, pd.select mask c)) cols)
  = pd.select mask <$> pd.lookup_column l cols.
Proof.
  induction cols as [|[k c] cols IH]; cbn; [done|].
  destruct (String.eqb_spec k l); [done | exact IH].
Qed.

Lemma lookup_column_filter (keep : string → bool) (l : string)
    (cols : list (string * list cell)) :
  keep l = true →
  pd.lookup_column l (List.filter (λ '(k, _), keep k) cols) = pd.lookup_column l cols.
Proof.
  intros Hl. induction cols as [|[k c] cols IH]; cbn; [done|].
  destruct (String.eqb_spec k l) as [->|Hk].
  - rewrite Hl. cbn. by rewrite String.eqb_refl.
  - destruct (keep k); cbn; [|exact IH].
    destruct (String.eqb_spec k l); [done | exact IH].
Qed.

Lemma lookup_column_rename (mapping : list (string * string)) (l : string)
    (cols : list (string * list cell)) :
  (∀ k, pd.renamed mapping k = l ↔ k = l) →
  pd.lookup_column l (map (λ '(k, c), (pd.renamed mapping k, c)) cols)
  = pd.lookup_column l cols.
Proof.
  intros Hren. induction cols as [|[k c] cols IH]; cbn; [done|].
  destruct (String.eqb_spec (pd.renamed mapping k) l) as [Hk|Hk].
  - apply Hren in Hk as ->. by rewrite String.eqb_refl.
  - destruct (String.eqb_spec k l) as [->|]; [|exact IH].
    exfalso. apply Hk. by apply Hren.
Qed.

Lemma find_none_Forall {A : Type} (f : A → bool) (l : list A) :
  Forall (λ a, f a = false) l → List.find f l = None.
Proof. induction 1 as [|a l Ha _ IH]; cbn; [done|]. by rewrite Ha. Qed.

(** *** Row selection and division *)

Lemma select_nil {A : Type} (mask : list bool) : pd.select mask (@nil A) = [].
Proof. by destruct mask. Qed.

Lemma select_zip {A B : Type} (mask : list bool) (a : list A) (b : list B) :
  pd.select mask (zip a b) = zip (pd.select mask a) (pd.select mask b).
Proof.
  revert a b. induction mask as [|m mask IH]; intros a b; [done|].
  destruct a as [|x a]; [by rewrite select_nil|].
  destruct b as [|y b]; [cbn; by destruct m, (pd.select mask a)|].
  cbn. destruct m; cbn; by rewrite IH.
Qed.

Lemma traverse_select {A B : Type} (f : A → result B) (mask : list bool)
    (l : list A) (k : list B) :
  traverse f l = Ok k → traverse f (pd.select mask l) = Ok (pd.select mask k).
Proof.
  revert l k. induction mask as [|m mask IH]; intros l k; [done|].
  destruct l as [|a l]; cbn.
  - by intros [= <-].
  - destruct (f a) as [b|] eqn:Hb; [|done]. cbn.
    destruct (traverse f l) as [k'|] eqn:Hk; [|done]. cbn.
    intros [= <-]. destruct m; cbn; [rewrite Hb; cbn|]; by rewrite (IH l k').
Qed.

Lemma truediv_select (mask : list bool) (a b r : list cell) :
  pd.truediv a b = Ok r →
  pd.truediv (pd.select mask a) (pd.select mask b) = Ok (pd.select mask r).
Proof.
  unfold pd.truediv. intros Hr. rewrite <- select_zip. by apply traverse_select.
Qed.

Lemma to_float_numeric (c : cell) : is_numeric c = true → ∃ u, pd.to_float c = Ok u.
Proof. destruct c; cbn; eauto. done. Qed.

Lemma truediv_numeric (a b : list cell) :
  Forall (λ c, is_numeric c = true) a → Forall (λ c, is_numeric c = true) b →
  ∃ r, pd.truediv a b = Ok r.
Proof.
  unfold pd.truediv. intros Ha. revert b.
  induction Ha as [|x a Hx _ IH]; intros b Hb; [by exists []|].
  destruct Hb as [|y b Hy Hb]; [by exists []|].
  destruct (to_float_numeric x Hx) as [u Hu], (to_float_numeric y Hy) as [v Hv].
  destruct (IH b Hb) as [r Hr].
  exists (CFloat (f64_div u v) :: r). cbn. rewrite Hu, Hv. cbn.
  change (zip_with pair a b) with (zip a b). by rewrite Hr.
Qed.

Lemma truediv_lookup (a b r : list cell) (i : nat) (x y : cell) :
  pd.truediv a b = Ok r → a !! i = Some x → b !! i = Some y →
  ∃ u v, pd.to_float x = Ok u ∧ pd.to_float y = Ok v ∧
         r !! i = Some (CFloat (f64_div u v)).
Proof.
  unfold pd.truediv. intros Hr Hx Hy.
  assert (Hxy : zip a b !! i = Some (x, y)) by (by rewrite lookup_zip_with, Hx, Hy).
  destruct (traverse_lookup _ _ _ _ _ Hr Hxy) as (c & Hc & Hdiv).
  destruct (pd.to_float x) as [u|]; [|done]. destruct (pd.to_float y) as [v|]; [|done].
  cbn in Hdiv. injection Hdiv as <-. eauto.
Qed.

(** *** The derived column *)

Lemma renamed_target (mapping : list (string * string)) (l k : string) :
  Forall (λ p, snd p ≠ l) mapping → pd.renamed mapping k = l → k = l.
Proof.
  induction 1 as [|[old new] mapping Hnew _ IH]; cbn; [done|].
  destruct (String.eqb_spec old k); [done | exact IH].
Qed.

Lemma renamed_average_response_time (k : string) :
  pd.renamed renamed_columns k = "average response time" ↔ k = "average response time".
Proof.
  split; [|by intros ->].
  apply renamed_target. unfold renamed_columns.
  repeat (constructor; [discriminate|]). constructor.
Qed.


Lemma derive_average_response_time (res : DataFrame) (sums counts podcol : list cell) :
  pd.getitem res "response_latency_ms_sum" = Ok sums →
  pd.getitem res "response_latency_ms_count" = Ok counts →
  pd.getitem res "pod" = Ok podcol →
  Forall (λ c, is_numeric c = true) sums →
  Forall (λ c, is_numeric c = true) counts →
  Forall (λ l, pd.has_column res l = true) dropped_columns →
  ∃ out art,
    derive res = Ok out ∧
    pd.getitem out "average response time" = Ok art ∧
    pd.truediv (pd.select (pd.ne podcol (CStr "prometheus")) sums)
               (pd.select (pd.ne podcol (CStr "prometheus")) counts) = Ok art.
Proof.
  intros Hsums Hcounts Hpod Nsums Ncounts Hcols.
  destruct (truediv_numeric sums counts Nsums Ncounts) as [art0 Hart0].
  set (mask := pd.ne podcol (CStr "prometheus")).
  set (res1 := pd.setitem res "average response time" art0).
  set (res2 := pd.loc_mask res1 mask).
  assert (Hpod1 : pd.getitem res1 "pod" = Ok podcol).
  { unfold pd.getitem, res1, pd.setitem in *. cbn [df_columns].
    by rewrite lookup_set_column_ne. }
  assert (Hdrop : List.find (λ l, negb (pd.has_column res2 l)) dropped_columns = None).
  { apply find_none_Forall. apply Forall_forall. intros l Hl.
    assert (Hne : "average response time" ≠ l).
    { intros <-. unfold dropped_columns in Hl.
      repeat (apply elem_of_cons in Hl as [Hl|Hl]; [discriminate|]).
      by apply elem_of_nil in Hl. }
    apply negb_false_iff.
    pose proof (proj1 (Forall_forall _ _) Hcols l Hl) as Hcol. cbv beta in Hcol.
    unfold pd.has_column in *. apply bool_decide_eq_true in Hcol.
    apply bool_decide_eq_true. unfold res2, pd.loc_mask, res1, pd.setitem.
    cbn [df_columns]. rewrite lookup_column_select, lookup_set_column_ne by done.
    by apply fmap_is_Some. }
  eexists _, (pd.select mask art0). split; [|split].
  - unfold derive. rewrite Hsums. cbn [mbind result_bind]. rewrite Hcounts.
    cbn [mbind result_bind]. rewrite Hart0. cbn [mbind result_bind].
    fold res1. rewrite Hpod1. cbn [mbind result_bind]. fold mask. fold res2.
    unfold pd.drop. rewrite Hdrop. cbn [mbind result_bind]. reflexivity.
  - unfold pd.getitem, pd.rename. cbn [df_columns].
    rewrite (lookup_column_rename _ _ _ renamed_average_response_time).
    rewrite (lookup_column_filter
               (λ k, negb (existsb (String.eqb k) dropped_columns))) by reflexivity.
    unfold res2, pd.loc_mask, res1, pd.setitem. cbn [df_columns].
    by rewrite lookup_column_select, lookup_set_column_eq.
  - by apply truediv_select.
Qed.

(** C8: in the table returned by [filter_data], the average response time
    of every row is the latency sum of that row divided by its latency
    count (in particular for the rows whose count is positive); the rows are
    those of the merged table whose pod is not the monitoring pod. *)
Theorem average_response_time_is_quotient `{External}
    (directory : string) (w : world) (res : DataFrame) (sums counts podcol : list cell) :
  merged_exports directory w = Ok res →
  pd.getitem res "response_latency_ms_sum" = Ok sums →
  pd.getitem res "response_latency_ms_count" = Ok counts →
  pd.getitem res "pod" = Ok podcol →
  Forall (λ c, is_numeric c = true) sums →
  Forall (λ c, is_numeric c = true) counts →
  Forall (λ l, pd.has_column res l = true) dropped_columns →
  ∃ out w' art,
    filter_data directory w = (Ok out, w') ∧
    pd.getitem out "average response time" = Ok art ∧
    ∀ (i : nat) (latency_sum latency_count : cell),
      pd.select (pd.ne podcol (CStr "prometheus")) sums !! i = Some latency_sum →
      pd.select (pd.ne podcol (CStr "prometheus")) counts !! i = Some latency_count →
      ∃ s c, pd.to_float latency_sum = Ok s ∧ pd.to_float latency_count = Ok c ∧
             art !! i = Some (CFloat (f64_div s c)).
Proof.
  intros Hres Hsums Hcounts Hpod Nsums Ncounts Hcols.
  destruct (derive_average_response_time res sums counts podcol)
    as (out & art & Hout & Hart & Hdiv); try done.
  destruct (save_data_returns out directory "filtered"
              (logged w (get_data_records directory w))) as [w' Hsave].
  exists out, w', art. split; [|split; [exact Hart|]].
  - unfold filter_data. unfold mbind at 1, M_bind. rewrite read_exports_run, Hres.
    unfold mbind at 1, M_bind, lift. rewrite Hout. unfold mbind, M_bind.
    by rewrite Hsave.
  - intros i x y Hx Hy. by apply (truediv_lookup _ _ _ _ _ _ Hdiv).
Qed.

Lemma average_response_time_is_quotient_witness :
  ∃ out w' art,
    filter_data (H:=Fixture.doubles) "20210303-230654" Fixture.fresh = (Ok out, w') ∧
    pd.getitem out "average response time" = Ok art ∧
    ∀ (i : nat) (latency_sum latency_count : cell),
      pd.select (pd.ne [CStr "webui"; CStr "prometheus"; CStr "webui"] (CStr "prometheus"))
                (Fixture.floats [1500; 10; 900]) !! i = Some latency_sum →
      pd.select (pd.ne [CStr "webui"; CStr "prometheus"; CStr "webui"] (CStr "prometheus"))
                (Fixture.floats [300; 0; 400]) !! i = Some latency_count →
      ∃ s c, pd.to_float latency_sum = Ok s ∧ pd.to_float latency_count = Ok c ∧
             art !! i = Some (CFloat (f64_div s c)).
Proof.
  apply (average_response_time_is_quotient (H:=Fixture.doubles) "20210303-230654"
           Fixture.fresh Fixture.merged (Fixture.floats [1500; 10; 900])
           (Fixture.floats [300; 0; 400])
           [CStr "webui"; CStr "prometheus"; CStr "webui"]);
    try reflexivity.
  - repeat constructor.
  - repeat constructor.
  - unfold dropped_columns. repeat (constructor; [vm_compute; reflexivity|]). constructor.
Defined.

(** The table of the example: 1500 / 300 = 5 and 900 / 400 = 2.25. *)
Example filtered_average_response_time :
  (out ← derive Fixture.merged; pd.getitem out "average response time")
  = Ok [CFloat (f64_of_Z 5); CFloat (f64_div (f64_of_Z 9) (f64_of_Z 4))].
Proof. vm_compute. reflexivity. Qed.

(** ** End-to-end examples *)

(** Training the three targets with the support-vector family stores three
    booleans, and the advisor then fails on the first prediction.  With the
    linear family the estimators are fitted on targets of shape [(n, 1)];
    their predictions have shape [(2W, 1)], which the row assignment of the
    advisor refuses.  With the neural family the targets are flattened and
    the advisor runs. *)
Example advisor_after_svr_training :
  fst (get_best_parameters (H:=Fixture.doubles) 300 512 3 2
         (snd (train_for_all_targets (H:=Fixture.doubles) "20210303-230654" "svr"
                 Fixture.fresh)))
  = Raise (AttributeError "predict").
Proof. vm_compute. reflexivity. Qed.

Example advisor_after_linear_training :
  fst (get_best_parameters (H:=Fixture.doubles) 300 512 3 2
         (snd (train_for_all_targets (H:=Fixture.doubles) "20210303-230654" "linear"
                 Fixture.fresh)))
  = Raise ValueError.
Proof. vm_compute. reflexivity. Qed.

Example advisor_after_neural_training :
  fst (get_best_parameters (H:=Fixture.doubles) 300 512 3 2
         (snd (train_for_all_targets (H:=Fixture.doubles) "20210303-230654" "neural"
                 Fixture.fresh)))
  = Ok (Point 200 412 1).
Proof. vm_compute. reflexivity. Qed.

(** * More properties *)

(** ** The grid and its flat table *)

Lemma arange_pods (pods_limit : Z) :
  0 ≤ pods_limit ≤ int32_max →
  arange 1 (pods_limit + 1) 1 = Ok (progression 1 1 (Z.to_nat pods_limit)).
Proof.
  intros Hp. rewrite arange_progression; [| lia | unfold int32_min; lia | lia].
  do 3 f_equal. unfold steps. replace (1 - (pods_limit + 1)) with (- pods_limit) by lia.
  rewrite Z.div_1_r. lia.
Qed.

Lemma lookup_variation_matrix (c m p : list Z) (i j k : nat) (x y z : Z) :
  c !! i = Some x → m !! j = Some y → p !! k = Some z →
  grid_at (variation_matrix c m p) i j k = Some (Point x y z).
Proof.
  intros Hx Hy Hz. unfold grid_at, variation_matrix.
  rewrite list_lookup_fmap, Hx. cbn.
  rewrite list_lookup_fmap, Hy. cbn.
  by rewrite list_lookup_fmap, Hz.
Qed.

(** X1: for a positive step and bounds of the element type, the grid has
    ceil((limit - request) / step) CPU values times as many memory values
    times pods_limit replica values, and the point at index (i, j, k) pairs
    the i-th CPU value, the j-th memory value and the k-th replica count. *)
Theorem grid_shape_and_points
    (pod : string) (cpu_request cpu_limit memory_request memory_limit pods_limit step : Z)
    (w : world) (d : string) :
  0 < step →
  int32_min ≤ cpu_request → cpu_limit ≤ int32_max + 1 →
  int32_min ≤ memory_request → memory_limit ≤ int32_max + 1 →
  0 ≤ pods_limit ≤ int32_max →
  env w !! "LAST_DATA" = Some d →
  ∃ g w',
    parameter_variation pod cpu_request cpu_limit memory_request memory_limit
                        pods_limit step false w = (Ok g, w') ∧
    Z.of_nat (grid_size g)
    = steps cpu_request cpu_limit step * steps memory_request memory_limit step * pods_limit ∧
    ∀ i j k : nat,
      Z.of_nat i < steps cpu_request cpu_limit step →
      Z.of_nat j < steps memory_request memory_limit step →
      Z.of_nat k < pods_limit →
      grid_at g i j k
      = Some (Point (cpu_request + Z.of_nat i * step) (memory_request + Z.of_nat j * step)
                    (1 + Z.of_nat k)).
Proof.
  intros Hs Hc1 Hc2 Hm1 Hm2 Hp Henv.
  set (c := progression cpu_request step (Z.to_nat (steps cpu_request cpu_limit step))).
  set (m := progression memory_request step (Z.to_nat (steps memory_request memory_limit step))).
  set (p := progression 1 1 (Z.to_nat pods_limit)).
  assert (Hax : axes cpu_request cpu_limit memory_request memory_limit pods_limit step false
                = Ok (c, m, p)).
  { unfold axes.
    rewrite (arange_progression cpu_request cpu_limit step) by done.
    rewrite (arange_progression memory_request memory_limit step) by done.
    by rewrite arange_pods. }
  destruct (parameter_variation_run pod _ _ _ _ _ _ _ w d _ _ _ Henv Hax) as (w' & Hrun).
  pose proof (steps_bounds cpu_request cpu_limit step Hs) as [Hc0 _].
  pose proof (steps_bounds memory_request memory_limit step Hs) as [Hm0 _].
  exists (variation_matrix c m p), w'. split; [exact Hrun|]. split.
  - rewrite grid_size_product. unfold c, m, p, progression.
    rewrite !length_map, !length_seq. lia.
  - intros i j k Hi Hj Hk. apply lookup_variation_matrix; unfold c, m, p, progression;
      rewrite list_lookup_fmap, lookup_seq_lt by lia; cbn; f_equal; lia.
Qed.

Lemma grid_shape_and_points_witness :
  ∃ g w',
    parameter_variation "webui" 100 500 200 400 3 100 false Fixture.fresh = (Ok g, w') ∧
    Z.of_nat (grid_size g) = steps 100 500 100 * steps 200 400 100 * 3 ∧
    ∀ i j k : nat,
      Z.of_nat i < steps 100 500 100 → Z.of_nat j < steps 200 400 100 → Z.of_nat k < 3 →
      grid_at g i j k
      = Some (Point (100 + Z.of_nat i * 100) (200 + Z.of_nat j * 100) (1 + Z.of_nat k)).
Proof.
  apply (grid_shape_and_points "webui" 100 500 200 400 3 100 Fixture.fresh "20210303-230654");
    try reflexivity; unfold int32_min, int32_max; lia.
Defined.

Lemma variation_matrix_rev (c m p : list Z) :
  variation_matrix (rev c) (rev m) (rev p) = inverted (variation_matrix c m p).
Proof.
  unfold variation_matrix, inverted. rewrite map_rev. f_equal.
  rewrite map_map. apply map_ext. intros x.
  rewrite map_rev. f_equal. rewrite map_map. apply map_ext. intros y.
  by rewrite map_rev.
Qed.

Lemma parameter_variation_inv (pod : string) (cr cl mr ml pl step : Z) (invert : bool)
    (w w' : world) (g : list (list (list ParameterPoint))) :
  parameter_variation pod cr cl mr ml pl step invert w = (Ok g, w') →
  ∃ c m p d,
    axes cr cl mr ml pl step invert = Ok (c, m, p) ∧ env w !! "LAST_DATA" = Some d ∧
    g = variation_matrix c m p.
Proof.
  unfold parameter_variation.
  unfold mbind, M_bind, lift, os.getcwd, os.getenv, os.path.exists_.
  destruct (axes cr cl mr ml pl step invert) as [[[c m] p]|]; [|done].
  destruct (env w !! "LAST_DATA") as [d|] eqn:Hd; [|done]. cbn.
  case_bool_decide; cbn; intros [= <- _]; by exists c, m, p, d.
Qed.

(** X2: inverting the grid reverses every axis and nothing else: whenever
    the plain call returns a grid, the inverted call returns that grid with
    each of its three axes reversed. *)
Theorem inverted_grid_is_reversed
    (pod : string) (cpu_request cpu_limit memory_request memory_limit pods_limit step : Z)
    (w w1 : world) (g : list (list (list ParameterPoint))) :
  parameter_variation pod cpu_request cpu_limit memory_request memory_limit
                      pods_limit step false w = (Ok g, w1) →
  ∃ w2,
    parameter_variation pod cpu_request cpu_limit memory_request memory_limit
                        pods_limit step true w = (Ok (inverted g), w2).
Proof.
  intros Hplain.
  destruct (parameter_variation_inv _ _ _ _ _ _ _ _ _ _ _ Hplain)
    as (c & m & p & d & Hax & Henv & ->).
  destruct (axes_spec _ _ _ _ _ _ _ _ _ _ Hax) as (c0 & m0 & p0 & Hc & Hm & Hp & -> & -> & ->).
  assert (Hax' : axes cpu_request cpu_limit memory_request memory_limit pods_limit step true
                 = Ok (rev c0, rev m0, rev p0)).
  { unfold axes. by rewrite Hc, Hm, Hp. }
  destruct (parameter_variation_run pod _ _ _ _ _ _ _ w d _ _ _ Henv Hax') as (w2 & Hrun).
  exists w2. by rewrite Hrun, variation_matrix_rev.
Qed.

Lemma inverted_grid_is_reversed_witness :
  ∃ w2,
    parameter_variation "webui" 100 300 100 200 2 100 true Fixture.fresh
    = (Ok (inverted [[[Point 100 100 1; Point 100 100 2]];
                     [[Point 200 100 1; Point 200 100 2]]]), w2).
Proof.
  eapply (inverted_grid_is_reversed "webui" 100 300 100 200 2 100 Fixture.fresh).
  vm_compute. reflexivity.
Defined.

Lemma lookup_flat_map_uniform {A B : Type} (f : A → list B) (n : nat) (l : list A)
    (i j : nat) (a : A) (b : B) :
  (∀ x, length (f x) = n) → l !! i = Some a → f a !! j = Some b →
  flat_map f l !! (i * n + j)%nat = Some b.
Proof.
  intros Hn. revert i. induction l as [|x l IH]; intros i Ha Hb; [done|].
  pose proof (lookup_lt_Some _ _ _ Hb) as Hj. rewrite Hn in Hj.
  cbn [flat_map]. destruct i as [|i]; cbn in Ha.
  - injection Ha as ->. by rewrite lookup_app_l by (rewrite Hn; lia).
  - rewrite lookup_app_r by (rewrite Hn; lia). rewrite Hn.
    replace (S i * n + j - n)%nat with (i * n + j)%nat by lia. by apply IH.
Qed.

Lemma length_flat_map_uniform {A B : Type} (f : A → list B) (n : nat) (l : list A) :
  (∀ x, length (f x) = n) → length (flat_map f l) = (length l * n)%nat.
Proof.
  intros Hn. induction l as [|x l IH]; [done|].
  cbn [flat_map length]. rewrite length_app, Hn, IH. lia.
Qed.

Lemma lookup_variation_rows (c m p : list Z) (i j k : nat) (x y z : Z) :
  c !! i = Some x → m !! j = Some y → p !! k = Some z →
  variation_rows c m p !! ((i * length m + j) * length p + k)%nat = Some (Point x y z).
Proof.
  intros Hx Hy Hz. unfold variation_rows.
  replace ((i * length m + j) * length p + k)%nat
    with (i * (length m * length p) + (j * length p + k))%nat by lia.
  apply (lookup_flat_map_uniform _ (length m * length p) _ _ _ x); [|done|].
  - intros a. rewrite (length_flat_map_uniform _ (length p)); [done|].
    intros b. by rewrite length_map.
  - apply (lookup_flat_map_uniform _ (length p) _ _ _ y); [|done|].
    + intros b. by rewrite length_map.
    + by rewrite list_lookup_fmap, Hz.
Qed.

Lemma parameter_variation_absent (pod : string) (cr cl mr ml pl step : Z) (invert : bool)
    (w : world) (d : string) (c m p : list Z) :
  env w !! "LAST_DATA" = Some d →
  fs w !! variation_path w d pod = None →
  axes cr cl mr ml pl step invert = Ok (c, m, p) →
  ∃ w', parameter_variation pod cr cl mr ml pl step invert w
        = (Ok (variation_matrix c m p), w') ∧
        env w' = env w ∧ cwd w' = cwd w ∧
        fs w' !! variation_path w d pod = Some (Csv (variation_frame c m p)).
Proof.
  intros Henv Habsent Hax.
  exists (World (<[variation_path w d pod := Csv (variation_frame c m p)]> (fs w))
                (env w) (cwd w) (clock w) (log w) (backend_calls w)).
  split; [|split; [done|split; [done|apply lookup_insert_eq]]].
  unfold parameter_variation.
  unfold mbind, M_bind, lift, os.getcwd, os.getenv, os.path.exists_.
  rewrite Hax, Henv. unfold mret, M_ret. cbv beta iota zeta.
  change (os.path.join (cwd w) ["data"; "raw"; d; pod +:+ "_variation.csv"])
    with (variation_path w d pod).
  rewrite bool_decide_eq_false_2 by (rewrite Habsent; by intros [? ?]).
  reflexivity.
Qed.

(** X3: when no table exists yet, the call writes one whose row labels are
    1, 2, ... and whose rows follow the grid in row-major order: the row
    labelled (i * M + j) * P + k + 1 holds the CPU, memory and replica
    values of the grid point (i, j, k). *)
Theorem variation_table_row_major
    (pod : string) (cr cl mr ml pl step : Z) (invert : bool) (w : world) (d : string)
    (c m p : list Z) :
  env w !! "LAST_DATA" = Some d →
  fs w !! variation_path w d pod = None →
  axes cr cl mr ml pl step invert = Ok (c, m, p) →
  ∃ g w' cpus memories replicas labels,
    parameter_variation pod cr cl mr ml pl step invert w = (Ok g, w') ∧
    fs w' !! variation_path w d pod
    = Some (Csv (Frame labels [("CPU", cpus); ("Memory", memories); ("Pods", replicas)])) ∧
    labels = map Z.of_nat (seq 1 (length c * length m * length p)) ∧
    ∀ (i j k : nat) (x y z : Z),
      c !! i = Some x → m !! j = Some y → p !! k = Some z →
      let r := ((i * length m + j) * length p + k)%nat in
      grid_at g i j k = Some (Point x y z) ∧
      labels !! r = Some (Z.of_nat r + 1) ∧
      cpus !! r = Some (CInt x) ∧ memories !! r = Some (CInt y) ∧
      replicas !! r = Some (CInt z).
Proof.
  intros Henv Habsent Hax.
  destruct (parameter_variation_absent pod cr cl mr ml pl step invert w d c m p)
    as (w' & Hrun & _ & _ & Hfile); try done.
  eexists (variation_matrix c m p), w', _, _, _, _.
  split; [exact Hrun|]. split; [exact Hfile|]. split; [reflexivity|].
  - intros i j k x y z Hx Hy Hz r.
    pose proof (lookup_variation_rows c m p i j k x y z Hx Hy Hz) as Hrow. fold r in Hrow.
    split; [by apply lookup_variation_matrix|].
    pose proof (lookup_lt_Some _ _ _ Hx). pose proof (lookup_lt_Some _ _ _ Hy).
    pose proof (lookup_lt_Some _ _ _ Hz).
    split; [|by rewrite !list_lookup_fmap, Hrow].
    assert (Hr : (r < length c * length m * length p)%nat).
    { assert (i * length m + j + 1 ≤ length c * length m)%nat by nia.
      assert ((i * length m + j + 1) * length p ≤ length c * length m * length p)%nat
        by (by apply Nat.mul_le_mono_r).
      unfold r. lia. }
    rewrite list_lookup_fmap, lookup_seq_lt by done.
    cbn [fmap option_fmap option_map]. f_equal. lia.
Qed.

Lemma variation_table_row_major_witness :
  ∃ g w' cpus memories replicas labels,
    parameter_variation "webui" 100 300 100 200 2 100 false Fixture.fresh = (Ok g, w') ∧
    fs w' !! variation_path Fixture.fresh "20210303-230654" "webui"
    = Some (Csv (Frame labels [("CPU", cpus); ("Memory", memories); ("Pods", replicas)])) ∧
    labels = map Z.of_nat (seq 1 (length [100; 200] * length [100] * length [1; 2])) ∧
    ∀ (i j k : nat) (x y z : Z),
      [100; 200] !! i = Some x → [100] !! j = Some y → [1; 2] !! k = Some z →
      let r := ((i * length [100] + j) * length [1; 2] + k)%nat in
      grid_at g i j k = Some (Point x y z) ∧
      labels !! r = Some (Z.of_nat r + 1) ∧
      cpus !! r = Some (CInt x) ∧ memories !! r = Some (CInt y) ∧
      replicas !! r = Some (CInt z).
Proof.
  apply (variation_table_row_major "webui" 100 300 100 200 2 100 false Fixture.fresh
           "20210303-230654" [100; 200] [100] [1; 2]); vm_compute; reflexivity.
Defined.

Lemma parameter_variation_existing (pod : string) (cr cl mr ml pl step : Z) (invert : bool)
    (w : world) (d : string) :
  env w !! "LAST_DATA" = Some d →
  is_Some (fs w !! variation_path w d pod) →
  snd (parameter_variation pod cr cl mr ml pl step invert w) = w.
Proof.
  intros Henv Hex. unfold parameter_variation.
  unfold mbind, M_bind, lift, os.getcwd, os.getenv, os.path.exists_.
  destruct (axes cr cl mr ml pl step invert) as [[[c m] p]|]; [|done].
  rewrite Henv. unfold mret, M_ret. cbv beta iota zeta.
  change (os.path.join (cwd w) ["data"; "raw"; d; pod +:+ "_variation.csv"])
    with (variation_path w d pod).
  rewrite bool_decide_eq_true_2 by done. by destruct w.
Qed.

Lemma parameter_variation_leaves_table (pod : string) (cr cl mr ml pl step : Z)
    (invert : bool) (w w' : world) (g : list (list (list ParameterPoint))) :
  parameter_variation pod cr cl mr ml pl step invert w = (Ok g, w') →
  ∃ d, env w' !! "LAST_DATA" = Some d ∧ is_Some (fs w' !! variation_path w' d pod).
Proof.
  intros Hrun.
  destruct (parameter_variation_inv _ _ _ _ _ _ _ _ _ _ _ Hrun)
    as (c & m & p & d & Hax & Henv & ->).
  exists d. destruct (fs w !! variation_path w d pod) as [old|] eqn:Hold.
  - pose proof (parameter_variation_existing pod cr cl mr ml pl step invert w d Henv
                  ltac:(by rewrite Hold)) as Hsame.
    rewrite Hrun in Hsame. cbn in Hsame. subst w'. split; [done | by rewrite Hold].
  - destruct (parameter_variation_absent pod cr cl mr ml pl step invert w d c m p)
      as (w2 & Hrun2 & Hen & Hcwd & Hfile); try done.
    rewrite Hrun in Hrun2. injection Hrun2 as <-.
    split; [by rewrite Hen|]. unfold variation_path in *. rewrite Hcwd. by rewrite Hfile.
Qed.

(** X4: the flat table is written once per run directory and deployment:
    after a call that returned, every later call for the same deployment,
    with whatever bounds, step or inversion, leaves the world as it is, so
    the stored table stays that of the first call even when the grid that
    is returned is a different one. *)
Theorem variation_table_written_once
    (pod : string) (cr cl mr ml pl step : Z) (invert : bool) (w w1 : world)
    (g : list (list (list ParameterPoint)))
    (cr' cl' mr' ml' pl' step' : Z) (invert' : bool) :
  parameter_variation pod cr cl mr ml pl step invert w = (Ok g, w1) →
  snd (parameter_variation pod cr' cl' mr' ml' pl' step' invert' w1) = w1.
Proof.
  intros Hfirst.
  destruct (parameter_variation_leaves_table _ _ _ _ _ _ _ _ _ _ _ Hfirst) as (d & Henv & Hex).
  by apply (parameter_variation_existing _ _ _ _ _ _ _ _ _ d).
Qed.

Lemma variation_table_written_once_witness :
  snd (parameter_variation "webui" 100 900 100 900 5 200 false
         (snd (parameter_variation "webui" 100 300 100 200 2 100 true Fixture.fresh)))
  = snd (parameter_variation "webui" 100 300 100 200 2 100 true Fixture.fresh).
Proof.
  eapply (variation_table_written_once "webui" 100 300 100 200 2 100 true Fixture.fresh).
  vm_compute. reflexivity.
Defined.

(** X5: a step of 0 makes the call raise ZeroDivisionError, and a missing
    LAST_DATA setting makes it raise TypeError once the axes are generated;
    in both cases nothing is written. *)
Theorem parameter_variation_errors
    (pod : string) (cr cl mr ml pl step : Z) (invert : bool) (w : world) :
  parameter_variation pod cr cl mr ml pl 0 invert w = (Raise ZeroDivisionError, w) ∧
  (env w !! "LAST_DATA" = None →
   ∀ c m p, axes cr cl mr ml pl step invert = Ok (c, m, p) →
            parameter_variation pod cr cl mr ml pl step invert w = (Raise TypeError, w)).
Proof.
  split; [reflexivity|].
  intros Henv c m p Hax. unfold parameter_variation.
  unfold mbind, M_bind, lift, os.getcwd, os.getenv.
  by rewrite Hax, Henv.
Qed.

(** ** The metrics export *)

Lemma parameter_variation_errors_witness :
  parameter_variation "webui" 100 300 100 200 2 0 true Scenario.bare
  = (Raise ZeroDivisionError, Scenario.bare) ∧
  (env Scenario.bare !! "LAST_DATA" = None →
   ∀ c m p, axes 100 300 100 200 2 100 true = Ok (c, m, p) →
            parameter_variation "webui" 100 300 100 200 2 100 true Scenario.bare
            = (Raise TypeError, Scenario.bare)).
Proof. apply (parameter_variation_errors "webui" 100 300 100 200 2 100 true Scenario.bare). Defined.

Import Collector.

Lemma export_frame_refl (w : world) : export_frame w w.
Proof.
  repeat split. exists []. split; [by rewrite app_nil_r | constructor].
Qed.

Lemma export_frame_trans (w1 w2 w3 : world) :
  export_frame w1 w2 → export_frame w2 w3 → export_frame w1 w3.
Proof.
  intros (E1 & C1 & L1 & cs1 & B1 & F1) (E2 & C2 & L2 & cs2 & B2 & F2).
  repeat split; try congruence.
  exists (cs1 ++ cs2). split; [by rewrite B2, B1, app_assoc | by apply Forall_app].
Qed.

Lemma bind_frame {A B : Type} (m : M A) (f : A → M B) :
  (∀ w, export_frame w (snd (m w))) →
  (∀ a w, export_frame w (snd (f a w))) →
  ∀ w, export_frame w (snd ((m ≫= f) w)).
Proof.
  intros Hm Hf w. unfold mbind, M_bind. specialize (Hm w).
  destruct (m w) as [[a|e] w1]; cbn in *; [|done].
  eapply export_frame_trans; [exact Hm | apply Hf].
Qed.

Lemma lift_frame {A : Type} (r : result A) (w : world) : export_frame w (snd (lift r w)).
Proof. apply export_frame_refl. Qed.

Lemma write_file_frame (p : string) (d : file_data) (w : world) :
  export_frame w (snd (write_file p d w)).
Proof.
  repeat split. exists []. split; [cbn; by rewrite app_nil_r | constructor].
Qed.

Lemma for_eachM_frame {S A : Type} (body : S → A → M S) (l : list A) :
  (∀ s a w, export_frame w (snd (body s a w))) →
  ∀ s w, export_frame w (snd (for_eachM body l s w)).
Proof.
  intros Hb. induction l as [|a l IH]; intros s w; cbn [for_eachM].
  - apply export_frame_refl.
  - apply bind_frame; [apply Hb | intros; apply IH].
Qed.

Lemma getenv_int_same `{External} (key : string) (w : world) :
  snd (getenv_int key w) = w.
Proof.
  unfold getenv_int, mbind, M_bind, os.getenv, lift, raise, lift.
  by destruct (env w !! key).
Qed.

(** A request for a standard metric, or for one of the two custom ones. *)
Lemma get_prometheus_metric_frame `{External} (metric_name mode : string) (custom : bool)
    (w : world) :
  custom = false ∨ metric_name = "cpu" ∨ metric_name = "memory" →
  export_frame w (snd (get_prometheus_metric metric_name mode custom w)).
Proof.
  intros Hknown. unfold get_prometheus_metric.
  unfold mbind at 1, M_bind, os.getenv.
  unfold mbind at 1, M_bind.
  destruct (env w !! ("PROMETHEUS_" +:+ mode +:+ "_HOST")) as [host|];
    [|apply export_frame_refl].
  unfold mret at 1, M_ret. cbv beta iota.
  unfold mbind at 1, M_bind, datetime_now.
  unfold mbind at 1, M_bind.
  pose proof (getenv_int_same "HH" w) as Hh.
  destruct (getenv_int "HH" w) as [[hh|e] w1]; cbn in Hh; subst w1;
    [|apply export_frame_refl].
  unfold mbind at 1, M_bind.
  pose proof (getenv_int_same "MM" w) as Hm.
  destruct (getenv_int "MM" w) as [[mm|e] w1]; cbn in Hm; subst w1;
    [|apply export_frame_refl].
  assert (Hcall : ∀ c, has_query c → export_frame w (snd (backend c w))).
  { intros c Hc. repeat split. exists [c]. split; [done | by constructor]. }
  destruct custom.
  - destruct Hknown as [?|[->| ->]]; [done| |]; cbn; apply Hcall; done.
  - cbn. apply Hcall. done.
Qed.

(** X6: whatever the backend answers, one export leaves the settings, the
    working directory and the log as they were and sends no custom query
    without a text: the collector only asks for the two custom metrics it knows, so
    the error path of the unknown metric name is never taken. *)
Theorem export_sends_only_known_queries `{Cluster} (folder : string) (iteration : Z)
    (w : world) :
  export_frame w (snd (get_prometheus_data folder iteration w)).
Proof.
  revert w. unfold get_prometheus_data.
  repeat (cbv zeta; match goal with
    | |- ∀ w, export_frame w (snd (get_prometheus_metric _ _ _ w)) =>
        intros ?; apply get_prometheus_metric_frame; auto
    | |- ∀ w, export_frame w (snd (lift _ w)) => intros ?; apply lift_frame
    | |- ∀ w, export_frame w (snd (item _ _ w)) => intros ?; apply lift_frame
    | |- ∀ w, export_frame w (snd (mret _ w)) => intros ?; apply export_frame_refl
    | |- ∀ w, export_frame w (snd (to_csv _ _ w)) => intros ?; apply write_file_frame
    | |- ∀ w, export_frame w (snd (for_eachM _ _ _ w)) =>
        intros ?; apply for_eachM_frame; intros ? ?
    | |- ∀ w, export_frame w (snd ((_ ≫= _) w)) => apply bind_frame; [|intros ?]
    end).
Qed.

Lemma getenv_int_inv `{External} (key : string) (w w' : world) (z : Z) :
  getenv_int key w = (Ok z, w') → w' = w.
Proof.
  intros Hrun. pose proof (getenv_int_same key w) as Hs. rewrite Hrun in Hs. done.
Qed.

(** A request that is answered: a host is configured for the mode, the
    world afterwards is the world before with one more recorded call, and
    the call asks that host for [metric_name]. *)
Lemma get_prometheus_metric_ok `{External} (metric_name mode : string) (custom : bool)
    (w w' : world) (d : metric_data) :
  get_prometheus_metric metric_name mode custom w = (Ok d, w') →
  custom = false ∨ metric_name = "cpu" ∨ metric_name = "memory" →
  ∃ c host, w' = with_call w c ∧
       env w !! ("PROMETHEUS_" +:+ mode +:+ "_HOST") = Some host ∧
       request_of c
       = (if custom
          then query_range (Some host)
                 (Some (if String.eqb metric_name "cpu" then cpu_usage else memory_usage)) "10"
          else range_data (Some host) metric_name).
Proof.
  intros Hrun Hknown. unfold get_prometheus_metric in Hrun.
  unfold mbind at 1, M_bind, os.getenv in Hrun.
  unfold mbind at 1, M_bind in Hrun.
  destruct (env w !! ("PROMETHEUS_" +:+ mode +:+ "_HOST")) as [host|] eqn:Hhost; [|done].
  unfold mret at 1, M_ret in Hrun. cbv beta iota in Hrun.
  unfold mbind at 1, M_bind, datetime_now in Hrun.
  unfold mbind at 1, M_bind in Hrun.
  destruct (getenv_int "HH" w) as [[hh|e] w1] eqn:Hh; [|done].
  apply getenv_int_inv in Hh as ->.
  unfold mbind at 1, M_bind in Hrun.
  destruct (getenv_int "MM" w) as [[mm|e] w1] eqn:Hm; [|done].
  apply getenv_int_inv in Hm as ->.
  destruct custom.
  - destruct Hknown as [?|[->| ->]]; [done| |]; cbn in Hrun;
      unfold backend in Hrun; injection Hrun as _ <-; eexists _, host;
      (split; [reflexivity|]); (split; [done | reflexivity]).
  - cbn in Hrun. unfold backend in Hrun. injection Hrun as _ <-.
    eexists _, host. split; [reflexivity|]. split; [done | reflexivity].
Qed.

Lemma bind_ok {A B : Type} (m : M A) (f : A → M B) (w w' : world) (b : B) :
  (m ≫= f) w = (Ok b, w') → ∃ a w1, m w = (Ok a, w1) ∧ f a w1 = (Ok b, w').
Proof.
  unfold mbind, M_bind. destruct (m w) as [[a|e] w1]; [|done]. eauto.
Qed.

Lemma item_ok (l : list string) (i : Z) (w w' : world) (x : string) :
  item l i w = (Ok x, w') → w' = w ∧ getitem l i = Ok x.
Proof.
  unfold item, lift. destruct (getitem l i); intros Hrun; simplify_eq. done.
Qed.

Lemma lift_ok {A : Type} (r : result A) (w w' : world) (x : A) :
  lift r w = (Ok x, w') → w' = w ∧ r = Ok x.
Proof. unfold lift. destruct r; intros Hrun; simplify_eq. done. Qed.

Lemma with_call_calls (w : world) (c : prom_call) :
  backend_calls (with_call w c) = backend_calls w ++ [c].
Proof. reflexivity. Qed.

Ltac run_export Hs :=
  cbv beta zeta in Hs;
  lazymatch type of Hs with
  | get_prometheus_metric _ _ _ _ = _ =>
      let c := fresh "c" in
      let host := fresh "host" in
      let Hhost := fresh "Hhost" in
      let Hc := fresh "Hc" in
      apply get_prometheus_metric_ok in Hs as (c & host & -> & Hhost & Hc); [|by auto];
      cbn [env with_call] in Hhost
  | item _ _ _ = _ =>
      let Hi := fresh "Hi" in
      apply item_ok in Hs as [-> Hi]; vm_compute in Hi; injection Hi as <-
  | lift _ _ = _ => apply lift_ok in Hs as [-> ?]
  | mret _ _ = _ => unfold mret, M_ret in Hs; injection Hs as <- <-
  | to_csv _ _ _ = _ => unfold to_csv, write_file in Hs; simplify_eq
  | for_eachM _ [] _ _ = _ =>
      cbn [for_eachM] in Hs; unfold mret, M_ret in Hs; injection Hs as <- <-
  | for_eachM _ (_ :: _) _ _ = _ => cbn [for_eachM] in Hs; run_export Hs
  | (_ ≫= _) _ = _ =>
      let a := fresh "a" in
      let w1 := fresh "w" in
      let Hs1 := fresh "Hs" in
      apply bind_ok in Hs as (a & w1 & Hs1 & Hs);
      run_export Hs1; run_export Hs
  end.

(** X7: a successful export has found a host for both backends and has
    sent exactly ten requests, in this order: the six resource metrics, the
    custom memory and CPU queries (to the resources host), and the two
    latency counters (to the network host); and it has replaced the two
    export files of the iteration, whether they existed or not. *)
Theorem export_trace `{Cluster} (folder : string) (iteration : Z) (w w' : world) :
  get_prometheus_data folder iteration w = (Ok tt, w') →
  ∃ resources network calls metric_df custom_metrics_df,
    env w !! "PROMETHEUS_RESOURCES_HOST" = Some resources ∧
    env w !! "PROMETHEUS_NETWORK_HOST" = Some network ∧
    backend_calls w' = backend_calls w ++ calls ∧
    map request_of calls = export_requests (env w) ∧
    fs w' = <[custom_metrics_path folder iteration := Csv custom_metrics_df]>
              (<[metrics_path folder iteration := Csv metric_df]> (fs w)).
Proof.
  intros Hrun. unfold get_prometheus_data in Hrun.
  change (range_from 1 (Z.of_nat (length resource_metrics))) with [1; 2; 3; 4; 5] in Hrun.
  run_export Hrun.
  change ("PROMETHEUS_" +:+ "RESOURCES" +:+ "_HOST") with "PROMETHEUS_RESOURCES_HOST" in *.
  change ("PROMETHEUS_" +:+ "NETWORK" +:+ "_HOST") with "PROMETHEUS_NETWORK_HOST" in *.
  repeat match goal with
    | H1 : env w !! ?k = Some ?a, H2 : env w !! ?k = Some ?b |- _ =>
        assert (b = a) as -> by congruence; clear H2
    end.
  eexists _, _, [_; _; _; _; _; _; _; _; _; _], _, _. cbn [fs backend_calls with_call].
  split; [eassumption|]. split; [eassumption|]. split; [|split].
  - rewrite <- !app_assoc. reflexivity.
  - cbn [map]. unfold export_requests. cbn [map resource_metrics network_metrics app].
    repeat match goal with Hc : request_of _ = _ |- _ => rewrite Hc; clear Hc end.
    repeat match goal with Hh : env w !! _ = Some _ |- _ => rewrite Hh; clear Hh end.
    reflexivity.
  - reflexivity.
Qed.

Lemma export_trace_witness :
  ∃ resources network calls metric_df custom_metrics_df,
    env Scenario.monitored !! "PROMETHEUS_RESOURCES_HOST" = Some resources ∧
    env Scenario.monitored !! "PROMETHEUS_NETWORK_HOST" = Some network ∧
    backend_calls (snd (@get_prometheus_data _ Scenario.cluster "out" 3 Scenario.monitored))
    = backend_calls Scenario.monitored ++ calls ∧
    map request_of calls = export_requests (env Scenario.monitored) ∧
    fs (snd (@get_prometheus_data _ Scenario.cluster "out" 3 Scenario.monitored))
    = <[custom_metrics_path "out" 3 := Csv custom_metrics_df]>
        (<[metrics_path "out" 3 := Csv metric_df]> (fs Scenario.monitored)).
Proof.
  apply (@export_trace _ Scenario.cluster "out" 3 Scenario.monitored).
  vm_compute; reflexivity.
Defined.

Lemma keeps_files_bind {A B : Type} (m : M A) (f : A → M B) :
  keeps_files m → (∀ a, keeps_files (f a)) → keeps_files (m ≫= f).
Proof.
  intros Hm Hf w. unfold mbind, M_bind. specialize (Hm w).
  destruct (m w) as [[a|e] w1]; cbn in *; [|done].
  by rewrite Hf.
Qed.

Lemma keeps_files_lift {A : Type} (r : result A) : keeps_files (lift r).
Proof. intros w. reflexivity. Qed.

Lemma keeps_files_mret {A : Type} (a : A) : keeps_files (mret a : M A).
Proof. intros w. reflexivity. Qed.

Lemma keeps_files_for_eachM {S A : Type} (body : S → A → M S) (l : list A) :
  (∀ s a, keeps_files (body s a)) → ∀ s, keeps_files (for_eachM body l s).
Proof.
  intros Hb. induction l as [|a l IH]; intros s; cbn [for_eachM].
  - apply keeps_files_mret.
  - apply keeps_files_bind; [apply Hb | intros; apply IH].
Qed.

Lemma keeps_files_getenv `(key : string) : keeps_files (os.getenv key).
Proof. intros w. reflexivity. Qed.

Lemma keeps_files_getenv_int `{External} (key : string) : keeps_files (getenv_int key).
Proof. intros w. by rewrite getenv_int_same. Qed.

Lemma keeps_files_emit (l : level) (msg : string) : keeps_files (logging.emit l msg).
Proof. intros w. reflexivity. Qed.

Lemma keeps_files_get_prometheus_metric `{External} (metric_name mode : string)
    (custom : bool) :
  keeps_files (get_prometheus_metric metric_name mode custom).
Proof.
  unfold get_prometheus_metric.
  apply keeps_files_bind; [apply keeps_files_getenv | intros url].
  apply keeps_files_bind; [by destruct url | intros _].
  apply keeps_files_bind; [by intros w | intros now].
  apply keeps_files_bind; [apply keeps_files_getenv_int | intros hh].
  apply keeps_files_bind; [apply keeps_files_getenv_int | intros mm].
  cbv zeta. destruct custom.
  - apply keeps_files_bind; [|intros query].
    + repeat case_match; try apply keeps_files_mret.
      apply keeps_files_bind; [apply keeps_files_emit | intros; apply keeps_files_mret].
    + apply keeps_files_bind; [by intros w | intros; by intros w].
  - apply keeps_files_bind; [by intros w | intros; by intros w].
Qed.

(** A failure of [m ≫= f] that leaves the files alone, for an [m] that
    always leaves them alone. *)
Lemma bind_raise_keeps {A B : Type} (m : M A) (f : A → M B) (e : exn) :
  keeps_files m →
  (∀ a w w', f a w = (Raise e, w') → fs w' = fs w) →
  ∀ w w', (m ≫= f) w = (Raise e, w') → fs w' = fs w.
Proof.
  intros Hm Hf w w'. unfold mbind, M_bind. specialize (Hm w).
  destruct (m w) as [[a|e'] w1]; cbn in Hm.
  - intros Hrun. rewrite <- Hm. by eapply Hf.
  - intros Hrun. by simplify_eq.
Qed.

(** X8: an export that fails has written nothing: both files are written
    at the very end, after the last step that can fail. *)
Theorem failed_export_writes_nothing `{Cluster} (folder : string) (iteration : Z)
    (w w' : world) (e : exn) :
  get_prometheus_data folder iteration w = (Raise e, w') → fs w' = fs w.
Proof.
  revert w w'. unfold get_prometheus_data.
  repeat (cbv zeta; match goal with
    | |- keeps_files (get_prometheus_metric _ _ _) => apply keeps_files_get_prometheus_metric
    | |- keeps_files (item _ _) => apply keeps_files_lift
    | |- keeps_files (lift _) => apply keeps_files_lift
    | |- keeps_files (mret _) => apply keeps_files_mret
    | |- keeps_files (for_eachM _ _ _) => apply keeps_files_for_eachM; intros ? ?
    | |- keeps_files (_ ≫= _) => apply keeps_files_bind; [|intros ?]
    | |- ∀ w w', (to_csv _ _ ≫= _) w = _ → _ => by intros ? ?
    | |- ∀ w w', (_ ≫= _) w = _ → _ => apply bind_raise_keeps; [|intros ?]
    end).
Qed.

Lemma failed_export_writes_nothing_witness :
  fs (snd (@get_prometheus_data _ Scenario.cluster "out" 3 Scenario.stale))
  = fs Scenario.stale.
Proof.
  apply (@failed_export_writes_nothing _ Scenario.cluster "out" 3 Scenario.stale _ TypeError).
  vm_compute; reflexivity.
Defined.

(** ** The sweep of a namespace *)

Import Sweep.

Lemma for_eachM_app {S A : Type} (body : S → A → M S) (l1 l2 : list A) (s : S) (w : world) :
  for_eachM body (l1 ++ l2) s w = (for_eachM body l1 s ≫= for_eachM body l2) w.
Proof.
  revert s w. induction l1 as [|a l1 IH]; intros s w; cbn [for_eachM app].
  - reflexivity.
  - unfold mbind, M_bind in *. destruct (body s a w) as [[s'|e] w1]; [apply IH | done].
Qed.

Lemma for_eachM_skip {S A : Type} (body : S → A → M S) (l : list A) (s : S) (w : world) :
  (∀ a, a ∈ l → body s a w = (Ok s, w)) → for_eachM body l s w = (Ok s, w).
Proof.
  induction l as [|a l IH]; intros Hskip; cbn [for_eachM]; [done|].
  unfold mbind, M_bind. rewrite Hskip by constructor.
  apply IH. intros b Hb. apply Hskip. by constructor.
Qed.

Lemma parameter_variation_env (pod : string) (cr cl mr ml pl step : Z) (invert : bool)
    (w : world) :
  env (snd (parameter_variation pod cr cl mr ml pl step invert w)) = env w.
Proof.
  unfold parameter_variation.
  unfold mbind, M_bind, lift, os.getcwd, os.getenv, os.path.exists_.
  destruct (axes cr cl mr ml pl step invert) as [[[c m] p]|]; [|done].
  destruct (env w !! "LAST_DATA") as [d|]; [|done].
  unfold mret, M_ret. cbv beta iota zeta. by case_bool_decide.
Qed.

Lemma lookup_rev_progression (start step : Z) (n i : nat) :
  (i < n)%nat →
  rev (progression start step n) !! i = Some (start + (Z.of_nat n - 1 - Z.of_nat i) * step).
Proof.
  intros Hi. rewrite rev_alt. change (rev_append ?l []) with (reverse l).
  unfold progression.
  rewrite reverse_lookup by (rewrite length_map, length_seq; lia).
  rewrite length_map, length_seq, list_lookup_fmap, lookup_seq_lt by lia.
  cbn [fmap option_fmap option_map Nat.add].
  by replace (Z.of_nat (n - S i)) with (Z.of_nat n - 1 - Z.of_nat i) by lia.
Qed.

(** X9: deployments other than the one named by SCALE_POD are never varied:
    when no deployment of the namespace carries that name, or the setting is
    missing, the sweep returns an empty dict and touches nothing. *)
Theorem sweep_skips_other_deployments `{Cluster} (pods_limit expressions step : Z)
    (w : world) (resource_requests : list (string * gmap string string)) :
  get_resource_requests = Ok resource_requests →
  (∀ p requests, (p, requests) ∈ resource_requests → env w !! "SCALE_POD" ≠ Some p) →
  parameter_variation_namespace pods_limit expressions step w = (Ok ∅, w).
Proof.
  intros Hrr Hother. unfold parameter_variation_namespace.
  unfold mbind at 1, M_bind, lift. rewrite Hrr.
  apply for_eachM_skip. intros [p requests] Hin.
  unfold mbind, M_bind, os.getenv.
  rewrite bool_decide_eq_false_2; [done|].
  intros Heq. by apply (Hother p requests).
Qed.

Lemma sweep_skips_other_deployments_witness :
  @parameter_variation_namespace _ Scenario.cluster 2 3 50 Fixture.fresh = (Ok ∅, Fixture.fresh).
Proof.
  apply (@sweep_skips_other_deployments _ Scenario.cluster 2 3 50 Fixture.fresh
           [("teastore-db", <["cpu" := "500m"]> (<["memory" := "1024Mi"]> ∅));
            ("teastore-webui", <["cpu" := "200m"]> (<["memory" := "300Mi"]> ∅))]).
  - reflexivity.
  - intros p requests _. vm_compute. discriminate.
Defined.

(** X10: for the deployment named by SCALE_POD the sweep returns one grid,
    inverted: each resource takes exactly [expressions] values, the lowest
    one 100 above the request of the deployment, and the first point is the
    largest configuration with [pods_limit] replicas. *)
Theorem sweep_grid_of_scaled_deployment `{Cluster} (pods_limit expressions step : Z)
    (w : world) (resource_requests : list (string * gmap string string))
    (p : string) (requests : gmap string string) (cpu_text memory_text d : string)
    (millicores mebibytes : Z) :
  get_resource_requests = Ok resource_requests →
  NoDup resource_requests.*1 →
  (p, requests) ∈ resource_requests →
  env w !! "SCALE_POD" = Some p →
  env w !! "LAST_DATA" = Some d →
  requests !! "cpu" = Some cpu_text → py_int (before "m" cpu_text) = Ok millicores →
  requests !! "memory" = Some memory_text → py_int (before "Mi" memory_text) = Ok mebibytes →
  0 < step → 0 ≤ expressions → 0 ≤ pods_limit ≤ int32_max →
  int32_min ≤ millicores + 100 → millicores + 100 + expressions * step ≤ int32_max + 1 →
  int32_min ≤ mebibytes + 100 → mebibytes + 100 + expressions * step ≤ int32_max + 1 →
  ∃ g w',
    parameter_variation_namespace pods_limit expressions step w = (Ok {[p := g]}, w') ∧
    Z.of_nat (grid_size g) = expressions * expressions * pods_limit ∧
    ∀ i j k : nat,
      Z.of_nat i < expressions → Z.of_nat j < expressions → Z.of_nat k < pods_limit →
      grid_at g i j k
      = Some (Point (millicores + 100 + (expressions - 1 - Z.of_nat i) * step)
                    (mebibytes + 100 + (expressions - 1 - Z.of_nat j) * step)
                    (pods_limit - Z.of_nat k)).
Proof.
  intros Hrr Hnodup Hin Hscale Hlast Hcpu Hmilli Hmem Hmebi Hs He Hp Hc1 Hc2 Hm1 Hm2.
  set (c0 := progression (millicores + 100) step (Z.to_nat expressions)).
  set (m0 := progression (mebibytes + 100) step (Z.to_nat expressions)).
  set (p0 := progression 1 1 (Z.to_nat pods_limit)).
  assert (Hax : axes (millicores + 100) (millicores + 100 + expressions * step)
                     (mebibytes + 100) (mebibytes + 100 + expressions * step)
                     pods_limit step true = Ok (rev c0, rev m0, rev p0)).
  { unfold axes.
    rewrite (arange_progression (millicores + 100)) by done.
    rewrite (arange_progression (mebibytes + 100)) by done.
    rewrite arange_pods by done. by rewrite !steps_expressions by done. }
  destruct (parameter_variation_run p _ _ _ _ _ _ _ w d _ _ _ Hlast Hax) as (w' & Hrun).
  exists (variation_matrix (rev c0) (rev m0) (rev p0)), w'. split; [|split].
  - apply list_elem_of_split in Hin as (l1 & l2 & ->).
    rewrite fmap_app, fmap_cons in Hnodup. cbn [fst] in Hnodup.
    apply NoDup_app in Hnodup as (_ & Hl1 & Hnodup).
    apply NoDup_cons in Hnodup as [Hl2 _].
    unfold parameter_variation_namespace.
    unfold mbind at 1, M_bind, lift. rewrite Hrr.
    match goal with |- for_eachM ?f _ _ _ = _ => set (body := f) end.
    assert (Hskip : ∀ l s w1, p ∉ l.*1 → env w1 !! "SCALE_POD" = Some p →
              for_eachM body l s w1 = (Ok s, w1)).
    { intros l s w1 Hl Hw1. apply for_eachM_skip. intros [q rq] Hq.
      unfold body, mbind, M_bind, os.getenv. rewrite Hw1.
      rewrite bool_decide_eq_false_2; [done|].
      intros [= ->]. apply Hl. apply list_elem_of_fmap. by exists (p, rq). }
    rewrite for_eachM_app. unfold mbind at 1, M_bind.
    rewrite Hskip by (done || (intros Hbad; apply (Hl1 p); [done | by left])).
    cbn [for_eachM]. unfold mbind at 1, M_bind.
    unfold body at 1.
    unfold mbind at 1, M_bind, os.getenv. rewrite Hscale.
    rewrite bool_decide_eq_true_2 by done.
    unfold mbind at 1 2 3 4, M_bind, lift, dict_item. rewrite Hcpu, Hmilli, Hmem, Hmebi.
    cbv zeta. unfold mbind at 1, M_bind. rewrite Hrun.
    unfold mret at 1, M_ret.
    rewrite Hskip; [by rewrite insert_empty | done |].
    pose proof (parameter_variation_env p (millicores + 100)
                  (millicores + 100 + expressions * step) (mebibytes + 100)
                  (mebibytes + 100 + expressions * step) pods_limit step true w) as Henv.
    rewrite Hrun in Henv. cbn in Henv. by rewrite Henv.
  - rewrite grid_size_product, !length_rev. unfold c0, m0, p0, progression.
    rewrite !length_map, !length_seq. lia.
  - intros i j k Hi Hj Hk. apply lookup_variation_matrix; unfold c0, m0, p0.
    + rewrite lookup_rev_progression by lia. f_equal. lia.
    + rewrite lookup_rev_progression by lia. f_equal. lia.
    + rewrite lookup_rev_progression by lia. f_equal. lia.
Qed.

Lemma sweep_grid_of_scaled_deployment_witness :
  ∃ g w',
    @parameter_variation_namespace _ Scenario.cluster 2 3 50 Scenario.sweep
    = (Ok {[ "teastore-webui" := g ]}, w') ∧
    Z.of_nat (grid_size g) = 3 * 3 * 2 ∧
    ∀ i j k : nat,
      Z.of_nat i < 3 → Z.of_nat j < 3 → Z.of_nat k < 2 →
      grid_at g i j k
      = Some (Point (200 + 100 + (3 - 1 - Z.of_nat i) * 50)
                    (300 + 100 + (3 - 1 - Z.of_nat j) * 50)
                    (2 - Z.of_nat k)).
Proof.
  apply (@sweep_grid_of_scaled_deployment _ Scenario.cluster 2 3 50 Scenario.sweep
           [("teastore-db", <["cpu" := "500m"]> (<["memory" := "1024Mi"]> ∅));
            ("teastore-webui", <["cpu" := "200m"]> (<["memory" := "300Mi"]> ∅))]
           "teastore-webui" (<["cpu" := "200m"]> (<["memory" := "300Mi"]> ∅))
           "200m" "300Mi" "20210303-230654" 200 300);
    try (unfold int32_min, int32_max; lia); try (vm_compute; reflexivity).
  - compute_done.
  - apply list_elem_of_In. right. left. reflexivity.
Defined.

(** ** Training and the advisor *)

Import Ml.

Lemma touches_only_refl (paths : list string) (w : world) : touches_only paths w w.
Proof. by repeat split. Qed.

Lemma touches_only_trans (paths : list string) (w1 w2 w3 : world) :
  touches_only paths w1 w2 → touches_only paths w2 w3 → touches_only paths w1 w3.
Proof.
  intros (E1 & C1 & B1 & F1) (E2 & C2 & B2 & F2).
  repeat split; try congruence. intros p Hp. by rewrite F2, F1.
Qed.

Lemma touches_only_mono (paths paths' : list string) (w w' : world) :
  paths ⊆ paths' → touches_only paths w w' → touches_only paths' w w'.
Proof.
  intros Hsub (E & C & B & F). repeat split; try done.
  intros p Hp. apply F. intros Hin. by apply Hp, Hsub.
Qed.

Lemma touches_only_logged (paths : list string) (l : level) (msg : string) (w : world) :
  touches_only paths w (snd (logging.emit l msg w)).
Proof. by repeat split. Qed.

Lemma save_model_run (model : pyobj) (name : string) (w : world) :
  save_model model name w = (Ok tt, with_model w name model).
Proof. reflexivity. Qed.

Lemma with_model_touches (w : world) (name : string) (model : pyobj) :
  touches_only [model_path (cwd w) name] w (with_model w name model).
Proof.
  repeat split. intros p Hp. cbn. apply lookup_insert_ne.
  intros <-. apply Hp. by left.
Qed.

(** What a trainer does to the world when asked to save: nothing when the
    fit fails, otherwise one model file is written. *)
Lemma linear_regression_model_inv `{External} (X y : ndarray) (name : string) (w : world) :
  let out := linear_regression_model X y name true w in
  (∃ e, out = (Raise e, w)) ∨ (∃ m, out = (Ok tt, with_model w name (PyEstimator m))).
Proof.
  cbv zeta. unfold linear_regression_model.
  destruct (train_test_split X y) as [[[X_train X_test] y_train] y_test].
  unfold mbind, M_bind, lift.
  destruct (LinearRegression_fit X_train y_train) as [m|e]; [right; by exists m | left; by exists e].
Qed.

Lemma neural_network_model_inv `{External} (X y : ndarray) (name : string) (w : world) :
  let out := neural_network_model X y name true w in
  (∃ e, out = (Raise e, w)) ∨ (∃ m, out = (Ok tt, with_model w name (PyEstimator m))).
Proof.
  cbv zeta. unfold neural_network_model.
  destruct (train_test_split X y) as [[[X_train X_test] y_train] y_test].
  unfold mbind, M_bind, lift.
  destruct (MLP_pipeline_fit X (ravel y)) as [m|e]; [right; by exists m | left; by exists e].
Qed.

Lemma svr_model_inv `{External} (X y : ndarray) (name : string) (w : world) :
  let out := svr_model X y name true false w in
  (∃ e, out = (Raise e, w)) ∨ out = (Ok tt, with_model w name (PyBool false)).
Proof.
  cbv zeta. unfold svr_model.
  destruct (train_test_split _ _) as [[[X_train X_test] y_train] y_test].
  unfold mbind, M_bind, lift.
  destruct (SVR_fit X_train (ravel y_train)) as [m|e]; [by right | left; by exists e].
Qed.

Lemma logged_nil (w : world) : logged w [] = w.
Proof. unfold logged. rewrite app_nil_r. by destruct w. Qed.

Lemma touches_only_records (paths : list string) (w : world) (records : list log_record) :
  touches_only paths w (logged w records).
Proof. by repeat split. Qed.

(** The three outcomes of [get_data]. *)
Lemma get_data_run `{External} (date target : string) (combined : bool) (w : world) :
  get_data date target combined w
  = match training_data date target combined w with
    | Ok (Some (X, y)) =>
        (Ok (Some (X, y)),
         logged w [Log INFO ("X: " +:+ shape X +:+ " - y: " +:+ shape y)])
    | Ok None =>
        (Ok None,
         logged w [Log WARNING ("No filtered file with name " +:+ date +:+ " found.")])
    | Raise e => (Raise e, w)
    end.
Proof.
  unfold get_data, mbind, M_bind, reading.
  destruct (training_data date target combined w) as [[[X y]|]|e]; reflexivity.
Qed.

(** One round of the training loop for a known kind: it fails without
    writing, or it writes one model file and goes on. *)
Lemma train_step_inv `{External} (date kind t : string) (rest : list string) (w : world) :
  kind ∈ known_kinds →
  (∃ e records, train_targets date kind (t :: rest) w = (Raise e, logged w records)) ∨
  (∃ o records, train_targets date kind (t :: rest) w
        = train_targets date kind rest (with_model (logged w records) t o) ∧
        (kind = "svr" → o = PyBool false) ∧ (kind ≠ "svr" → is_estimator o)).
Proof.
  intros Hkind.
  remember (train_targets date kind (t :: rest) w) as run eqn:Hrun.
  cbn [train_targets] in Hrun. unfold mbind at 1, M_bind in Hrun.
  rewrite get_data_run in Hrun.
  destruct (training_data date t true w) as [[[X y]|]|e].
  - unfold mbind at 1, M_bind, unpack in Hrun.
    unfold mret at 1, M_ret in Hrun. cbv beta iota in Hrun.
    set (w1 := logged w [Log INFO ("X: " +:+ shape X +:+ " - y: " +:+ shape y)]) in *.
    unfold known_kinds in Hkind.
    apply elem_of_cons in Hkind as [->|Hkind]; [|apply elem_of_cons in Hkind as [->|Hkind]];
      [| |apply list_elem_of_singleton in Hkind as ->];
      cbn [String.eqb Ascii.eqb Bool.eqb] in Hrun; cbv iota in Hrun;
      unfold mbind, M_bind in Hrun.
    + destruct (neural_network_model_inv X y t w1) as [[e He]|[m Hm]].
      * rewrite He in Hrun. left; eauto.
      * rewrite Hm in Hrun. right. exists (PyEstimator m). eexists.
        split; [done|]. split; [intros [=] | by intros _].
    + destruct (linear_regression_model_inv X y t w1) as [[e He]|[m Hm]].
      * rewrite He in Hrun. left; eauto.
      * rewrite Hm in Hrun. right. exists (PyEstimator m). eexists.
        split; [done|]. split; [intros [=] | by intros _].
    + destruct (svr_model_inv X y t w1) as [[e He]|Hm].
      * rewrite He in Hrun. left; eauto.
      * rewrite Hm in Hrun. right. exists (PyBool false). eexists.
        split; [done|]. split; [done | by intros []].
  - left. eexists _, _. exact Hrun.
  - left. exists e, []. by rewrite logged_nil.
Qed.

Lemma train_unknown_kind `{External} (date kind t : string) (rest : list string) (w : world) :
  kind ∉ known_kinds →
  train_targets date kind (t :: rest) w
  = match training_data date t true w with
    | Ok (Some (X, y)) =>
        (Ok tt, logged w [Log INFO ("X: " +:+ shape X +:+ " - y: " +:+ shape y);
                          Log WARNING ("There is no model type: " +:+ kind)])
    | Ok None =>
        (Raise TypeError,
         logged w [Log WARNING ("No filtered file with name " +:+ date +:+ " found.")])
    | Raise e => (Raise e, w)
    end.
Proof.
  intros Hkind. cbn [train_targets]. unfold mbind at 1, M_bind.
  rewrite get_data_run.
  destruct (training_data date t true w) as [[[X y]|]|e]; [|done|done].
  unfold mbind at 1, M_bind, unpack. unfold mret at 1, M_ret. cbv beta iota.
  destruct (String.eqb_spec kind "neural") as [->|_].
  { exfalso. apply Hkind. unfold known_kinds. set_solver. }
  destruct (String.eqb_spec kind "linear") as [->|_].
  { exfalso. apply Hkind. unfold known_kinds. set_solver. }
  destruct (String.eqb_spec kind "svr") as [->|_].
  { exfalso. apply Hkind. unfold known_kinds. set_solver. }
  unfold logging.warning, logging.emit, logged. cbn. by rewrite <- app_assoc.
Qed.

Lemma train_targets_touches `{External} (date kind : string) (ts : list string) (w : world) :
  touches_only (map (model_path (cwd w)) ts) w (snd (train_targets date kind ts w)).
Proof.
  revert w. induction ts as [|t rest IH]; intros w.
  - apply touches_only_logged.
  - destruct (decide (kind ∈ known_kinds)) as [Hkind|Hkind].
    + destruct (train_step_inv date kind t rest w Hkind)
        as [(e & records & ->)|(o & records & -> & _)].
      * apply touches_only_records.
      * apply touches_only_trans with (with_model (logged w records) t o).
        -- apply touches_only_trans with (logged w records);
             [apply touches_only_records|].
           eapply touches_only_mono; [|apply with_model_touches].
           intros p Hp. apply list_elem_of_singleton in Hp as ->. cbn [map]. by left.
        -- eapply touches_only_mono; [|apply IH].
           intros p Hp. cbn [map]. right. exact Hp.
    + rewrite train_unknown_kind by done.
      destruct (training_data date t true w) as [[[X y]|]|e];
        [apply touches_only_records | apply touches_only_records | apply touches_only_refl].
Qed.

(** X11: whatever the kind of model and however the training ends, it
    changes no file other than the three model files, and neither the
    settings nor the working directory. *)
Theorem training_touches_only_model_files `{External} (date kind : string) (w : world)
    (p : string) :
  (∀ t, t ∈ targets → p ≠ model_path (cwd w) t) →
  let w' := snd (train_for_all_targets date kind w) in
  fs w' !! p = fs w !! p ∧ env w' = env w ∧ cwd w' = cwd w.
Proof.
  intros Hp. cbv zeta.
  destruct (train_targets_touches date kind targets w) as (E & C & _ & F).
  split; [|done]. apply F. intros Hin.
  apply list_elem_of_fmap in Hin as (t & -> & Ht). by apply (Hp t).
Qed.

Lemma training_touches_only_model_files_witness :
  let w' := snd (train_for_all_targets (H:=Fixture.doubles) "20210303-230654" "linear"
                   Fixture.filtered) in
  fs w' !! "/bench/data/filtered/20210303-230654_filtered.csv"
  = fs Fixture.filtered !! "/bench/data/filtered/20210303-230654_filtered.csv" ∧
  env w' = env Fixture.filtered ∧ cwd w' = cwd Fixture.filtered.
Proof.
  apply (training_touches_only_model_files (H:=Fixture.doubles)).
  intros t Ht. unfold targets in Ht.
  repeat (apply elem_of_cons in Ht as [->|Ht]); [vm_compute; discriminate ..|].
  by apply elem_of_nil in Ht.
Defined.

(** X12: an unknown kind of model is only noticed after the data of the
    first target has been read.  When the data is found, the call returns
    normally; it changes no file, the only record above the INFO level that
    it logs is the warning about the kind, and it does not report that the
    models are trained.  When no file matches, the warning of the reader is
    logged and unpacking its result raises TypeError.  When the reader
    raises, its exception comes first and nothing changes. *)
Theorem unknown_kind_trains_nothing `{External} (date kind : string) (w : world) :
  kind ∉ known_kinds →
  (∀ X y, training_data date "average response time" true w = Ok (Some (X, y)) →
     ∃ records,
       train_for_all_targets date kind w = (Ok tt, logged w records) ∧
       above_info records = [Log WARNING ("There is no model type: " +:+ kind)] ∧
       Log INFO "All models are trained." ∉ records) ∧
  (training_data date "average response time" true w = Ok None →
     ∃ records,
       train_for_all_targets date kind w = (Raise TypeError, logged w records) ∧
       above_info records
       = [Log WARNING ("No filtered file with name " +:+ date +:+ " found.")]) ∧
  (∀ e, training_data date "average response time" true w = Raise e →
     train_for_all_targets date kind w = (Raise e, w)).
Proof.
  intros Hkind. unfold train_for_all_targets, targets.
  rewrite train_unknown_kind by done.
  split; [|split].
  - intros X y ->. eexists. split; [reflexivity|]. split; [reflexivity|].
    intros Hin. apply elem_of_cons in Hin as [Hin|Hin].
    + by injection Hin.
    + apply list_elem_of_singleton in Hin. discriminate.
  - intros ->. eexists. split; reflexivity.
  - by intros e ->.
Qed.

Lemma unknown_kind_trains_nothing_witness :
  (∀ X y, training_data (External:=Fixture.doubles) "20210303-230654"
            "average response time" true Fixture.fresh = Ok (Some (X, y)) →
     ∃ records,
       train_for_all_targets (H:=Fixture.doubles) "20210303-230654" "forest" Fixture.fresh
       = (Ok tt, logged Fixture.fresh records) ∧
       above_info records = [Log WARNING ("There is no model type: " +:+ "forest")] ∧
       Log INFO "All models are trained." ∉ records) ∧
  (training_data (External:=Fixture.doubles) "20210303-230654"
     "average response time" true Fixture.fresh = Ok None →
     ∃ records,
       train_for_all_targets (H:=Fixture.doubles) "20210303-230654" "forest" Fixture.fresh
       = (Raise TypeError, logged Fixture.fresh records) ∧
       above_info records
       = [Log WARNING ("No filtered file with name " +:+ "20210303-230654" +:+ " found.")]) ∧
  (∀ e, training_data (External:=Fixture.doubles) "20210303-230654"
          "average response time" true Fixture.fresh = Raise e →
     train_for_all_targets (H:=Fixture.doubles) "20210303-230654" "forest" Fixture.fresh
     = (Raise e, Fixture.fresh)).
Proof.
  apply (unknown_kind_trains_nothing (H:=Fixture.doubles)).
  unfold known_kinds. intros Hin.
  repeat (apply elem_of_cons in Hin as [Hin|Hin]; [discriminate|]).
  by apply elem_of_nil in Hin.
Defined.

Lemma append_assoc (a b c : string) : (a +:+ b) +:+ c = a +:+ (b +:+ c).
Proof.
  induction a as [|x a IH]; [done|].
  change (String x ((a +:+ b) +:+ c) = String x (a +:+ (b +:+ c))). by rewrite IH.
Qed.

Lemma join_last (acc b : string) :
  String.prefix "/" b = false →
  ∃ q, ∀ b', String.prefix "/" b' = false → os.path.join_from acc [b'] = q +:+ b'.
Proof.
  intros _. cbn [os.path.join_from].
  destruct (orb _ _).
  - exists acc. intros b' ->. done.
  - exists (acc +:+ "/"). intros b' ->. by rewrite append_assoc.
Qed.

Lemma model_path_ne (here a b : string) :
  String.prefix "/" (a +:+ ".joblib") = false →
  String.prefix "/" (b +:+ ".joblib") = false →
  a +:+ ".joblib" ≠ b +:+ ".joblib" →
  model_path here a ≠ model_path here b.
Proof.
  intros Ha Hb Hne. unfold model_path, os.path.join.
  change ["data"; "models"; a +:+ ".joblib"] with (["data"; "models"] ++ [a +:+ ".joblib"]).
  change ["data"; "models"; b +:+ ".joblib"] with (["data"; "models"] ++ [b +:+ ".joblib"]).
  rewrite !join_from_app.
  destruct (join_last (os.path.join_from here ["data"; "models"]) _ Ha) as [q Hq].
  rewrite !Hq by done. intros Heq. apply Hne. by apply (inj (String.app q)).
Qed.

Lemma train_targets_inv `{External} (date kind : string) (w w' : world) :
  kind ∈ known_kinds →
  train_for_all_targets date kind w = (Ok tt, w') →
  ∃ m0 m1 m2,
    cwd w' = cwd w ∧ env w' = env w ∧
    fs w' = <[model_path (cwd w) "memory usage" := Joblib m2]>
              (<[model_path (cwd w) "cpu usage" := Joblib m1]>
                 (<[model_path (cwd w) "average response time" := Joblib m0]> (fs w))) ∧
    (kind = "svr" → m0 = PyBool false ∧ m1 = PyBool false ∧ m2 = PyBool false) ∧
    (kind ≠ "svr" → is_estimator m0 ∧ is_estimator m1 ∧ is_estimator m2).
Proof.
  intros Hkind Hrun. unfold train_for_all_targets, targets in Hrun.
  destruct (train_step_inv date kind "average response time" ["cpu usage"; "memory usage"]
              w Hkind) as [(e & l0 & He)|(m0 & l0 & E0 & S0 & L0)]; [congruence|].
  rewrite E0 in Hrun.
  destruct (train_step_inv date kind "cpu usage" ["memory usage"]
              (with_model (logged w l0) "average response time" m0) Hkind)
    as [(e & l1 & He)|(m1 & l1 & E1 & S1 & L1)]; [congruence|].
  rewrite E1 in Hrun.
  destruct (train_step_inv date kind "memory usage" []
              (with_model
                 (logged (with_model (logged w l0) "average response time" m0) l1)
                 "cpu usage" m1) Hkind)
    as [(e & l2 & He)|(m2 & l2 & E2 & S2 & L2)]; [congruence|].
  rewrite E2 in Hrun. cbn [train_targets] in Hrun.
  exists m0, m1, m2. unfold logging.info, logging.emit in Hrun. injection Hrun as <-.
  split; [reflexivity|]. split; [reflexivity|]. split; [reflexivity|]. auto.
Qed.

Lemma get_models_after_training `{External} (date kind : string) (w w' : world) :
  kind ∈ known_kinds →
  train_for_all_targets date kind w = (Ok tt, w') →
  ∃ m0 m1 m2,
    get_models w' = (Ok [m0; m1; m2], w') ∧
    env w' = env w ∧
    (kind = "svr" → m0 = PyBool false ∧ m1 = PyBool false ∧ m2 = PyBool false) ∧
    (kind ≠ "svr" → is_estimator m0 ∧ is_estimator m1 ∧ is_estimator m2).
Proof.
  intros Hkind Hrun.
  destruct (train_targets_inv date kind w w' Hkind Hrun)
    as (m0 & m1 & m2 & Hcwd & Henv & Hfs & Hsvr & Hest).
  exists m0, m1, m2.
  split; [|split; [exact Henv | split; assumption]].
  apply get_models_stored; rewrite Hcwd, Hfs.
  - rewrite lookup_insert_ne by (apply model_path_ne; [done | done | discriminate]).
    rewrite lookup_insert_ne by (apply model_path_ne; [done | done | discriminate]).
    apply lookup_insert_eq.
  - rewrite lookup_insert_ne by (apply model_path_ne; [done | done | discriminate]).
    apply lookup_insert_eq.
  - apply lookup_insert_eq.
Qed.

(** X13: after a training run of a known kind that returned, the three
    model files exist and [get_models] loads them, in the order of the
    targets; what it loads are estimators for the linear and the neural
    kind and the boolean [False] three times for the support-vector kind. *)
Theorem trained_models_load `{External} (date kind : string) (w w' : world) :
  kind ∈ known_kinds →
  train_for_all_targets date kind w = (Ok tt, w') →
  ∃ m0 m1 m2,
    get_models w' = (Ok [m0; m1; m2], w') ∧
    (kind = "svr" → m0 = PyBool false ∧ m1 = PyBool false ∧ m2 = PyBool false) ∧
    (kind ≠ "svr" → is_estimator m0 ∧ is_estimator m1 ∧ is_estimator m2).
Proof.
  intros Hkind Hrun.
  destruct (get_models_after_training date kind w w' Hkind Hrun)
    as (m0 & m1 & m2 & Hload & _ & Hsvr & Hest).
  by exists m0, m1, m2.
Qed.

Lemma trained_models_load_witness :
  ∃ m0 m1 m2,
    get_models (snd (train_for_all_targets (H:=Fixture.doubles) "20210303-230654" "neural"
                       Fixture.fresh))
    = (Ok [m0; m1; m2],
       snd (train_for_all_targets (H:=Fixture.doubles) "20210303-230654" "neural"
              Fixture.fresh)) ∧
    ("neural" = "svr" → m0 = PyBool false ∧ m1 = PyBool false ∧ m2 = PyBool false) ∧
    ("neural" ≠ "svr" → is_estimator m0 ∧ is_estimator m1 ∧ is_estimator m2).
Proof.
  apply (trained_models_load (H:=Fixture.doubles) "20210303-230654" "neural" Fixture.fresh).
  - unfold known_kinds. by left.
  - reflexivity.
Defined.

Lemma getenv_int_ok `{External} (key s : string) (z : Z) (w : world) :
  env w !! key = Some s → py_int s = Ok z → getenv_int key w = (Ok z, w).
Proof.
  intros Hk Hz. unfold getenv_int, mbind, M_bind, os.getenv, lift. by rewrite Hk, Hz.
Qed.

(** X14: after a training run of the support-vector kind the advisor cannot
    be used: with a valid step setting and a window that fits the element
    type, it fails on the first prediction with AttributeError. *)
Theorem advisor_fails_after_svr_training `{External} (date : string) (w w' : world)
    (s : string) (step cpu_limit memory_limit number_of_pods window : Z) :
  train_for_all_targets date "svr" w = (Ok tt, w') →
  env w !! "STEP" = Some s → py_int s = Ok step →
  0 ≤ window →
  fits cpu_limit step window → fits memory_limit step window → fits number_of_pods 1 window →
  get_best_parameters cpu_limit memory_limit number_of_pods window w'
  = (Raise (AttributeError "predict"), w').
Proof.
  intros Hrun Henv Hint Hw Hc Hm Hp.
  destruct (get_models_after_training date "svr" w w') as
    (m0 & m1 & m2 & Hload & Henv' & Hsvr & _); [unfold known_kinds; set_solver | done |].
  destruct (Hsvr eq_refl) as (-> & -> & ->).
  unfold get_best_parameters. unfold mbind at 1, M_bind.
  rewrite (getenv_int_ok "STEP" s step) by (by rewrite ?Henv').
  unfold mbind at 1, M_bind. rewrite Hload. unfold lift. f_equal.
  unfold best_parameters, np_alloc.
  destruct (Z.ltb_spec (window * 2) 0); [lia|]. cbn [mbind result_bind length].
  rewrite fill_window_neighbours by (done || by rewrite length_replicate).
  reflexivity.
Qed.

Lemma advisor_fails_after_svr_training_witness :
  get_best_parameters (H:=Fixture.doubles) 300 512 3 2
    (snd (train_for_all_targets (H:=Fixture.doubles) "20210303-230654" "svr" Fixture.fresh))
  = (Raise (AttributeError "predict"),
     snd (train_for_all_targets (H:=Fixture.doubles) "20210303-230654" "svr" Fixture.fresh)).
Proof.
  apply (advisor_fails_after_svr_training (H:=Fixture.doubles) "20210303-230654"
           Fixture.fresh _ "50" 50 300 512 3 2);
    try reflexivity; try lia; unfold fits, int32_min, int32_max; lia.
Defined.

Lemma load_all_same (here : string) (ts : list string) (w : world) :
  snd (load_all here ts w) = w.
Proof.
  induction ts as [|t rest IH]; [done|].
  cbn [load_all]. unfold mbind at 1, M_bind, joblib_load.
  destruct (fs w !! _) as [[df|o]|]; [done| |done].
  unfold mbind, M_bind. destruct (load_all here rest w) as [[ms|e] w1]; cbn in *; by subst.
Qed.

Lemma get_models_same (w : world) : snd (get_models w) = w.
Proof. unfold get_models, mbind, M_bind, os.getcwd. apply load_all_same. Qed.

Lemma get_best_parameters_same `{External} (cpu_limit memory_limit number_of_pods window : Z)
    (w : world) :
  snd (get_best_parameters cpu_limit memory_limit number_of_pods window w) = w.
Proof.
  unfold get_best_parameters. unfold mbind at 1, M_bind.
  pose proof (getenv_int_same "STEP" w) as Hs.
  destruct (getenv_int "STEP" w) as [[step|e] w1]; cbn in Hs; subst w1; [|done].
  unfold mbind at 1, M_bind.
  pose proof (get_models_same w) as Hm.
  destruct (get_models w) as [[models|e] w1]; cbn in Hm; subst w1; done.
Qed.

Lemma for_each_ran {S A : Type} (body : S → A → result S) (l : list A) (s out : S) (a : A) :
  for_each body l s = Ok out → a ∈ l → ∃ s1 s2, body s1 a = Ok s2.
Proof.
  revert s. induction l as [|b l IH]; intros s Hrun Hin; [by apply elem_of_nil in Hin|].
  cbn [for_each] in Hrun. destruct (body s b) as [s'|e] eqn:Hb; [|done].
  apply elem_of_cons in Hin as [->|Hin]; [eauto|]. by apply (IH s').
Qed.

Lemma point_setitem_inv (c m p : Z) (v : ParameterPoint) :
  point_setitem c m p = Ok v →
  int32_min ≤ c ≤ int32_max ∧ int32_min ≤ m ≤ int32_max ∧ int32_min ≤ p ≤ int32_max.
Proof.
  unfold point_setitem, int32_setitem, in_int32. intros Hv.
  destruct (int32_min <=? c) eqn:?, (c <=? int32_max) eqn:?; try done.
  destruct (int32_min <=? m) eqn:?, (m <=? int32_max) eqn:?; try done.
  destruct (int32_min <=? p) eqn:?, (p <=? int32_max) eqn:?; try done.
  lia.
Qed.

Lemma elem_of_range (n i : Z) : 0 ≤ i < n → i ∈ range n.
Proof.
  intros Hi. unfold range. apply list_elem_of_fmap. exists (Z.to_nat i).
  split; [lia|]. apply elem_of_seq. lia.
Qed.

(** A window that could be filled fits the element type. *)
Lemma fill_window_fits (step c m p window : Z) (init out : list ParameterPoint) :
  1 ≤ window →
  fill_window step c m p window init = Ok out →
  fits c step window ∧ fits m step window ∧ fits p 1 window.
Proof.
  intros Hw Hrun. unfold fill_window in Hrun.
  destruct (for_each_ran _ _ _ _ (window - 1) Hrun) as (s1 & s2 & Hdown);
    [apply elem_of_range; lia|].
  destruct (for_each_ran _ _ _ _ (2 * window - 1) Hrun) as (t1 & t2 & Hup);
    [apply elem_of_range; lia|].
  cbv beta zeta in Hdown, Hup.
  rewrite Z.mod_small in Hdown by lia.
  replace ((2 * window - 1) mod window) with (window - 1) in Hup
    by (apply Z.mod_unique with 1; lia).
  destruct (Z.ltb_spec (window - 1) window); [|lia].
  destruct (Z.ltb_spec (2 * window - 1) window); [lia|].
  replace (window - 1 + 1) with window in * by lia.
  destruct (point_setitem (c - window * step) (m - window * step) (p - window))
    as [v|] eqn:Hv; [|done].
  destruct (point_setitem (c + window * step) (m + window * step) (p + window))
    as [u|] eqn:Hu; [|done].
  apply point_setitem_inv in Hv, Hu. unfold fits. lia.
Qed.

Lemma getitem_elem {A : Type} (a : list A) (i : Z) (x : A) : getitem a i = Ok x → x ∈ a.
Proof.
  unfold getitem. cbv zeta. case_match; [|done].
  destruct (a !! _) eqn:Hl; [|done]. intros [= <-]. by eapply list_elem_of_lookup_2.
Qed.

Lemma elem_of_neighbours (step c m p window : Z) (x : ParameterPoint) :
  x ∈ neighbours step c m p window →
  ∃ j, 1 ≤ j ≤ window ∧
       (x = Point (c - j * step) (m - j * step) (p - j) ∨
        x = Point (c + j * step) (m + j * step) (p + j)).
Proof.
  unfold neighbours, offsets. intros Hx.
  apply elem_of_app in Hx as [Hx|Hx];
    apply list_elem_of_fmap in Hx as (j & -> & Hj);
    apply list_elem_of_fmap in Hj as (k & -> & Hk);
    apply elem_of_seq in Hk; exists (Z.of_nat k); (split; [lia|]); auto.
Qed.

Lemma best_parameters_neighbour `{External} (step : Z) (models : list pyobj)
    (cpu_limit memory_limit number_of_pods window : Z) (x : ParameterPoint) :
  best_parameters step models cpu_limit memory_limit number_of_pods window = Ok x →
  x ∈ neighbours step cpu_limit memory_limit number_of_pods window.
Proof.
  unfold best_parameters, np_alloc.
  destruct (Z.ltb_spec (window * 2) 0) as [|Hw]; [done|]. cbn [mbind result_bind].
  destruct (fill_window _ _ _ _ _ _) as [predict_window|] eqn:Hfill; [|done].
  cbn [mbind result_bind].
  destruct (fill_predictions _ _ _) as [predictions|]; [|done]. cbn [mbind result_bind].
  destruct (fill_prediction_array _ _ _) as [prediction_array|]; [|done].
  cbn [mbind result_bind].
  destruct (choose_best _) as [best_outcome_index|]; [|done]. cbn [mbind result_bind].
  intros Hget. apply getitem_elem in Hget.
  destruct (decide (window = 0)) as [->|Hne].
  { cbn in Hfill. injection Hfill as <-. by apply elem_of_nil in Hget. }
  assert (Hpos : 1 ≤ window) by lia.
  destruct (fill_window_fits _ _ _ _ _ _ _ Hpos Hfill) as (Hc & Hm & Hp).
  rewrite fill_window_neighbours in Hfill by (done || lia || by rewrite length_replicate).
  by injection Hfill as <-.
Qed.

(** X15: the advisor only reads, and whatever it returns is one of the
    2W neighbours of the current configuration: CPU limit, memory limit and
    replica count all move in the same direction by the same number j of
    steps, 1 <= j <= W, so it never recommends to keep the current number
    of replicas. *)
Theorem advisor_moves_all_parameters `{External}
    (cpu_limit memory_limit number_of_pods window : Z) (w w' : world) (x : ParameterPoint) :
  get_best_parameters cpu_limit memory_limit number_of_pods window w = (Ok x, w') →
  w' = w ∧ pods x ≠ number_of_pods ∧
  ∃ s step j,
    env w !! "STEP" = Some s ∧ py_int s = Ok step ∧ 1 ≤ j ≤ window ∧
    (x = Point (cpu_limit - j * step) (memory_limit - j * step) (number_of_pods - j) ∨
     x = Point (cpu_limit + j * step) (memory_limit + j * step) (number_of_pods + j)).
Proof.
  intros Hrun.
  pose proof (get_best_parameters_same cpu_limit memory_limit number_of_pods window w) as Hsame.
  rewrite Hrun in Hsame. cbn in Hsame. subst w'. split; [done|].
  unfold get_best_parameters in Hrun. unfold mbind at 1, M_bind in Hrun.
  destruct (getenv_int "STEP" w) as [[step|e] w1] eqn:Hstep; [|done].
  pose proof (getenv_int_inv _ _ _ _ Hstep) as ->.
  unfold getenv_int, mbind, M_bind, os.getenv in Hstep.
  destruct (env w !! "STEP") as [s|] eqn:Henv; [|done].
  unfold lift in Hstep. destruct (py_int s) as [z|] eqn:Hint; [|done].
  injection Hstep as ->.
  unfold mbind at 1, M_bind in Hrun.
  destruct (get_models w) as [[models|e] w1]; [|done].
  unfold lift in Hrun. injection Hrun as Hbest _.
  apply best_parameters_neighbour, elem_of_neighbours in Hbest as (j & Hj & Hx).
  split.
  - destruct Hx as [-> | ->]; cbn; lia.
  - exists s, step, j. done.
Qed.

Lemma advisor_moves_all_parameters_witness :
  Fixture.trained = Fixture.trained ∧ pods (Point 250 462 0) ≠ 1 ∧
  ∃ s step j,
    env Fixture.trained !! "STEP" = Some s ∧ py_int (External:=Fixture.doubles) s = Ok step ∧
    1 ≤ j ≤ 1 ∧
    (Point 250 462 0 = Point (300 - j * step) (512 - j * step) (1 - j) ∨
     Point 250 462 0 = Point (300 + j * step) (512 + j * step) (1 + j)).
Proof.
  apply (advisor_moves_all_parameters (H:=Fixture.doubles) 300 512 1 1 Fixture.trained).
  reflexivity.
Defined.

(** ** The filtered table *)

Import Formatting.

Lemma filter_data_inv `{External} (directory : string) (w w' : world) (out : DataFrame) :
  filter_data directory w = (Ok out, w') →
  ∃ res, merged_exports directory w = Ok res ∧ derive res = Ok out ∧
         save_data out directory "filtered" (logged w (get_data_records directory w))
         = (Ok tt, w').
Proof.
  intros Hrun.
  destruct (filter_data_cases directory w) as [[e He]|(res & out' & Hres & Hout & Hfd & Hok)];
    [congruence|].
  rewrite Hfd in Hrun. injection Hrun as -> <-.
  exists res. split; [done|]. split; [done|].
  rewrite <- Hok. apply surjective_pairing.
Qed.

(** The columns of the table that [derive] returns. *)
Lemma derive_inv (res out : DataFrame) :
  derive res = Ok out →
  ∃ art podcol,
    pd.lookup_column "pod" (df_columns res) = Some podcol ∧
    df_columns out
    = map (λ '(l, c), (pd.renamed renamed_columns l, c))
        (List.filter (λ '(l, _), negb (existsb (String.eqb l) dropped_columns))
           (map (λ '(l, c), (l, pd.select (pd.ne podcol (CStr "prometheus")) c))
              (pd.set_column "average response time" art (df_columns res)))).
Proof.
  unfold derive.
  destruct (pd.getitem res "response_latency_ms_sum") as [sums|]; [|done].
  destruct (pd.getitem res "response_latency_ms_count") as [counts|]; [|done].
  cbn [mbind result_bind].
  destruct (pd.truediv sums counts) as [art|]; [|done]. cbn [mbind result_bind].
  unfold pd.getitem at 1, pd.setitem. cbn [df_columns].
  rewrite lookup_set_column_ne by done.
  destruct (pd.lookup_column "pod" (df_columns res)) as [podcol|] eqn:Hpod; [|done].
  cbn [mbind result_bind]. unfold pd.drop.
  destruct (List.find _ dropped_columns); [done|]. cbn [mbind result_bind].
  intros [= <-]. by exists art, podcol.
Qed.

Lemma renamed_pod (k : string) : pd.renamed renamed_columns k = "pod" ↔ k = "pod".
Proof.
  split; [|by intros ->].
  apply renamed_target. unfold renamed_columns.
  repeat (constructor; [discriminate|]). constructor.
Qed.

Lemma cell_eqb_refl_str (s : string) : pd.cell_eqb (CStr s) (CStr s) = true.
Proof. cbn. apply String.eqb_refl. Qed.

Lemma select_ne_excludes (l : list cell) (s : string) :
  CStr s ∉ pd.select (pd.ne l (CStr s)) l.
Proof.
  induction l as [|c l IH]; cbn [pd.ne map pd.select]; [apply not_elem_of_nil|].
  destruct (pd.cell_eqb c (CStr s)) eqn:Hc; cbn [negb]; [exact IH|].
  apply not_elem_of_cons. split; [|exact IH].
  intros <-. by rewrite cell_eqb_refl_str in Hc.
Qed.

(** X16: the table returned by [filter_data] has a pod column, and no row
    of it belongs to the monitoring pod. *)
Theorem filtered_table_excludes_monitoring_pod `{External}
    (directory : string) (w w' : world) (out : DataFrame) :
  filter_data directory w = (Ok out, w') →
  ∃ podcol, pd.getitem out "pod" = Ok podcol ∧ CStr "prometheus" ∉ podcol.
Proof.
  intros Hrun. apply filter_data_inv in Hrun as (res & _ & Hderive & _).
  apply derive_inv in Hderive as (art & podcol & Hpod & Hcols).
  exists (pd.select (pd.ne podcol (CStr "prometheus")) podcol).
  split; [|apply select_ne_excludes].
  unfold pd.getitem. rewrite Hcols.
  rewrite (lookup_column_rename _ _ _ renamed_pod).
  rewrite (lookup_column_filter
             (λ k, negb (existsb (String.eqb k) dropped_columns))) by reflexivity.
  by rewrite lookup_column_select, lookup_set_column_ne, Hpod.
Qed.

Lemma filtered_table_excludes_monitoring_pod_witness :
  ∃ podcol,
    pd.getitem (Frame [0; 2]
       [("Iteration", [CInt 1; CInt 2]); ("pod", [CStr "webui"; CStr "webui"]);
        ("cpu throttled total", Fixture.floats [4; 7]);
        ("cpu usage", Fixture.floats [40; 55]); ("memory usage", Fixture.floats [61; 58]);
        ("cpu limit", [CInt 300; CInt 300]); ("memory limit", [CInt 512; CInt 512]);
        ("number of pods", [CInt 3; CInt 2]);
        ("average response time",
         [CFloat (f64_of_Z 5); CFloat (f64_div (f64_of_Z 9) (f64_of_Z 4))])]) "pod"
    = Ok podcol ∧ CStr "prometheus" ∉ podcol.
Proof.
  eapply (filtered_table_excludes_monitoring_pod (H:=Fixture.doubles) "20210303-230654"
            Fixture.fresh).
  vm_compute. reflexivity.
Defined.

Lemma lookup_column_renamed_Some (mapping : list (string * string)) (l : string)
    (cols : list (string * list cell)) (v : list cell) :
  pd.lookup_column l (map (λ '(k, c), (pd.renamed mapping k, c)) cols) = Some v →
  ∃ k, pd.renamed mapping k = l ∧ k ∈ cols.*1.
Proof.
  induction cols as [|[k c] cols IH]; cbn [map pd.lookup_column]; [done|].
  destruct (String.eqb_spec (pd.renamed mapping k) l) as [Heq|Hne].
  - intros _. exists k. split; [done|]. cbn. by left.
  - intros Hl. destruct (IH Hl) as (k' & Hk' & Hin). exists k'. split; [done|]. cbn. by right.
Qed.

Lemma elem_of_filter_labels (keep : string → bool) (cols : list (string * list cell))
    (k : string) :
  k ∈ (List.filter (λ '(l, _), keep l) cols).*1 → keep k = true.
Proof.
  induction cols as [|[l c] cols IH]; cbn [List.filter]; [by intros ?%elem_of_nil|].
  destruct (keep l) eqn:Hl; [|exact IH].
  cbn. intros [->|Hin]%elem_of_cons; [done | by apply IH].
Qed.

(** X17: the table returned by [filter_data] has none of the seven raw
    columns that are dropped and none of the six column names that are
    renamed. *)
Theorem filtered_table_columns `{External}
    (directory : string) (w w' : world) (out : DataFrame) (l : string) :
  filter_data directory w = (Ok out, w') →
  l ∈ dropped_columns ++ renamed_columns.*1 →
  pd.has_column out l = false.
Proof.
  intros Hrun Hl. apply filter_data_inv in Hrun as (res & _ & Hderive & _).
  apply derive_inv in Hderive as (art & podcol & _ & Hcols).
  unfold pd.has_column. apply bool_decide_eq_false. rewrite Hcols. intros [v Hv].
  apply lookup_column_renamed_Some in Hv as (k & Hk & Hin).
  apply (elem_of_filter_labels (λ k, negb (existsb (String.eqb k) dropped_columns))) in Hin.
  assert (Hkl : k = l).
  { revert Hk. apply renamed_target. clear -Hl. unfold renamed_columns, dropped_columns in *.
    cbn in Hl. repeat (apply elem_of_cons in Hl as [->|Hl]);
      [repeat (constructor; [discriminate|]); constructor ..|].
    by apply elem_of_nil in Hl. }
  subst k. clear -Hl Hk Hin. unfold renamed_columns, dropped_columns in *. cbn in Hl.
  repeat (apply elem_of_cons in Hl as [->|Hl]); try discriminate.
  by apply elem_of_nil in Hl.
Qed.

Lemma filtered_table_columns_witness :
  pd.has_column (Frame [0; 2]
       [("Iteration", [CInt 1; CInt 2]); ("pod", [CStr "webui"; CStr "webui"]);
        ("cpu throttled total", Fixture.floats [4; 7]);
        ("cpu usage", Fixture.floats [40; 55]); ("memory usage", Fixture.floats [61; 58]);
        ("cpu limit", [CInt 300; CInt 300]); ("memory limit", [CInt 512; CInt 512]);
        ("number of pods", [CInt 3; CInt 2]);
        ("average response time",
         [CFloat (f64_of_Z 5); CFloat (f64_div (f64_of_Z 9) (f64_of_Z 4))])]) "CPU"
  = false.
Proof.
  eapply (filtered_table_columns (H:=Fixture.doubles) "20210303-230654" Fixture.fresh).
  - vm_compute. reflexivity.
  - unfold dropped_columns, renamed_columns. cbn. set_solver.
Defined.

(** X18: [filter_data] is all or nothing: when it raises, nothing has
    changed but the log, which has the record of [get_data] if the run
    directory exists; when it returns and no filtered file existed, the file
    it has created holds exactly the table it returns, and the log has that
    same record and no other. *)
Theorem filter_data_all_or_nothing `{External} (directory : string) (w : world) :
  (∀ e w', filter_data directory w = (Raise e, w') →
     w' = logged w (get_data_records directory w)) ∧
  (∀ out w', filter_data directory w = (Ok out, w') →
     fs w !! filtered_path w directory "filtered" = None →
     fs w' = <[filtered_path w directory "filtered" := Csv out]> (fs w) ∧
     log w' = log w ++ get_data_records directory w).
Proof.
  split.
  - intros e w' Hrun.
    destruct (filter_data_cases directory w) as [[e' He]|(res & out & _ & _ & Hfd & _)];
      congruence.
  - intros out w' Hrun Habsent.
    apply filter_data_inv in Hrun as (res & _ & _ & Hsave).
    rewrite save_data_absent in Hsave by done. by injection Hsave as <-.
Qed.

Lemma filter_data_all_or_nothing_witness :
  (∀ e w', filter_data (H:=Fixture.doubles) "20210303-230654" Fixture.fresh = (Raise e, w') →
     w' = logged Fixture.fresh
            (get_data_records (H:=Fixture.doubles) "20210303-230654" Fixture.fresh)) ∧
  (∀ out w', filter_data (H:=Fixture.doubles) "20210303-230654" Fixture.fresh = (Ok out, w') →
     fs Fixture.fresh !! filtered_path Fixture.fresh "20210303-230654" "filtered" = None →
     fs w' = <[filtered_path Fixture.fresh "20210303-230654" "filtered" := Csv out]>
               (fs Fixture.fresh) ∧
     log w' = log Fixture.fresh
              ++ get_data_records (H:=Fixture.doubles) "20210303-230654" Fixture.fresh).
Proof.
  apply (filter_data_all_or_nothing (H:=Fixture.doubles) "20210303-230654" Fixture.fresh).
Defined.

(** ** The grid axes and the advisor's candidates, at the public functions *)









(** The advisor with a step setting and three stored objects. *)
Lemma get_best_parameters_run `{External} (w : world) (s : string)
    (step cpu_limit memory_limit number_of_pods window : Z) (m0 m1 m2 : pyobj) :
  env w !! "STEP" = Some s → py_int s = Ok step →
  fs w !! model_path (cwd w) "average response time" = Some (Joblib m0) →
  fs w !! model_path (cwd w) "cpu usage" = Some (Joblib m1) →
  fs w !! model_path (cwd w) "memory usage" = Some (Joblib m2) →
  get_best_parameters cpu_limit memory_limit number_of_pods window w
  = (best_parameters step [m0; m1; m2] cpu_limit memory_limit number_of_pods window, w).
Proof.
  intros Henv Hint H0 H1 H2. unfold get_best_parameters.
  unfold mbind at 1, M_bind. rewrite (getenv_int_ok "STEP" s step) by done.
  unfold mbind at 1, M_bind. by rewrite (get_models_stored w m0 m1 m2).
Qed.

(** Past the window loop the advisor works on the neighbours only. *)
Lemma best_parameters_on_neighbours `{External} (step : Z) (models : list pyobj)
    (cpu_limit memory_limit number_of_pods window : Z) :
  0 ≤ window →
  fits cpu_limit step window → fits memory_limit step window → fits number_of_pods 1 window →
  best_parameters step models cpu_limit memory_limit number_of_pods window
  = (predictions ←
       fill_predictions models
         (neighbours step cpu_limit memory_limit number_of_pods window)
         (replicate (length models) (replicate (Z.to_nat (window * 2)) zero64));
     prediction_array ←
       fill_prediction_array window predictions
         (replicate (Z.to_nat (window * 2)) (0, 0, 0));
     best_outcome_index ← choose_best (tolist prediction_array);
     getitem (neighbours step cpu_limit memory_limit number_of_pods window)
             best_outcome_index).
Proof.
  intros Hw Hc Hm Hp. unfold best_parameters, np_alloc.
  destruct (Z.ltb_spec (window * 2) 0); [lia|]. cbn [mbind result_bind].
  rewrite fill_window_neighbours by (done || by rewrite length_replicate).
  reflexivity.
Qed.

(** C2: the advisor builds exactly 2W candidates, the W points that step
    every parameter down by the offsets 1..W followed by the W points that
    step every parameter up by the offsets 1..W; for window 2, step 50 and
    CPU 300 the candidate CPU values are 250, 200, 350, 400, that is the set
    {200, 250, 350, 400}.  These candidates are what [get_best_parameters]
    hands to every stored model and indexes with the ranking, so whatever
    it returns is one of them. *)
Theorem advisor_window_candidates `{External}
    (step cpu_limit memory_limit number_of_pods window : Z) :
  0 ≤ window →
  fits cpu_limit step window → fits memory_limit step window → fits number_of_pods 1 window →
  ∃ candidates,
    np_alloc (window * 2) (Point 0 0 0)
      ≫= fill_window step cpu_limit memory_limit number_of_pods window = Ok candidates ∧
    Z.of_nat (length candidates) = 2 * window ∧
    (∀ j, 1 ≤ j ≤ window →
       candidates !! Z.to_nat (j - 1)
       = Some (Point (cpu_limit - j * step) (memory_limit - j * step) (number_of_pods - j)) ∧
       candidates !! Z.to_nat (window + j - 1)
       = Some (Point (cpu_limit + j * step) (memory_limit + j * step) (number_of_pods + j))) ∧
    (window = 2 → step = 50 → cpu_limit = 300 →
       map cpu candidates = [250; 200; 350; 400] ∧
       list_to_set (map cpu candidates) = ({[200; 250; 350; 400]} : gset Z)) ∧
    (∀ (w : world) (s : string) (m0 m1 m2 : pyobj),
       env w !! "STEP" = Some s → py_int s = Ok step →
       fs w !! model_path (cwd w) "average response time" = Some (Joblib m0) →
       fs w !! model_path (cwd w) "cpu usage" = Some (Joblib m1) →
       fs w !! model_path (cwd w) "memory usage" = Some (Joblib m2) →
       get_best_parameters cpu_limit memory_limit number_of_pods window w
       = (predictions ←
            fill_predictions [m0; m1; m2] candidates
              (replicate 3 (replicate (Z.to_nat (window * 2)) zero64));
          prediction_array ←
            fill_prediction_array window predictions
              (replicate (Z.to_nat (window * 2)) (0, 0, 0));
          best_outcome_index ← choose_best (tolist prediction_array);
          getitem candidates best_outcome_index, w) ∧
       ∀ x w', get_best_parameters cpu_limit memory_limit number_of_pods window w
               = (Ok x, w') → x ∈ candidates).
Proof.
  intros Hw Hc Hm Hp.
  exists (neighbours step cpu_limit memory_limit number_of_pods window).
  split; [by apply window_allocated|].
  split; [rewrite length_neighbours; lia|].
  split; [|split].
  - intros j Hj. split; [by apply lookup_neighbours_down | by apply lookup_neighbours_up].
  - intros -> -> ->. split; [reflexivity|]. cbn. set_solver.
  - intros w s m0 m1 m2 Henv Hint H0 H1 H2.
    rewrite (get_best_parameters_run w s step _ _ _ _ m0 m1 m2) by done.
    split.
    + f_equal. by apply (best_parameters_on_neighbours step [m0; m1; m2]).
    + intros x w' [= Hbest _]. by apply best_parameters_neighbour in Hbest.
Qed.

Lemma advisor_window_candidates_witness :
  ∃ candidates,
    np_alloc (2 * 2) (Point 0 0 0) ≫= fill_window 50 300 512 3 2 = Ok candidates ∧
    Z.of_nat (length candidates) = 2 * 2 ∧
    (∀ j, 1 ≤ j ≤ 2 →
       candidates !! Z.to_nat (j - 1)
       = Some (Point (300 - j * 50) (512 - j * 50) (3 - j)) ∧
       candidates !! Z.to_nat (2 + j - 1)
       = Some (Point (300 + j * 50) (512 + j * 50) (3 + j))) ∧
    (2 = 2 → 50 = 50 → 300 = 300 →
       map cpu candidates = [250; 200; 350; 400] ∧
       list_to_set (map cpu candidates) = ({[200; 250; 350; 400]} : gset Z)) ∧
    (∀ (w : world) (s : string) (m0 m1 m2 : pyobj),
       env w !! "STEP" = Some s → py_int (External:=Fixture.doubles) s = Ok 50 →
       fs w !! model_path (cwd w) "average response time" = Some (Joblib m0) →
       fs w !! model_path (cwd w) "cpu usage" = Some (Joblib m1) →
       fs w !! model_path (cwd w) "memory usage" = Some (Joblib m2) →
       get_best_parameters (H:=Fixture.doubles) 300 512 3 2 w
       = (predictions ←
            fill_predictions [m0; m1; m2] candidates
              (replicate 3 (replicate (Z.to_nat (2 * 2)) zero64));
          prediction_array ←
            fill_prediction_array 2 predictions (replicate (Z.to_nat (2 * 2)) (0, 0, 0));
          best_outcome_index ← choose_best (H:=Fixture.doubles) (tolist prediction_array);
          getitem candidates best_outcome_index, w) ∧
       ∀ x w', get_best_parameters (H:=Fixture.doubles) 300 512 3 2 w = (Ok x, w') →
               x ∈ candidates).
Proof.
  apply (advisor_window_candidates (H:=Fixture.doubles) 50 300 512 3 2); [lia | | |];
    unfold fits, int32_min, int32_max; lia.
Defined.

(** The advisor when the three stored models predict rows of the length
    of the window: the neighbour at the index that the ranking returns. *)
Lemma get_best_parameters_ranked `{External} (w : world) (s : string)
    (step cpu_limit memory_limit number_of_pods window : Z)
    (m0 m1 m2 : pyobj) (r0 r1 r2 : list float64) (t0 t1 t2 : list Z) :
  env w !! "STEP" = Some s → py_int s = Ok step →
  fs w !! model_path (cwd w) "average response time" = Some (Joblib m0) →
  fs w !! model_path (cwd w) "cpu usage" = Some (Joblib m1) →
  fs w !! model_path (cwd w) "memory usage" = Some (Joblib m2) →
  0 ≤ window →
  fits cpu_limit step window → fits memory_limit step window → fits number_of_pods 1 window →
  call_predict m0 (neighbours step cpu_limit memory_limit number_of_pods window)
  = Ok (Vector r0) →
  call_predict m1 (neighbours step cpu_limit memory_limit number_of_pods window)
  = Ok (Vector r1) →
  call_predict m2 (neighbours step cpu_limit memory_limit number_of_pods window)
  = Ok (Vector r2) →
  Z.of_nat (length r0) = 2 * window →
  Z.of_nat (length r1) = 2 * window →
  Z.of_nat (length r2) = 2 * window →
  traverse int32_of_float r0 = Ok t0 →
  traverse int32_of_float r1 = Ok t1 →
  traverse int32_of_float r2 = Ok t2 →
  get_best_parameters cpu_limit memory_limit number_of_pods window w
  = (TOPSIS_best_alternative (decision_rows t0 t1 t2) [MIN; MAX; MAX]
       ≫= getitem (neighbours step cpu_limit memory_limit number_of_pods window), w).
Proof.
  intros Henv Hint H0 H1 H2 Hw Hc Hm Hp P0 P1 P2 L0 L1 L2 T0 T1 T2.
  rewrite (get_best_parameters_run w s step _ _ _ _ m0 m1 m2) by done. f_equal.
  apply (best_parameters_ranked step cpu_limit memory_limit number_of_pods window
           m0 m1 m2 r0 r1 r2 t0 t1 t2); try done; rewrite length_neighbours; lia.
Qed.

(** C10: the candidate replica counts are n-1, ..., n-W followed by
    n+1, ..., n+W, without any lower bound; for a window of at least one
    step and n <= W some candidate has a replica count of 0 or less; and
    [get_best_parameters] returns the candidate that the ranking selects
    as it is, whatever its replica count. *)
Theorem advisor_replicas_unbounded `{External} (step cpu_limit memory_limit n window : Z) :
  0 ≤ window →
  fits cpu_limit step window → fits memory_limit step window → fits n 1 window →
  ∃ candidates,
    np_alloc (window * 2) (Point 0 0 0)
      ≫= fill_window step cpu_limit memory_limit n window = Ok candidates ∧
    map pods candidates
    = map (λ j, n - j) (offsets window) ++ map (λ j, n + j) (offsets window) ∧
    (1 ≤ window → n ≤ window →
     ∃ best q,
       0 ≤ best < 2 * window ∧ candidates !! Z.to_nat best = Some q ∧ pods q ≤ 0) ∧
    (∀ (best : Z) (q : ParameterPoint) (w : world) (s : string) (m0 m1 m2 : pyobj)
       (r0 r1 r2 : list float64) (t0 t1 t2 : list Z),
       0 ≤ best < 2 * window → candidates !! Z.to_nat best = Some q →
       env w !! "STEP" = Some s → py_int s = Ok step →
       fs w !! model_path (cwd w) "average response time" = Some (Joblib m0) →
       fs w !! model_path (cwd w) "cpu usage" = Some (Joblib m1) →
       fs w !! model_path (cwd w) "memory usage" = Some (Joblib m2) →
       call_predict m0 candidates = Ok (Vector r0) →
       call_predict m1 candidates = Ok (Vector r1) →
       call_predict m2 candidates = Ok (Vector r2) →
       Z.of_nat (length r0) = 2 * window →
       Z.of_nat (length r1) = 2 * window →
       Z.of_nat (length r2) = 2 * window →
       traverse int32_of_float r0 = Ok t0 →
       traverse int32_of_float r1 = Ok t1 →
       traverse int32_of_float r2 = Ok t2 →
       TOPSIS_best_alternative (decision_rows t0 t1 t2) [MIN; MAX; MAX] = Ok best →
       get_best_parameters cpu_limit memory_limit n window w = (Ok q, w)).
Proof.
  intros Hw Hc Hm Hp.
  exists (neighbours step cpu_limit memory_limit n window).
  split; [by apply window_allocated|]. split; [|split].
  - unfold neighbours. by rewrite map_app, !map_map.
  - intros Hw1 Hn.
    assert (Hj : ∃ j, 1 ≤ j ≤ window ∧ n - j ≤ 0).
    { destruct (Z.le_gt_cases n 0); [exists 1 | exists n]; lia. }
    destruct Hj as (j & Hj & Hpods).
    exists (j - 1), (Point (cpu_limit - j * step) (memory_limit - j * step) (n - j)).
    split; [lia|]. split; [by apply lookup_neighbours_down | exact Hpods].
  - intros best q w s m0 m1 m2 r0 r1 r2 t0 t1 t2 Hrange Hq Henv Hint H0 H1 H2
           P0 P1 P2 L0 L1 L2 T0 T1 T2 Hbest.
    rewrite (get_best_parameters_ranked w s step cpu_limit memory_limit n window
               m0 m1 m2 r0 r1 r2 t0 t1 t2) by done.
    rewrite Hbest. cbn [mbind result_bind]. f_equal.
    rewrite <- (Z2Nat.id best) by lia. by apply getitem_index.
Qed.

Lemma advisor_replicas_unbounded_witness :
  ∃ candidates,
    np_alloc (3 * 2) (Point 0 0 0) ≫= fill_window 50 300 512 2 3 = Ok candidates ∧
    map pods candidates
    = map (λ j, 2 - j) (offsets 3) ++ map (λ j, 2 + j) (offsets 3) ∧
    (1 ≤ 3 → 2 ≤ 3 →
     ∃ best q,
       0 ≤ best < 2 * 3 ∧ candidates !! Z.to_nat best = Some q ∧ pods q ≤ 0) ∧
    (∀ (best : Z) (q : ParameterPoint) (w : world) (s : string) (m0 m1 m2 : pyobj)
       (r0 r1 r2 : list float64) (t0 t1 t2 : list Z),
       0 ≤ best < 2 * 3 → candidates !! Z.to_nat best = Some q →
       env w !! "STEP" = Some s → py_int (External:=Fixture.doubles) s = Ok 50 →
       fs w !! model_path (cwd w) "average response time" = Some (Joblib m0) →
       fs w !! model_path (cwd w) "cpu usage" = Some (Joblib m1) →
       fs w !! model_path (cwd w) "memory usage" = Some (Joblib m2) →
       call_predict m0 candidates = Ok (Vector r0) →
       call_predict m1 candidates = Ok (Vector r1) →
       call_predict m2 candidates = Ok (Vector r2) →
       Z.of_nat (length r0) = 2 * 3 →
       Z.of_nat (length r1) = 2 * 3 →
       Z.of_nat (length r2) = 2 * 3 →
       traverse int32_of_float r0 = Ok t0 →
       traverse int32_of_float r1 = Ok t1 →
       traverse int32_of_float r2 = Ok t2 →
       TOPSIS_best_alternative (External:=Fixture.doubles)
         (decision_rows t0 t1 t2) [MIN; MAX; MAX] = Ok best →
       get_best_parameters (H:=Fixture.doubles) 300 512 2 3 w = (Ok q, w)).
Proof.
  apply (advisor_replicas_unbounded (H:=Fixture.doubles) 50 300 512 2 3); [lia | | |];
    unfold fits, int32_min, int32_max; lia.
Defined.
